(** * sistema-online-render-backend: the REST service and its database

    A shallow embedding of the three copies of the single-file Express
    service of the repository: the complete first version (module [Part000]),
    the rewritten version (module [Part001]) and [server.js], which keeps the
    authentication routes only (module [Server]).

    The JavaScript values that travel through the handlers are JSON values
    ([json]); [JSON.stringify] and [JSON.parse] are modelled on byte strings,
    numbers being the doubles of the engine.  The PostgreSQL tables are lists
    of rows in the order a scan returns them, with the constraints of the
    [CREATE TABLE] statements (serial primary keys, the unique e-mail, the
    foreign key of [etapa_id]) and the conversion of the parameters to the
    types of their columns.  A handler is a function from the database to
    the new database and an [outcome]. *)

From Stdlib Require Import ZArith NArith List String Ascii Decimal DecimalFacts.
From Stdlib Require Import DecimalPos DecimalN Lia Bool.
From stdpp Require Import base option list strings gmap sorting.

Local Open Scope Z_scope.

(** ** JSON values *)

(** The Number values that are not integers: negative zero, the infinities
    (what a literal beyond the range of a double becomes), and the doubles
    with a fractional part, [Fraction m e] being m / 2^e with m odd. *)
Inductive float : Type :=
  | NegZero
  | Infinity (negative : bool)
  | Fraction (m : Z) (e : positive).

(** [JNum z] is the Number whose value is the integer [z], which is a
    double: every integer up to 2^53 in magnitude is one, a larger one when
    it is m * 2^e with m below 2^53.  An object is the sequence of its
    properties in the order of the engine: the keys that are array indices
    in ascending order, then the other keys in the order of their creation,
    no key twice. *)
Unset Elimination Schemes.
Inductive json : Type :=
  | JNull
  | JBool (b : bool)
  | JNum (z : Z)
  | JFloat (x : float)
  | JStr (s : string)
  | JArr (items : list json)
  | JObj (members : list (string * json)).
Set Elimination Schemes.

Section json_induction.
Variable P : json -> Prop.
Hypothesis Hnull : P JNull.
Hypothesis Hbool : forall b, P (JBool b).
Hypothesis Hnum : forall z, P (JNum z).
Hypothesis Hfloat : forall x, P (JFloat x).
Hypothesis Hstr : forall s, P (JStr s).
Hypothesis Harr : forall items, Forall P items -> P (JArr items).
Hypothesis Hobj : forall ms, Forall (fun m => P (snd m)) ms -> P (JObj ms).

Fixpoint json_nested_ind (v : json) : P v :=
  match v with
  | JNull => Hnull
  | JBool b => Hbool b
  | JNum z => Hnum z
  | JFloat x => Hfloat x
  | JStr s => Hstr s
  | JArr items =>
      Harr items
        ((fix go (l : list json) : Forall P l :=
            match l with
            | [] => @List.Forall_nil json P
            | x :: l' => @List.Forall_cons _ P x l' (json_nested_ind x) (go l')
            end) items)
  | JObj ms =>
      Hobj ms
        ((fix go (l : list (string * json)) : Forall (fun m => P (snd m)) l :=
            match l with
            | [] => @List.Forall_nil (string * json) (fun m => P (snd m))
            | m :: l' =>
                @List.Forall_cons _ (fun m => P (snd m)) m l'
                  (json_nested_ind (snd m)) (go l')
            end) ms)
  end.
End json_induction.

(** A JavaScript value that may be [undefined]. *)
Definition jsval := option json.

Definition chars := list ascii.

Definition dquote : ascii := "034"%char.

(** ToBoolean: what [x || d] and [!x] test. *)
Definition truthy (v : jsval) : bool :=
  match v with
  | None => false
  | Some JNull => false
  | Some (JBool b) => b
  | Some (JNum z) => negb (z =? 0)
  | Some (JFloat NegZero) => false
  | Some (JFloat _) => true
  | Some (JStr s) => negb (String.eqb s EmptyString)
  | Some (JArr _) => true
  | Some (JObj _) => true
  end.

(** [x || d] on a value that may be undefined. *)
Definition or_else (v : jsval) (d : json) : json :=
  match v with
  | Some x => if truthy v then x else d
  | None => d
  end.

(** ** Numbers *)

Fixpoint uint_chars (d : uint) : chars :=
  match d with
  | Nil => []
  | D0 d => "0"%char :: uint_chars d
  | D1 d => "1"%char :: uint_chars d
  | D2 d => "2"%char :: uint_chars d
  | D3 d => "3"%char :: uint_chars d
  | D4 d => "4"%char :: uint_chars d
  | D5 d => "5"%char :: uint_chars d
  | D6 d => "6"%char :: uint_chars d
  | D7 d => "7"%char :: uint_chars d
  | D8 d => "8"%char :: uint_chars d
  | D9 d => "9"%char :: uint_chars d
  end.

(** The decimal digits of an integer, with its sign. *)
Definition number_chars (z : Z) : chars :=
  match z with
  | Z0 => ["0"%char]
  | Zpos p => uint_chars (Pos.to_uint p)
  | Zneg p => "-"%char :: uint_chars (Pos.to_uint p)
  end.

Definition number_string (z : Z) : string := string_of_list_ascii (number_chars z).

(** 2^53: every integer up to it in magnitude is a double, and
    Number::toString writes it with all its digits. *)
Definition two53 : Z := 9007199254740992.

Definition signed (neg : bool) (z : Z) : Z := if neg then - z else z.

(** The Number of a non-negative integer with a sign. *)
Definition integer (neg : bool) (a : Z) : json :=
  if a =? 0 then (if neg then JFloat NegZero else JNum 0) else JNum (signed neg a).

(** The quotient rounded to the nearest integer, a tie to the even one. *)
Definition div_even (num den : Z) : Z :=
  let q := num / den in
  let r := num mod den in
  if (den <? 2 * r) || ((den =? 2 * r) && Z.odd q) then q + 1 else q.

(** The double nearest to a/b (a and b positive), as a mantissa below or
    equal to 2^53 and an exponent not below -1074; [None] beyond the largest
    double. *)
Definition nearest_double (a b : Z) : option (Z * Z) :=
  let l := Z.log2 a - Z.log2 b in
  let below := if 0 <=? l then a <? b * 2 ^ l else a * 2 ^ (- l) <? b in
  let e := Z.max (if below then l - 53 else l - 52) (-1074) in
  let m := if 0 <=? e then div_even a (b * 2 ^ e) else div_even (a * 2 ^ (- e)) b in
  if (0 <=? e) && (2 ^ 1024 <=? m * 2 ^ e) then None else Some (m, e).

(** The Number m * 2^e with a sign. *)
Definition number_of (neg : bool) (m e : Z) : json :=
  if 0 <=? e then integer neg (m * 2 ^ e)
  else
    let g := Z.gcd m (2 ^ (- e)) in
    let e' := - e - Z.log2 g in
    if (m =? 0) || (e' =? 0) then integer neg (m / g)
    else JFloat (Fraction (signed neg (m / g)) (Z.to_pos e')).

(** The Number nearest to a/b with a sign, for a not negative and b
    positive. *)
Definition to_number (neg : bool) (a b : Z) : json :=
  if (b =? 1) && (a <=? two53) then integer neg a
  else
    match nearest_double a b with
    | Some (m, e) => number_of neg m e
    | None => JFloat (Infinity neg)
    end.

(** The Number of the decimal s * 10^t with a sign, for s not negative. *)
Definition decimal (neg : bool) (s t : Z) : json :=
  if (s =? 0) || ((t =? 0) && (s <=? two53)) then integer neg s
  else
    let d := Z.of_nat (length (number_chars s)) in
    if 400 <? t + d then JFloat (Infinity neg)
    else if t + d <? -400 then integer neg 0
    else if 0 <=? t then to_number neg (s * 10 ^ t) 1
    else to_number neg s (10 ^ (- t)).

Definition same_number (x y : json) : bool :=
  match x, y with
  | JNum a, JNum b => a =? b
  | JFloat NegZero, JFloat NegZero => true
  | JFloat (Infinity s), JFloat (Infinity s') => Bool.eqb s s'
  | JFloat (Fraction m e), JFloat (Fraction m' e') => (m =? m') && (e =? e')%positive
  | _, _ => false
  end.

(** The least j, from [j] on, with b <= a * 10^j. *)
Fixpoint scale_up (fuel : nat) (a b j : Z) : Z :=
  match fuel with
  | O => j
  | S fuel => if b <=? a * 10 then j else scale_up fuel (a * 10) b (j + 1)
  end.

(** The n with 10^(n-1) <= a/b < 10^n. *)
Definition decimal_point (a b : Z) : Z :=
  if b <=? a then Z.of_nat (length (number_chars (a / b)))
  else 1 - scale_up 400 a b 1.

(** The decimal of [k] digits that is a neighbour of a/b and which
    [x], the Number of a/b, is the nearest Number of: the closer one when
    both are. *)
Definition candidate (x : json) (a b n k : Z) : option (Z * Z) :=
  let t := n - k in
  let num := if 0 <=? t then a else a * 10 ^ (- t) in
  let den := if 0 <=? t then b * 10 ^ t else b in
  let lo := num / den in
  let r := num mod den in
  let lo_ok := same_number (decimal false lo t) x in
  let hi_ok := same_number (decimal false (lo + 1) t) x in
  if lo_ok && hi_ok then
    if (2 * r <? den) || ((2 * r =? den) && Z.even lo) then Some (lo, t)
    else Some (lo + 1, t)
  else if lo_ok then Some (lo, t)
  else if hi_ok then Some (lo + 1, t)
  else None.

(** The shortest decimal that [x] is the nearest Number of; seventeen
    digits always do. *)
Fixpoint shortest (fuel : nat) (x : json) (a b n k : Z) : Z * Z :=
  match fuel with
  | O =>
      let t := n - k in
      (if 0 <=? t then div_even a (b * 10 ^ t) else div_even (a * 10 ^ (- t)) b, t)
  | S fuel =>
      match candidate x a b n k with
      | Some r => r
      | None => shortest fuel x a b n (k + 1)
      end
  end.

Fixpoint drop_zeros (l : chars) : chars :=
  match l with
  | c :: r => if Ascii.eqb c "0" then drop_zeros r else l
  | [] => []
  end.

Definition zeros (n : Z) : chars := repeat "0"%char (Z.to_nat n).

(** Number::toString, from the digits and the position of the point. *)
Definition format_number (ds : chars) (n : Z) : chars :=
  let k := Z.of_nat (length ds) in
  if (-5 <=? n) && (n <=? 21) then
    if k <=? n then ds ++ zeros (n - k)
    else if 0 <? n then firstn (Z.to_nat n) ds ++ "."%char :: skipn (Z.to_nat n) ds
    else "0"%char :: "."%char :: zeros (- n) ++ ds
  else
    let e := n - 1 in
    let exponent :=
      "e"%char :: (if 0 <=? e then "+"%char else "-"%char) :: number_chars (Z.abs e) in
    match ds with
    | [] => []
    | [c] => c :: exponent
    | c :: r => c :: "."%char :: r ++ exponent
    end.

Definition shortest_text (x : json) (a b : Z) : chars :=
  let '(s, t) := shortest 16 x a b (decimal_point a b) 1 in
  let ds := number_chars s in
  format_number (rev (drop_zeros (rev ds))) (Z.of_nat (length ds) + t).

(** Number::toString. *)
Definition number_text (v : json) : chars :=
  match v with
  | JNum z =>
      if Z.abs z <=? two53 then number_chars z
      else (if z <? 0 then ["-"%char] else [])
             ++ shortest_text (JNum (Z.abs z)) (Z.abs z) 1
  | JFloat NegZero => ["0"%char]
  | JFloat (Infinity neg) =>
      list_ascii_of_string (if neg then "-Infinity" else "Infinity")
  | JFloat (Fraction m e) =>
      (if m <? 0 then ["-"%char] else [])
        ++ shortest_text (JFloat (Fraction (Z.abs m) e)) (Z.abs m) (2 ^ Zpos e)
  | _ => []
  end.

(** ** Objects *)

Definition digit_of_char (c : ascii) : option (uint -> uint) :=
  if Ascii.eqb c "0" then Some D0
  else if Ascii.eqb c "1" then Some D1
  else if Ascii.eqb c "2" then Some D2
  else if Ascii.eqb c "3" then Some D3
  else if Ascii.eqb c "4" then Some D4
  else if Ascii.eqb c "5" then Some D5
  else if Ascii.eqb c "6" then Some D6
  else if Ascii.eqb c "7" then Some D7
  else if Ascii.eqb c "8" then Some D8
  else if Ascii.eqb c "9" then Some D9
  else None.

(** The longest prefix of decimal digits, and what follows it. *)
Fixpoint read_uint (s : chars) : uint * chars :=
  match s with
  | c :: r =>
      match digit_of_char c with
      | Some D => let '(d, r') := read_uint r in (D d, r')
      | None => (Nil, s)
      end
  | [] => (Nil, [])
  end.

(** The index that a key is, when it is an array index: the decimal digits
    of an integer below 2^32 - 1, as Number::toString writes them. *)
Definition index_key (k : string) : option Z :=
  let n := Z.of_N (N.of_uint (fst (read_uint (list_ascii_of_string k)))) in
  if String.eqb (number_string n) k && (n <? 4294967295) then Some n else None.

Definition has_key (k : string) (ms : list (string * json)) : bool :=
  existsb (fun m => String.eqb k (fst m)) ms.

(** A new array index comes before the greater indices and the names. *)
Fixpoint insert_index (i : Z) (k : string) (v : json) (ms : list (string * json))
  : list (string * json) :=
  match ms with
  | [] => [(k, v)]
  | m :: r =>
      match index_key (fst m) with
      | Some j => if j <? i then m :: insert_index i k v r else (k, v) :: ms
      | None => (k, v) :: ms
      end
  end.

(** Creating or writing the property [k] of an object. *)
Definition obj_set (k : string) (v : json) (ms : list (string * json))
  : list (string * json) :=
  if has_key k ms
  then map (fun m => if String.eqb k (fst m) then (fst m, v) else m) ms
  else
    match index_key k with
    | Some i => insert_index i k v ms
    | None => ms ++ [(k, v)]
    end.

(** The object whose properties are written one after the other. *)
Definition object_of (ms : list (string * json)) : list (string * json) :=
  fold_left (fun acc m => obj_set (fst m) (snd m) acc) ms [].

(** Keys in the order of the engine, from an index [last] on. *)
Fixpoint ordered_from (last : Z) (named : bool) (ks : list string) : bool :=
  match ks with
  | [] => true
  | k :: r =>
      negb (existsb (String.eqb k) r)
      && match index_key k with
         | Some i => negb named && (last <? i) && ordered_from i false r
         | None => ordered_from last true r
         end
  end.

Definition ordered (ks : list string) : bool := ordered_from (-1) false ks.

(** ** JSON.stringify *)

Definition hex_digit (n : N) : ascii :=
  nth (N.to_nat n) (list_ascii_of_string "0123456789abcdef") "0"%char.

(** QuoteJSONString, one character. *)
Definition escape_char (c : ascii) : chars :=
  if Ascii.eqb c dquote then ["\"%char; dquote]
  else if Ascii.eqb c "\" then ["\"%char; "\"%char]
  else if Ascii.eqb c "008" then ["\"%char; "b"%char]
  else if Ascii.eqb c "009" then ["\"%char; "t"%char]
  else if Ascii.eqb c "010" then ["\"%char; "n"%char]
  else if Ascii.eqb c "012" then ["\"%char; "f"%char]
  else if Ascii.eqb c "013" then ["\"%char; "r"%char]
  else if (N_of_ascii c <? 32)%N
       then ["\"%char; "u"%char; "0"%char; "0"%char;
             hex_digit (N_of_ascii c / 16); hex_digit (N_of_ascii c mod 16)]
       else [c].

Definition quote (s : string) : chars :=
  dquote :: flat_map escape_char (list_ascii_of_string s) ++ [dquote].

Fixpoint join_commas (l : list chars) : chars :=
  match l with
  | [] => []
  | [x] => x
  | x :: r => x ++ ","%char :: join_commas r
  end.

(** A number that is not finite is written [null]. *)
Fixpoint print (v : json) : chars :=
  match v with
  | JNull => list_ascii_of_string "null"
  | JBool true => list_ascii_of_string "true"
  | JBool false => list_ascii_of_string "false"
  | JNum z => number_text (JNum z)
  | JFloat (Infinity _) => list_ascii_of_string "null"
  | JFloat x => number_text (JFloat x)
  | JStr s => quote s
  | JArr items => "["%char :: join_commas (map print items) ++ ["]"%char]
  | JObj ms =>
      "{"%char
        :: join_commas (map (fun m => quote (fst m) ++ ":"%char :: print (snd m)) ms)
        ++ ["}"%char]
  end.

Definition JSON_stringify (v : json) : string := string_of_list_ascii (print v).

(** ** JSON.parse *)

Definition is_ws (c : ascii) : bool :=
  Ascii.eqb c " " || Ascii.eqb c "009" || Ascii.eqb c "010" || Ascii.eqb c "013".

Fixpoint skip_ws (s : chars) : chars :=
  match s with
  | c :: r => if is_ws c then skip_ws r else s
  | [] => []
  end.

Definition hex_val (c : ascii) : option N :=
  let n := N_of_ascii c in
  if ((48 <=? n) && (n <=? 57))%N then Some (n - 48)%N
  else if ((97 <=? n) && (n <=? 102))%N then Some (n - 87)%N
  else if ((65 <=? n) && (n <=? 70))%N then Some (n - 55)%N
  else None.

Definition hex4 (a b c d : ascii) : option N :=
  match hex_val a, hex_val b, hex_val c, hex_val d with
  | Some x, Some y, Some z, Some w => Some (((x * 16 + y) * 16 + z) * 16 + w)%N
  | _, _, _, _ => None
  end.

(** The UTF-8 bytes of a code point (a lone surrogate is written the same
    way, on three bytes). *)
Definition utf8 (n : N) : chars :=
  (if n <? 128 then [ascii_of_N n]
   else if n <? 2048 then [ascii_of_N (192 + n / 64); ascii_of_N (128 + n mod 64)]
   else if n <? 65536 then
     [ascii_of_N (224 + n / 4096); ascii_of_N (128 + (n / 64) mod 64);
      ascii_of_N (128 + n mod 64)]
   else
     [ascii_of_N (240 + n / 262144); ascii_of_N (128 + (n / 4096) mod 64);
      ascii_of_N (128 + (n / 64) mod 64); ascii_of_N (128 + n mod 64)])%N.

Definition prepend (pre : chars) (r : option (chars * chars)) : option (chars * chars) :=
  match r with
  | Some (str, rest) => Some (pre ++ str, rest)
  | None => None
  end.

(** A low surrogate escape at the head of [s], if there is one. *)
Definition low_surrogate (s : chars) : option N :=
  match s with
  | b :: u :: a1 :: a2 :: a3 :: a4 :: _ =>
      if Ascii.eqb b "\" && Ascii.eqb u "u" then
        match hex4 a1 a2 a3 a4 with
        | Some lo => if ((56320 <=? lo) && (lo <? 57344))%N then Some lo else None
        | None => None
        end
      else None
  | _ => None
  end.

Definition is_high_surrogate (n : N) : bool := ((55296 <=? n) && (n <? 56320))%N.

(** The characters of a string literal after its opening quote, up to the
    closing quote. *)
Fixpoint parse_string_body (s : chars) : option (chars * chars) :=
  match s with
  | [] => None
  | c :: r =>
      if Ascii.eqb c dquote then Some ([], r)
      else if Ascii.eqb c "\" then
        match r with
        | [] => None
        | e :: r1 =>
            if Ascii.eqb e dquote || Ascii.eqb e "\" || Ascii.eqb e "/"
            then prepend [e] (parse_string_body r1)
            else if Ascii.eqb e "b" then prepend ["008"%char] (parse_string_body r1)
            else if Ascii.eqb e "t" then prepend ["009"%char] (parse_string_body r1)
            else if Ascii.eqb e "n" then prepend ["010"%char] (parse_string_body r1)
            else if Ascii.eqb e "f" then prepend ["012"%char] (parse_string_body r1)
            else if Ascii.eqb e "r" then prepend ["013"%char] (parse_string_body r1)
            else if Ascii.eqb e "u" then
              match r1 with
              | a1 :: a2 :: a3 :: a4 :: r2 =>
                  match hex4 a1 a2 a3 a4 with
                  | Some hi =>
                      if is_high_surrogate hi then
                        match r2 with
                        | _ :: _ :: _ :: _ :: _ :: _ :: r3 =>
                            match low_surrogate r2 with
                            | Some lo =>
                                prepend
                                  (utf8 (65536 + (hi - 55296) * 1024 + (lo - 56320))%N)
                                  (parse_string_body r3)
                            | None => prepend (utf8 hi) (parse_string_body r2)
                            end
                        | _ => prepend (utf8 hi) (parse_string_body r2)
                        end
                      else prepend (utf8 hi) (parse_string_body r2)
                  | None => None
                  end
              | _ => None
              end
            else None
        end
      else if (N_of_ascii c <? 32)%N then None
      else prepend [c] (parse_string_body r)
  end.

Definition parse_int_part (s : chars) : option (uint * chars) :=
  match s with
  | c :: r =>
      if Ascii.eqb c "0" then Some (D0 Nil, r)
      else match digit_of_char c with
           | Some _ => Some (read_uint s)
           | None => None
           end
  | [] => None
  end.

(** The digits of an optional fraction. *)
Definition parse_frac (s : chars) : option (uint * chars) :=
  match s with
  | c :: r =>
      if Ascii.eqb c "." then
        match read_uint r with
        | (Nil, _) => None
        | (d, r') => Some (d, r')
        end
      else Some (Nil, s)
  | [] => Some (Nil, [])
  end.

(** The value of an optional exponent. *)
Definition parse_exp (s : chars) : option (Z * chars) :=
  match s with
  | c :: r =>
      if Ascii.eqb c "e" || Ascii.eqb c "E" then
        let '(minus, r1) :=
          match r with
          | x :: r1 =>
              if Ascii.eqb x "+" then (false, r1)
              else if Ascii.eqb x "-" then (true, r1)
              else (false, r)
          | [] => (false, [])
          end in
        match read_uint r1 with
        | (Nil, _) => None
        | (d, r2) => Some (signed minus (Z.of_N (N.of_uint d)), r2)
        end
      else Some (0, s)
  | [] => Some (0, [])
  end.

(** A number literal is read as the Number nearest to its value. *)
Definition parse_number (s : chars) : option (json * chars) :=
  let '(neg, s1) :=
    match s with
    | c :: r => if Ascii.eqb c "-" then (true, r) else (false, s)
    | [] => (false, [])
    end in
  match parse_int_part s1 with
  | None => None
  | Some (ip, r1) =>
      match parse_frac r1 with
      | None => None
      | Some (fp, r2) =>
          match parse_exp r2 with
          | None => None
          | Some (ex, r3) =>
              let places := Z.of_nat (nb_digits fp) in
              Some (decimal neg
                      (Z.of_N (N.of_uint ip) * 10 ^ places + Z.of_N (N.of_uint fp))
                      (ex - places),
                    r3)
          end
      end
  end.

(** [expect lit s]: [s] without its prefix [lit]. *)
Fixpoint expect (lit s : chars) : option chars :=
  match lit, s with
  | [], _ => Some s
  | a :: lit', c :: r => if Ascii.eqb a c then expect lit' r else None
  | _ :: _, [] => None
  end.

Fixpoint parse_value (fuel : nat) (s : chars) : option (json * chars) :=
  match fuel with
  | O => None
  | S fuel =>
      match skip_ws s with
      | [] => None
      | c :: r =>
          if Ascii.eqb c "n" then
            match expect (list_ascii_of_string "ull") r with
            | Some r' => Some (JNull, r')
            | None => None
            end
          else if Ascii.eqb c "t" then
            match expect (list_ascii_of_string "rue") r with
            | Some r' => Some (JBool true, r')
            | None => None
            end
          else if Ascii.eqb c "f" then
            match expect (list_ascii_of_string "alse") r with
            | Some r' => Some (JBool false, r')
            | None => None
            end
          else if Ascii.eqb c dquote then
            match parse_string_body r with
            | Some (str, r') => Some (JStr (string_of_list_ascii str), r')
            | None => None
            end
          else if Ascii.eqb c "[" then
            match skip_ws r with
            | c' :: r' =>
                if Ascii.eqb c' "]" then Some (JArr [], r')
                else match parse_elements fuel r with
                     | Some (items, r'') => Some (JArr items, r'')
                     | None => None
                     end
            | [] => None
            end
          else if Ascii.eqb c "{" then
            match skip_ws r with
            | c' :: r' =>
                if Ascii.eqb c' "}" then Some (JObj [], r')
                else match parse_members fuel r with
                     | Some (ms, r'') => Some (JObj (object_of ms), r'')
                     | None => None
                     end
            | [] => None
            end
          else parse_number (c :: r)
      end
  end
with parse_elements (fuel : nat) (s : chars) : option (list json * chars) :=
  match fuel with
  | O => None
  | S fuel =>
      match parse_value fuel s with
      | Some (v, r) =>
          match skip_ws r with
          | c :: r' =>
              if Ascii.eqb c "," then
                match parse_elements fuel r' with
                | Some (vs, r'') => Some (v :: vs, r'')
                | None => None
                end
              else if Ascii.eqb c "]" then Some ([v], r')
              else None
          | [] => None
          end
      | None => None
      end
  end
with parse_members (fuel : nat) (s : chars) : option (list (string * json) * chars) :=
  match fuel with
  | O => None
  | S fuel =>
      match skip_ws s with
      | q :: r =>
          if Ascii.eqb q dquote then
            match parse_string_body r with
            | Some (k, r1) =>
                match skip_ws r1 with
                | c :: r2 =>
                    if Ascii.eqb c ":" then
                      match parse_value fuel r2 with
                      | Some (v, r3) =>
                          match skip_ws r3 with
                          | c' :: r4 =>
                              if Ascii.eqb c' "," then
                                match parse_members fuel r4 with
                                | Some (ms, r5) =>
                                    Some ((string_of_list_ascii k, v) :: ms, r5)
                                | None => None
                                end
                              else if Ascii.eqb c' "}"
                              then Some ([(string_of_list_ascii k, v)], r4)
                              else None
                          | [] => None
                          end
                      | None => None
                      end
                    else None
                | [] => None
                end
            | None => None
            end
          else None
      | [] => None
      end
  end.

(** [JSON.parse]: [None] is the SyntaxError it throws. *)
Definition JSON_parse (text : string) : option json :=
  let s := list_ascii_of_string text in
  match parse_value (S (length s)) s with
  | Some (v, r) => match skip_ws r with [] => Some v | _ :: _ => None end
  | None => None
  end.

(** A value whose numbers are integers of magnitude at most 2^53, and whose
    objects have their keys in the order of the engine. *)
Fixpoint integral (v : json) : bool :=
  match v with
  | JNum z => Z.abs z <=? two53
  | JFloat _ => false
  | JArr items => forallb integral items
  | JObj ms => ordered (map fst ms) && forallb (fun m => integral (snd m)) ms
  | _ => true
  end.

(** The number of nodes of a value, counting each array element and each
    object member once more: the recursion depth [parse_value] needs. *)
Fixpoint json_size (v : json) : nat :=
  match v with
  | JArr items => S (list_sum (map (fun x => S (json_size x)) items))
  | JObj ms => S (list_sum (map (fun m => S (json_size (snd m))) ms))
  | _ => 1%nat
  end.

(** What may follow a value inside a text: nothing, or the comma or bracket
    that closes it. *)
Definition delimited (rest : chars) : Prop :=
  match rest with
  | [] => True
  | c :: _ => c = ","%char \/ c = "]"%char \/ c = "}"%char
  end.

Definition digit19 (c : ascii) : bool :=
  existsb (Ascii.eqb c) (list_ascii_of_string "123456789").

(** ** The JavaScript the handlers use *)

(** Reading a property: the last member of that name, or undefined. *)
Fixpoint member (k : string) (ms : list (string * json)) : jsval :=
  match ms with
  | [] => None
  | (k', v) :: r =>
      match member k r with
      | Some x => Some x
      | None => if String.eqb k k' then Some v else None
      end
  end.

(** [v.k] for a name [k] that the prototypes do not define: [None] is the
    TypeError of reading a property of [null]. *)
Definition get_prop (v : json) (k : string) : option jsval :=
  match v with
  | JNull => None
  | JObj ms => Some (member k ms)
  | _ => Some None
  end.

Definition is_continuation (c : ascii) : bool :=
  let n := N_of_ascii c in ((128 <=? n) && (n <? 192))%N.

(** The code points of a UTF-8 text, each as a string. *)
Fixpoint code_points (s : string) : list string :=
  match s with
  | EmptyString => []
  | String c r =>
      match code_points r with
      | p :: ps =>
          match p with
          | String c' _ =>
              if is_continuation c' then String c p :: ps
              else String c EmptyString :: p :: ps
          | EmptyString => String c EmptyString :: ps
          end
      | [] => [String c EmptyString]
      end
  end.

(** What [for (const x of v)] visits: [None] is the TypeError of a value
    that is not iterable. *)
Definition iterate (v : json) : option (list json) :=
  match v with
  | JArr items => Some items
  | JStr s => Some (map JStr (code_points s))
  | _ => None
  end.

Fixpoint join_strings (l : list string) : string :=
  match l with
  | [] => EmptyString
  | [x] => x
  | x :: r => x +:+ "," +:+ join_strings r
  end.

(** ToString. *)
Fixpoint to_string (v : json) : string :=
  match v with
  | JNull => "null"
  | JBool true => "true"
  | JBool false => "false"
  | JNum z => string_of_list_ascii (number_text (JNum z))
  | JFloat x => string_of_list_ascii (number_text (JFloat x))
  | JStr s => s
  | JArr items =>
      join_strings
        (map (fun x => match x with JNull => EmptyString | _ => to_string x end) items)
  | JObj _ => "[object Object]"
  end.

(** The property key [o[v]] reads and writes. *)
Definition property_key (v : jsval) : string :=
  match v with
  | None => "undefined"
  | Some x => to_string x
  end.

(** [header.split(' ')]. *)
Fixpoint split_space (s : string) : list string :=
  match s with
  | EmptyString => [EmptyString]
  | String c r =>
      if Ascii.eqb c " " then EmptyString :: split_space r
      else match split_space r with
           | p :: ps => String c p :: ps
           | [] => [String c EmptyString]
           end
  end.

(** [s || d] on a string that may be undefined. *)
Definition str_or (s : option string) (d : string) : string :=
  match s with
  | Some x => if String.eqb x EmptyString then d else x
  | None => d
  end.

(** [!s]. *)
Definition absent (s : option string) : bool :=
  match s with
  | Some x => String.eqb x EmptyString
  | None => true
  end.

(** [s || null], as the column value. *)
Definition str_or_null (s : option string) : option string :=
  match s with
  | Some x => if String.eqb x EmptyString then None else Some x
  | None => None
  end.

(** [n || 0]. *)
Definition num_or_zero (n : option Z) : Z :=
  match n with
  | Some x => x
  | None => 0
  end.

(** The value when it is a string. *)
Definition as_string (v : jsval) : option string :=
  match v with
  | Some (JStr s) => Some s
  | _ => None
  end.

(** [n || null], as the column value. *)
Definition num_or_null (n : option Z) : option Z :=
  match n with
  | Some x => if x =? 0 then None else Some x
  | None => None
  end.

(** ** Responses *)

(** What a handler does with the response: it answers with a status and a
    JSON body ([res.status(s).json(body)]; [res.json(undefined)] sends an
    empty body), or the promise of the handler rejects: nothing is sent, and
    the rejection, which nothing handles, ends the process. *)
Inductive outcome : Type :=
  | Responded (status : Z) (body : jsval)
  | Threw.

Definition error (msg : string) : jsval := Some (JObj [("error", JStr msg)]).

Definition ok_true : jsval := Some (JObj [("ok", JBool true)]).

Definition null_or_str (s : option string) : json :=
  match s with
  | Some x => JStr x
  | None => JNull
  end.

Definition null_or_num (n : option Z) : json :=
  match n with
  | Some x => JNum x
  | None => JNull
  end.

(** ** The libraries and the services *)

(** The payload [gerarToken] signs and [jwt.verify] gives back. *)
Record claims : Type := { claim_id : Z; claim_email : string; claim_is_admin : bool }.

(** bcrypt and jsonwebtoken, the latter with the process-wide SECRET and the
    clock of the request: [bcrypt_hash salt data] is [bcrypt.hash(data, 10)]
    with the salt it draws, [bcrypt_compare data hash] is [bcrypt.compare],
    [jwt_verify token] is [None] when [jwt.verify] throws.  PostgreSQL and
    its driver, for the DATE columns: [date_in text] is the DATE that
    PostgreSQL reads from a text, as the text it writes this DATE with, or
    [None] when it rejects the text; [date_out date] is the text that
    [res.json] writes for the Date the driver builds from a DATE, the ISO
    form of the instant of its midnight in the time zone of the process. *)
Class Libs : Type := {
  bcrypt_hash : string -> string -> string;
  bcrypt_compare : string -> string -> bool;
  jwt_sign : claims -> string;
  jwt_verify : string -> option claims;
  date_in : string -> option string;
  date_out : string -> string }.

(** ** The database *)

(** The tables of [initDb], each as the list of its rows in the order a
    scan returns them.  The [users] columns hold what the service writes
    there, which is never NULL; [created_at] is never read.  A DATE is kept
    as the text PostgreSQL writes it with.  Each table comes with the last
    value of the sequence of its SERIAL key. *)

Record user : Type := {
  user_id : Z;
  user_name : string;
  user_email : string;
  user_password : string;
  user_is_admin : bool }.

Record etapa : Type := { et_id : Z; et_nome : string }.

Record carisma : Type := { car_id : Z; car_nome : string }.

(** The fourteen columns the service writes, in the order of the
    parameters [$1] to [$14]. *)
Record vals : Type := {
  numero_comunidade : option string;
  nome_diocese : option string;
  nome_bispo : option string;
  nome_cidade : option string;
  nome_paroquia : option string;
  nome_paroco : option string;
  nome_vigario : option string;
  qtd_total : option Z;
  qtd_jovens : option Z;
  etapa_id : option Z;
  data_formacao : option string;
  data_ultima_etapa : option string;
  levantados_json : option string;
  carismas_json : option string }.

Record comunidade : Type := { com_id : Z; com_vals : vals }.

Record db : Type := {
  users : list user;
  users_seq : Z;
  etapas : list etapa;
  etapas_seq : Z;
  carismas : list carisma;
  carismas_seq : Z;
  comunidades : list comunidade;
  comunidades_seq : Z }.

Definition set_users (us : list user) (seq : Z) (d : db) : db :=
  {| users := us; users_seq := seq;
     etapas := etapas d; etapas_seq := etapas_seq d;
     carismas := carismas d; carismas_seq := carismas_seq d;
     comunidades := comunidades d; comunidades_seq := comunidades_seq d |}.

Definition set_etapas (es : list etapa) (seq : Z) (d : db) : db :=
  {| users := users d; users_seq := users_seq d;
     etapas := es; etapas_seq := seq;
     carismas := carismas d; carismas_seq := carismas_seq d;
     comunidades := comunidades d; comunidades_seq := comunidades_seq d |}.

Definition set_carismas (cs : list carisma) (seq : Z) (d : db) : db :=
  {| users := users d; users_seq := users_seq d;
     etapas := etapas d; etapas_seq := etapas_seq d;
     carismas := cs; carismas_seq := seq;
     comunidades := comunidades d; comunidades_seq := comunidades_seq d |}.

Definition set_comunidades (cs : list comunidade) (seq : Z) (d : db) : db :=
  {| users := users d; users_seq := users_seq d;
     etapas := etapas d; etapas_seq := etapas_seq d;
     carismas := carismas d; carismas_seq := carismas_seq d;
     comunidades := cs; comunidades_seq := seq |}.

Definition empty_db : db :=
  {| users := []; users_seq := 0; etapas := []; etapas_seq := 0;
     carismas := []; carismas_seq := 0; comunidades := []; comunidades_seq := 0 |}.

(** [INSERT INTO etapas (nome) VALUES ($1) ON CONFLICT DO NOTHING]: the
    sequence advances also when the row is skipped. *)
Definition seed_etapa (d : db) (nome : string) : db :=
  let id := etapas_seq d + 1 in
  if existsb (fun e => (et_id e =? id) || String.eqb (et_nome e) nome) (etapas d)
  then set_etapas (etapas d) id d
  else set_etapas (etapas d ++ [{| et_id := id; et_nome := nome |}]) id d.

Definition seed_carisma (d : db) (nome : string) : db :=
  let id := carismas_seq d + 1 in
  if existsb (fun c => (car_id c =? id) || String.eqb (car_nome c) nome) (carismas d)
  then set_carismas (carismas d) id d
  else set_carismas (carismas d ++ [{| car_id := id; car_nome := nome |}]) id d.

Definition initDb (d : db) : db :=
  let d1 := fold_left seed_etapa ["Iniciação"; "Formação"; "Missão"; "Consolidação"] d in
  fold_left seed_carisma ["Encontro"; "Animação"; "Acolhida"; "Evangelização"; "Liturgia"] d1.

(** [INSERT INTO users ... RETURNING]: the new row, or [None] when the
    statement fails on the primary key or on the unique e-mail. *)
Definition insert_user (name email password : string) (is_admin : bool) (d : db)
  : db * option user :=
  let id := users_seq d + 1 in
  if existsb (fun u => user_id u =? id) (users d)
     || existsb (fun u => String.eqb (user_email u) email) (users d)
  then (set_users (users d) id d, None)
  else
    let u := {| user_id := id; user_name := name; user_email := email;
                user_password := password; user_is_admin := is_admin |} in
    (set_users (users d ++ [u]) id d, Some u).

(** [SELECT * FROM users WHERE email = $1]: no row equals an undefined
    (NULL) parameter. *)
Definition users_by_email (email : option string) (d : db) : list user :=
  match email with
  | Some e => filter (fun u => String.eqb (user_email u) e = true) (users d)
  | None => []
  end.

Definition users_by_id (id : Z) (d : db) : list user :=
  filter (fun u => user_id u = id) (users d).

(** [UPDATE users SET name=$1,email=$2,password=$3 WHERE id=$4]: [None]
    when the new e-mail is the one of a row that is not updated. *)
Definition update_user (name email password : string) (id : Z) (d : db) : option db :=
  if existsb (fun u => user_id u =? id) (users d)
     && existsb (fun u => negb (user_id u =? id) && String.eqb (user_email u) email)
          (users d)
  then None
  else
    Some (set_users
            (map (fun u =>
                    if user_id u =? id
                    then {| user_id := user_id u; user_name := name; user_email := email;
                            user_password := password;
                            user_is_admin := user_is_admin u |}
                    else u)
               (users d))
            (users_seq d) d).

(** ** The parameters of a statement on [comunidades] *)

(** PostgreSQL converts the parameters of a statement to the types of their
    columns before it runs the statement, and rejects the statement when one
    of them cannot be converted: an integer outside the range of INTEGER, a
    text that is not a date, a text with the character of code 0. *)
Definition int4 (z : Z) : bool := (-2147483648 <=? z) && (z <=? 2147483647).

Definition text_in (s : string) : bool :=
  negb (existsb (Ascii.eqb "000"%char) (list_ascii_of_string s)).

Definition if_given {A : Type} (f : A -> bool) (o : option A) : bool :=
  match o with
  | Some x => f x
  | None => true
  end.

Section parameters.
Context `{Libs}.

Definition date_text (s : string) : bool :=
  match date_in s with
  | Some _ => true
  | None => false
  end.

(** Whether the fourteen parameters are accepted. *)
Definition accepted (v : vals) : bool :=
  if_given text_in (numero_comunidade v) && if_given text_in (nome_diocese v)
  && if_given text_in (nome_bispo v) && if_given text_in (nome_cidade v)
  && if_given text_in (nome_paroquia v) && if_given text_in (nome_paroco v)
  && if_given text_in (nome_vigario v)
  && if_given int4 (qtd_total v) && if_given int4 (qtd_jovens v)
  && if_given int4 (etapa_id v)
  && if_given date_text (data_formacao v) && if_given date_text (data_ultima_etapa v)
  && if_given text_in (levantados_json v) && if_given text_in (carismas_json v).

(** The values of the columns: the dates as DATE, the rest as given. *)
Definition stored (v : vals) : vals :=
  {| numero_comunidade := numero_comunidade v;
     nome_diocese := nome_diocese v;
     nome_bispo := nome_bispo v;
     nome_cidade := nome_cidade v;
     nome_paroquia := nome_paroquia v;
     nome_paroco := nome_paroco v;
     nome_vigario := nome_vigario v;
     qtd_total := qtd_total v;
     qtd_jovens := qtd_jovens v;
     etapa_id := etapa_id v;
     data_formacao := data_formacao v ≫= date_in;
     data_ultima_etapa := data_ultima_etapa v ≫= date_in;
     levantados_json := levantados_json v;
     carismas_json := carismas_json v |}.

(** [etapa_id INTEGER REFERENCES etapas(id)]. *)
Definition references_etapa (v : vals) (d : db) : bool :=
  match etapa_id v with
  | Some e => existsb (fun x => et_id x =? e) (etapas d)
  | None => true
  end.

(** [INSERT INTO comunidades ... RETURNING]: the new row, or [None] when
    the statement fails.  A statement whose parameters are rejected does not
    run, and a sequence that has reached the last INTEGER gives no id; a
    statement that fails on a constraint has drawn its id from the
    sequence. *)
Definition insert_comunidade (v : vals) (d : db) : db * option comunidade :=
  let id := comunidades_seq d + 1 in
  if negb (accepted v && int4 id) then (d, None)
  else
    if existsb (fun c => com_id c =? id) (comunidades d) || negb (references_etapa v d)
    then (set_comunidades (comunidades d) id d, None)
    else
      let row := {| com_id := id; com_vals := stored v |} in
      (set_comunidades (comunidades d ++ [row]) id d, Some row).

Definition comunidades_by_id (id : Z) (d : db) : list comunidade :=
  filter (fun c => com_id c = id) (comunidades d).

(** [UPDATE comunidades SET ... WHERE id=$15 RETURNING *]: the new database
    and the rows that were updated, or [None] when the statement fails, on
    its parameters or on the foreign key of an updated row.  The new version
    of a row is written after the rows of the table: a scan returns it
    last. *)
Definition update_comunidade (v : vals) (id : Z) (d : db)
  : option (db * list comunidade) :=
  if negb (accepted v && int4 id) then None
  else if existsb (fun c => com_id c =? id) (comunidades d)
          && negb (references_etapa v d)
  then None
  else
    let updated :=
      map (fun c => {| com_id := com_id c; com_vals := stored v |})
        (comunidades_by_id id d) in
    Some (set_comunidades
            (filter (fun c => com_id c <> id) (comunidades d) ++ updated)
            (comunidades_seq d) d,
          updated).

(** [DELETE FROM comunidades WHERE id = $1], for an id that is accepted. *)
Definition delete_comunidade_row (id : Z) (d : db) : db :=
  set_comunidades (filter (fun c => com_id c <> id) (comunidades d)) (comunidades_seq d) d.

Fixpoint insert_sorted {A : Type} (before : A -> A -> bool) (x : A) (l : list A)
  : list A :=
  match l with
  | [] => [x]
  | y :: r => if before x y then x :: l else y :: insert_sorted before x r
  end.

(** [ORDER BY], by insertion. *)
Definition order_by {A : Type} (before : A -> A -> bool) (l : list A) : list A :=
  fold_right (insert_sorted before) [] l.

(** [ORDER BY id DESC] on [comunidades]. *)
Definition order_by_id_desc (l : list comunidade) : list comunidade :=
  order_by (fun x y => com_id y <=? com_id x) l.

(** The object the driver builds for a row of [comunidades], as [res.json]
    writes it. *)
Definition row_members (c : comunidade) : list (string * json) :=
  let v := com_vals c in
  [("id", JNum (com_id c));
   ("numero_comunidade", null_or_str (numero_comunidade v));
   ("nome_diocese", null_or_str (nome_diocese v));
   ("nome_bispo", null_or_str (nome_bispo v));
   ("nome_cidade", null_or_str (nome_cidade v));
   ("nome_paroquia", null_or_str (nome_paroquia v));
   ("nome_paroco", null_or_str (nome_paroco v));
   ("nome_vigario", null_or_str (nome_vigario v));
   ("qtd_total", null_or_num (qtd_total v));
   ("qtd_jovens", null_or_num (qtd_jovens v));
   ("etapa_id", null_or_num (etapa_id v));
   ("data_formacao", null_or_str (date_out <$> data_formacao v));
   ("data_ultima_etapa", null_or_str (date_out <$> data_ultima_etapa v));
   ("levantados_json", null_or_str (levantados_json v));
   ("carismas_json", null_or_str (carismas_json v))].

End parameters.

Definition etapa_json (e : etapa) : json :=
  JObj [("id", JNum (et_id e)); ("nome", JStr (et_nome e))].

Definition carisma_json (c : carisma) : json :=
  JObj [("id", JNum (car_id c)); ("nome", JStr (car_nome c))].

(** [GROUP BY] with [COUNT]: the groups in the order of their first row. *)
Fixpoint count_group {K : Type} (same : K -> K -> bool) (k : K) (acc : list (K * Z))
  : list (K * Z) :=
  match acc with
  | [] => [(k, 1)]
  | (k', n) :: r => if same k k' then (k', n + 1) :: r else (k', n) :: count_group same k r
  end.

Definition group_count {K : Type} (same : K -> K -> bool) (keys : list K) : list (K * Z) :=
  fold_left (fun acc k => count_group same k acc) keys [].

Definition same_text (a b : option string) : bool :=
  match a, b with
  | Some x, Some y => String.eqb x y
  | None, None => true
  | _, _ => false
  end.

(** ** The authentication routes *)

(** A request handler, run on the database. *)
Definition handler : Type := db -> db * outcome.

Module Register.
(** The body of POST /api/register. *)
Record body : Type := {
  name : option string;
  email : option string;
  password : jsval;
  is_admin : option bool }.
End Register.

Module Profile.
(** The body of PUT /api/user. *)
Record body : Type := {
  name : option string;
  email : option string;
  password : option string }.
End Profile.

Section auth.
Context `{Libs}.

Definition gerarToken (user : user) : string :=
  jwt_sign {| claim_id := user_id user; claim_email := user_email user;
              claim_is_admin := user_is_admin user |}.

(** POST /api/register, the same in the three files.  The password is
    whatever value the body has: [bcrypt.hash], which is awaited before the
    [try], rejects one that is not a string. *)
Definition post_register (body : Register.body) (salt : string) : handler :=
  fun d =>
    if absent (Register.email body) || negb (truthy (Register.password body))
    then (d, Responded 400 (error "Email e senha obrigatórios"))
    else
      match as_string (Register.password body) with
      | None => (d, Threw)
      | Some password =>
          let hash := bcrypt_hash salt password in
          match insert_user (str_or (Register.name body) EmptyString)
                  (str_or (Register.email body) EmptyString) hash
                  (default false (Register.is_admin body)) d with
          | (d', Some user) =>
              (d', Responded 200
                     (Some (JObj [("token", JStr (gerarToken user));
                                  ("user",
                                    JObj [("id", JNum (user_id user));
                                          ("email", JStr (user_email user));
                                          ("is_admin", JBool (user_is_admin user))])])))
          | (d', None) => (d', Responded 400 (error "Email já cadastrado"))
          end
      end.

(** POST /api/login, the same in the three files.  [bcrypt.compare]
    rejects an undefined password. *)
Definition post_login (email password : option string) : handler :=
  fun d =>
    match users_by_email email d with
    | [] => (d, Responded 400 (error "Usuário não encontrado"))
    | user :: _ =>
        match password with
        | None => (d, Threw)
        | Some pw =>
            if negb (bcrypt_compare pw (user_password user))
            then (d, Responded 400 (error "Senha incorreta"))
            else
              (d, Responded 200
                    (Some (JObj [("token", JStr (gerarToken user));
                                 ("user", JObj [("id", JNum (user_id user));
                                                ("email", JStr (user_email user));
                                                ("name", JStr (user_name user));
                                                ("is_admin",
                                                  JBool (user_is_admin user))])])))
        end
    end.

(** PUT /api/user; the three files differ in the message of the last
    error only. *)
Definition put_user (message : string) (req_user : claims) (body : Profile.body)
    (salt : string) : handler :=
  fun d =>
    match users_by_id (claim_id req_user) d with
    | [] => (d, Responded 404 (error "Usuário não encontrado"))
    | row :: _ =>
        let hash :=
          if absent (Profile.password body) then user_password row
          else bcrypt_hash salt (str_or (Profile.password body) EmptyString) in
        match update_user (str_or (Profile.name body) (user_name row))
                (str_or (Profile.email body) (user_email row)) hash
                (claim_id req_user) d with
        | Some d' => (d', Responded 200 ok_true)
        | None => (d, Responded 400 (error message))
        end
    end.

(** GET /api/options. *)
Definition get_options : handler :=
  fun d =>
    (d, Responded 200
          (Some (JObj [("etapas",
                         JArr (map etapa_json
                                 (order_by (fun x y => et_id x <=? et_id y) (etapas d))));
                       ("carismas",
                         JArr (map carisma_json
                                 (order_by (fun x y => car_id x <=? car_id y)
                                    (carismas d))))]))).
End auth.

Module Body.
(** The body of POST and PUT /api/comunidades, each field at the type of
    its column; the two lists are any JSON value. *)
Record data : Type := {
  numero_comunidade : option string;
  nome_diocese : option string;
  nome_bispo : option string;
  nome_cidade : option string;
  nome_paroquia : option string;
  nome_paroco : option string;
  nome_vigario : option string;
  qtd_total : option Z;
  qtd_jovens : option Z;
  etapa_id : option Z;
  data_formacao : option string;
  data_ultima_etapa : option string;
  levantados : jsval;
  carismas : jsval }.
End Body.

(** ** The first version of the service (src/unnamed/part_000) *)

Module Part000.
Section routes.
Context `{Libs}.

(** The middleware of the guarded routes; [next] is the handler, run with
    [req.user]. *)
Definition verificarToken (header : option string) (next : claims -> handler)
  : handler :=
  fun d =>
    if absent header then (d, Responded 401 (error "Sem token"))
    else
      let parts := split_space (str_or header EmptyString) in
      if negb (length parts =? 2)%nat
      then (d, Responded 401 (error "Token inválido"))
      else
        match jwt_verify (nth 1 parts EmptyString) with
        | Some data => next data d
        | None => (d, Responded 401 (error "Token inválido"))
        end.

(** The array [vals] of POST and PUT /api/comunidades. *)
Definition vals_of (data : Body.data) : vals :=
  {| numero_comunidade := Body.numero_comunidade data;
     nome_diocese := Body.nome_diocese data;
     nome_bispo := Body.nome_bispo data;
     nome_cidade := Body.nome_cidade data;
     nome_paroquia := Body.nome_paroquia data;
     nome_paroco := Body.nome_paroco data;
     nome_vigario := Body.nome_vigario data;
     qtd_total := Some (num_or_zero (Body.qtd_total data));
     qtd_jovens := Some (num_or_zero (Body.qtd_jovens data));
     etapa_id := num_or_null (Body.etapa_id data);
     data_formacao := str_or_null (Body.data_formacao data);
     data_ultima_etapa := str_or_null (Body.data_ultima_etapa data);
     levantados_json := Some (JSON_stringify (or_else (Body.levantados data) (JArr [])));
     carismas_json := Some (JSON_stringify (or_else (Body.carismas data) (JArr []))) |}.

(** POST /api/comunidades. *)
Definition post_comunidades (data : Body.data) : handler :=
  fun d =>
    match insert_comunidade (vals_of data) d with
    | (d', Some row) => (d', Responded 200 (Some (JObj [("id", JNum (com_id row))])))
    | (d', None) => (d', Threw)
    end.

(** [JSON.parse(text || '[]')]. *)
Definition parse_or_empty (text : option string) : option json :=
  JSON_parse (str_or text "[]").

(** The row with its two decoded lists; [None] when [JSON.parse] throws. *)
Definition decoded (row : comunidade) : option json :=
  match parse_or_empty (levantados_json (com_vals row)) with
  | Some levantados =>
      match parse_or_empty (carismas_json (com_vals row)) with
      | Some carismas =>
          Some (JObj (row_members row
                        ++ [("levantados", levantados); ("carismas", carismas)]))
      | None => None
      end
  | None => None
  end.

(** [rows.map(f)] for an [f] that may throw. *)
Fixpoint map_throwing {A B : Type} (f : A -> option B) (l : list A) : option (list B) :=
  match l with
  | [] => Some []
  | x :: r =>
      match f x with
      | Some y =>
          match map_throwing f r with
          | Some ys => Some (y :: ys)
          | None => None
          end
      | None => None
      end
  end.

(** GET /api/comunidades. *)
Definition get_comunidades : handler :=
  fun d =>
    match map_throwing decoded (order_by_id_desc (comunidades d)) with
    | Some mapped => (d, Responded 200 (Some (JArr mapped)))
    | None => (d, Threw)
    end.

(** GET /api/comunidades/:id; the id is the integer that the text of the
    path is.  PostgreSQL rejects the SELECT for an id that is not an
    INTEGER, and nothing catches it. *)
Definition get_comunidade (id : Z) : handler :=
  fun d =>
    if negb (int4 id) then (d, Threw)
    else
      match comunidades_by_id id d with
      | [] => (d, Responded 404 (error "Não encontrado"))
      | row :: _ =>
          match decoded row with
          | Some body => (d, Responded 200 (Some body))
          | None => (d, Threw)
          end
      end.

(** PUT /api/comunidades/:id. *)
Definition put_comunidade (id : Z) (data : Body.data) : handler :=
  fun d =>
    match update_comunidade (vals_of data) id d with
    | Some (d', _) => (d', Responded 200 ok_true)
    | None => (d, Threw)
    end.

(** DELETE /api/comunidades/:id. *)
Definition delete_comunidade (id : Z) : handler :=
  fun d =>
    if negb (int4 id) then (d, Threw)
    else (delete_comunidade_row id d, Responded 200 ok_true).

(** One turn of the inner loop of the charism report:
    [contagem[item.carisma_id] = (contagem[item.carisma_id]||0) + 1].
    A key that names a member of Object.prototype holds no number in
    JavaScript; the report reads the keys of the ids only. *)
Definition count_item (contagem : option (gmap string Z)) (item : json)
  : option (gmap string Z) :=
  match contagem with
  | Some m =>
      match get_prop item "carisma_id" with
      | Some id =>
          let k := property_key id in
          Some (<[k := default 0 (m !! k) + 1]> m)
      | None => None
      end
  | None => None
  end.

(** One turn of the outer loop: the list of a row is decoded and visited. *)
Definition count_row (contagem : option (gmap string Z)) (text : option string)
  : option (gmap string Z) :=
  match contagem with
  | Some m =>
      match parse_or_empty text with
      | Some arr =>
          match iterate arr with
          | Some items => fold_left count_item items (Some m)
          | None => None
          end
      | None => None
      end
  | None => None
  end.

Definition contagem_of (rows : list comunidade) : option (gmap string Z) :=
  fold_left count_row (map (fun c => carismas_json (com_vals c)) rows) (Some ∅).

(** One turn of the outer loop of the candidates report. *)
Definition push_row (todos : option (list json)) (text : option string)
  : option (list json) :=
  match todos with
  | Some l =>
      match parse_or_empty text with
      | Some arr =>
          match iterate arr with
          | Some items => Some (l ++ items)
          | None => None
          end
      | None => None
      end
  | None => None
  end.

Definition etapa_names (d : db) : list string :=
  flat_map
    (fun c =>
       match etapa_id (com_vals c) with
       | Some e => map et_nome (filter (fun x => et_id x = e) (etapas d))
       | None => []
       end)
    (comunidades d).

(** GET /api/relatorios/:tipo.  A COUNT comes back from the driver as a
    string. *)
Definition get_relatorios (req_user : claims) (tipo : string) : handler :=
  fun d =>
    if negb (claim_is_admin req_user)
    then (d, Responded 403 (error "Acesso restrito"))
    else if String.eqb tipo "diocese" then
      (d, Responded 200
            (Some (JArr (map (fun g => JObj [("nome_diocese", null_or_str (fst g));
                                             ("total", JStr (number_string (snd g)))])
                           (group_count same_text
                              (map (fun c => nome_diocese (com_vals c))
                                 (comunidades d)))))))
    else if String.eqb tipo "etapas" then
      (d, Responded 200
            (Some (JArr (map (fun g => JObj [("etapa", JStr (fst g));
                                             ("total", JStr (number_string (snd g)))])
                           (group_count String.eqb (etapa_names d))))))
    else if String.eqb tipo "carismas" then
      match contagem_of (comunidades d) with
      | Some contagem =>
          (d, Responded 200
                (Some (JArr (map (fun c =>
                                    JObj [("nome", JStr (car_nome c));
                                          ("total",
                                            JNum (default 0
                                                    (contagem !! number_string (car_id c))))])
                               (carismas d)))))
      | None => (d, Threw)
      end
    else if String.eqb tipo "vocacionados" then
      match fold_left push_row (map (fun c => levantados_json (com_vals c)) (comunidades d))
              (Some []) with
      | Some todos => (d, Responded 200 (Some (JArr todos)))
      | None => (d, Threw)
      end
    else (d, Responded 200 (Some (JArr []))).

End routes.
End Part000.

(** ** The rewritten service (src/unnamed/part_001) *)

Module Part001.
Section routes.
Context `{Libs}.

(** [header.split(' ')[1]] is undefined when the header has no space, and
    [jwt.verify] throws on it. *)
Definition verificarToken (header : option string) (next : claims -> handler)
  : handler :=
  fun d =>
    if absent header then (d, Responded 401 (error "Sem token"))
    else
      match split_space (str_or header EmptyString) !! 1%nat with
      | Some token =>
          match jwt_verify token with
          | Some data => next data d
          | None => (d, Responded 401 (error "Token inválido"))
          end
      | None => (d, Responded 401 (error "Token inválido"))
      end.

(** The parameters of POST and PUT /api/comunidades: the fields are passed
    as they come, the two lists are serialized. *)
Definition vals_of (data : Body.data) : vals :=
  {| numero_comunidade := Body.numero_comunidade data;
     nome_diocese := Body.nome_diocese data;
     nome_bispo := Body.nome_bispo data;
     nome_cidade := Body.nome_cidade data;
     nome_paroquia := Body.nome_paroquia data;
     nome_paroco := Body.nome_paroco data;
     nome_vigario := Body.nome_vigario data;
     qtd_total := Body.qtd_total data;
     qtd_jovens := Body.qtd_jovens data;
     etapa_id := Body.etapa_id data;
     data_formacao := Body.data_formacao data;
     data_ultima_etapa := Body.data_ultima_etapa data;
     levantados_json := Some (JSON_stringify (or_else (Body.levantados data) (JArr [])));
     carismas_json := Some (JSON_stringify (or_else (Body.carismas data) (JArr []))) |}.

(** [LEFT JOIN etapas e ON e.id = c.etapa_id]: the name of the stage, or
    NULL. *)
Definition etapa_nome (c : comunidade) (d : db) : option string :=
  match etapa_id (com_vals c) with
  | Some e => et_nome <$> head (filter (fun x => et_id x = e) (etapas d))
  | None => None
  end.

(** GET /api/comunidades. *)
Definition get_comunidades : handler :=
  fun d =>
    (d, Responded 200
          (Some (JArr (map (fun c =>
                              JObj (row_members c
                                      ++ [("etapa_nome", null_or_str (etapa_nome c d))]))
                         (order_by_id_desc (comunidades d)))))).

(** GET /api/comunidades/:id, outside any [try]. *)
Definition get_comunidade (id : Z) : handler :=
  fun d =>
    if negb (int4 id) then (d, Threw)
    else
      match comunidades_by_id id d with
      | [] => (d, Responded 404 (error "Comunidade não encontrada"))
      | row :: _ => (d, Responded 200 (Some (JObj (row_members row))))
      end.

(** POST /api/comunidades. *)
Definition post_comunidades (data : Body.data) : handler :=
  fun d =>
    match insert_comunidade (vals_of data) d with
    | (d', Some row) => (d', Responded 200 (Some (JObj (row_members row))))
    | (d', None) => (d', Responded 400 (error "Erro ao criar comunidade"))
    end.

(** PUT /api/comunidades/:id: [r.rows[0]] is undefined when no row has the
    id, and [res.json(undefined)] answers 200 with no body. *)
Definition put_comunidade (id : Z) (data : Body.data) : handler :=
  fun d =>
    match update_comunidade (vals_of data) id d with
    | Some (d', rows) =>
        (d', Responded 200 ((fun row => JObj (row_members row)) <$> head rows))
    | None => (d, Responded 400 (error "Erro ao atualizar comunidade"))
    end.

(** DELETE /api/comunidades/:id, outside any [try]. *)
Definition delete_comunidade (id : Z) : handler :=
  fun d =>
    if negb (int4 id) then (d, Threw)
    else (delete_comunidade_row id d, Responded 200 ok_true).

End routes.
End Part001.

(** ** server.js: the authentication routes only *)

Module Server.
Section routes.
Context `{Libs}.

Definition verificarToken (header : option string) (next : claims -> handler)
  : handler :=
  fun d =>
    if absent header then (d, Responded 401 (error "Sem token"))
    else
      match split_space (str_or header EmptyString) !! 1%nat with
      | Some token =>
          match jwt_verify token with
          | Some data => next data d
          | None => (d, Responded 401 (error "Token inválido"))
          end
      | None => (d, Responded 401 (error "Token inválido"))
      end.

End routes.
End Server.

(** ** The routes, as the three files register them *)

Section app.
Context `{Libs}.

Definition part000_put_user (header : option string) (body : Profile.body)
    (salt : string) : handler :=
  Part000.verificarToken header
    (fun user => put_user "Erro ao atualizar (email pode já estar em uso)" user body salt).

Definition part001_put_user (header : option string) (body : Profile.body)
    (salt : string) : handler :=
  Part001.verificarToken header
    (fun user => put_user "Erro ao atualizar (email já usado)" user body salt).

Definition server_put_user (header : option string) (body : Profile.body)
    (salt : string) : handler :=
  Server.verificarToken header
    (fun user => put_user "Erro ao atualizar (email já usado)" user body salt).

Definition part000_delete (header : option string) (id : Z) : handler :=
  Part000.verificarToken header (fun _ => Part000.delete_comunidade id).

Definition part001_delete (header : option string) (id : Z) : handler :=
  Part001.verificarToken header (fun _ => Part001.delete_comunidade id).

Definition part000_relatorios (header : option string) (tipo : string) : handler :=
  Part000.verificarToken header (fun user => Part000.get_relatorios user tipo).
End app.

(** ** What the specification says, for comparison with the code *)

(** The ids a decoded list of charism associations refers to. *)
Definition carisma_ids (items : list json) : list jsval :=
  flat_map (fun item => match get_prop item "carisma_id" with
                        | Some id => [id]
                        | None => []
                        end) items.

(** The decoded charism-association lists of all the communities, laid
    end to end. *)
Definition all_carisma_items (rows : list comunidade) : list json :=
  flat_map (fun c =>
              match Part000.parse_or_empty (carismas_json (com_vals c)) with
              | Some (JArr items) => items
              | _ => []
              end) rows.

Definition refers_to (id : Z) (v : jsval) : bool :=
  match v with
  | Some (JNum z) => z =? id
  | _ => false
  end.

(** The number of occurrences of the id [id] in these lists. *)
Definition occurrences (id : Z) (rows : list comunidade) : Z :=
  Z.of_nat (length (List.filter (refers_to id) (carisma_ids (all_carisma_items rows)))).

(** ** Stand-ins for the libraries, for the examples *)

(** A toy bcrypt, whose hash is a tag of seven characters, a salt of five
    characters, a dot and the data; a toy jsonwebtoken that knows the tokens
    of two users; a toy PostgreSQL that reads as a DATE the texts of four
    digits, two digits and two digits between hyphens, in a process whose
    time zone is UTC. *)
Definition ana_claims : claims :=
  {| claim_id := 1; claim_email := "ana@example.org"; claim_is_admin := true |}.

Definition rui_claims : claims :=
  {| claim_id := 2; claim_email := "rui@example.org"; claim_is_admin := false |}.

Definition is_digit (c : ascii) : bool :=
  ((48 <=? N_of_ascii c) && (N_of_ascii c <=? 57))%N.

Definition toy_date (text : string) : option string :=
  match list_ascii_of_string text with
  | [c1; c2; c3; c4; c5; c6; c7; c8; c9; c10] =>
      if forallb is_digit [c1; c2; c3; c4; c6; c7; c9; c10]
         && Ascii.eqb c5 "-" && Ascii.eqb c8 "-"
      then Some text
      else None
  | _ => None
  end.

Definition toy_libs : Libs :=
  {| bcrypt_hash := fun salt data => "$2b$10$" +:+ salt +:+ "." +:+ data;
     bcrypt_compare := fun data hash =>
       match hash with
       | String _ (String _ (String _ (String _ (String _ (String _ (String _
           (String _ (String _ (String _ (String _ (String _ (String _ rest))))))))))))
         => String.eqb rest data
       | _ => false
       end;
     jwt_sign := fun c => "jwt-" +:+ number_string (claim_id c);
     jwt_verify := fun token =>
       if String.eqb token "jwt-1" then Some ana_claims
       else if String.eqb token "jwt-2" then Some rui_claims
       else None;
     date_in := toy_date;
     date_out := fun date => date +:+ "T00:00:00.000Z" |}.

Definition no_body : Body.data :=
  {| Body.numero_comunidade := None; Body.nome_diocese := None; Body.nome_bispo := None;
     Body.nome_cidade := None; Body.nome_paroquia := None; Body.nome_paroco := None;
     Body.nome_vigario := None; Body.qtd_total := None; Body.qtd_jovens := None;
     Body.etapa_id := None; Body.data_formacao := None; Body.data_ultima_etapa := None;
     Body.levantados := None; Body.carismas := None |}.

(** The body of the round trip of the specification. *)
Definition body_x : Body.data :=
  {| Body.numero_comunidade := Some "12"; Body.nome_diocese := Some "Braga";
     Body.nome_bispo := None; Body.nome_cidade := None; Body.nome_paroquia := None;
     Body.nome_paroco := None; Body.nome_vigario := None;
     Body.qtd_total := Some 30; Body.qtd_jovens := None;
     Body.etapa_id := None; Body.data_formacao := None; Body.data_ultima_etapa := None;
     Body.levantados := Some (JArr [JObj [("name", JStr "X")]]);
     Body.carismas := Some (JArr [JObj [("carisma_id", JNum 2)]]) |}.

(** A body with the two dates. *)
Definition dated_body : Body.data :=
  {| Body.numero_comunidade := Some "7"; Body.nome_diocese := Some "Porto";
     Body.nome_bispo := None; Body.nome_cidade := None; Body.nome_paroquia := None;
     Body.nome_paroco := None; Body.nome_vigario := None;
     Body.qtd_total := Some 12; Body.qtd_jovens := Some 5;
     Body.etapa_id := Some 2; Body.data_formacao := Some "2019-10-06";
     Body.data_ultima_etapa := Some "2023-04-09";
     Body.levantados := None; Body.carismas := None |}.

(** A body whose [qtd_total] is 2^31. *)
Definition big_body : Body.data :=
  {| Body.numero_comunidade := None; Body.nome_diocese := None; Body.nome_bispo := None;
     Body.nome_cidade := None; Body.nome_paroquia := None; Body.nome_paroco := None;
     Body.nome_vigario := None; Body.qtd_total := Some 2147483648;
     Body.qtd_jovens := None; Body.etapa_id := None; Body.data_formacao := None;
     Body.data_ultima_etapa := None; Body.levantados := None; Body.carismas := None |}.

(** A body whose [data_formacao] is no date. *)
Definition undated_body : Body.data :=
  {| Body.numero_comunidade := None; Body.nome_diocese := None; Body.nome_bispo := None;
     Body.nome_cidade := None; Body.nome_paroquia := None; Body.nome_paroco := None;
     Body.nome_vigario := None; Body.qtd_total := None;
     Body.qtd_jovens := None; Body.etapa_id := None; Body.data_formacao := Some "ontem";
     Body.data_ultima_etapa := None; Body.levantados := None; Body.carismas := None |}.

Definition seeded : db := initDb empty_db.

Definition ana_body : Register.body :=
  {| Register.name := Some "Ana"; Register.email := Some "ana@example.org";
     Register.password := Some (JStr "segredo"); Register.is_admin := Some true |}.

(** The seeded database after Ana has registered. *)
Definition with_ana : db := fst (@post_register toy_libs ana_body "salt1" seeded).

(** ** Shapes of the Authorization header *)

Fixpoint no_space (s : string) : bool :=
  match s with
  | EmptyString => true
  | String c r => negb (Ascii.eqb c " ") && no_space r
  end.

(** The header the specification asks for. *)
Definition bearer_form (h : string) : Prop := exists token, h = "Bearer " +:+ token.

(** Two communities that each refer to the charism 2. *)
Definition two_x : db :=
  fst (@Part000.post_comunidades toy_libs body_x
         (fst (@Part000.post_comunidades toy_libs body_x seeded))).



(** ** Well-formed charism-association lists *)

(** An item that refers to a charism by an integer of magnitude at most
    2^53. *)
Definition association (item : json) : bool :=
  match get_prop item "carisma_id" with
  | Some (Some (JNum z)) => Z.abs z <=? two53
  | _ => false
  end.

(** A row whose [carismas_json] decodes to a list of such items. *)
Definition associations_ok (c : comunidade) : bool :=
  match Part000.parse_or_empty (carismas_json (com_vals c)) with
  | Some (JArr items) => forallb association items
  | _ => false
  end.

(** ** Statements used by the proofs *)

(** The text of one member of an object. *)
Definition member_chars (m : string * json) : chars :=
  quote (fst m) ++ ":"%char :: print (snd m).

(** [parse_value] reads the text of [v] back, whatever delimiter follows,
    when it is given the depth of [v]. *)
Definition round_trips (v : json) : Prop :=
  integral v = true ->
  forall fuel rest, (json_size v <= fuel)%nat -> delimited rest ->
    parse_value fuel (print v ++ rest) = Some (v, rest).

(** What the loops of the charism report keep true: under the key of each
    id, [contagem] holds the number of occurrences of the id among the items
    visited so far. *)
Definition counts (contagem : gmap string Z) (seen : list json) : Prop :=
  forall id,
    default 0 (contagem !! number_string id)
    = Z.of_nat (length (List.filter (refers_to id) (carisma_ids seen))).


(** ** Invariants of the tables *)

(** The users table as the constraints keep it: ids and e-mails are
    distinct and no id is ahead of the sequence. *)
Definition users_ok (d : db) : Prop :=
  NoDup (map user_id (users d))
  /\ NoDup (map user_email (users d))
  /\ Forall (fun u => user_id u <= users_seq d) (users d).

(** The comunidades table as the constraints keep it: ids are distinct, no
    id is ahead of the sequence and every [etapa_id] is the id of a stage. *)
Definition comunidades_ok (d : db) : Prop :=
  NoDup (map com_id (comunidades d))
  /\ Forall (fun c => com_id c <= comunidades_seq d) (comunidades d)
  /\ Forall (fun c => references_etapa (com_vals c) d = true) (comunidades d).

(** The two enumerations as the constraints keep them. *)
Definition options_ok (d : db) : Prop :=
  Forall (fun e => et_id e <= etapas_seq d) (etapas d)
  /\ Forall (fun c => car_id c <= carismas_seq d) (carismas d).

(** The claims [gerarToken] signs for a user. *)
Definition claims_of (u : user) : claims :=
  {| claim_id := user_id u; claim_email := user_email u;
     claim_is_admin := user_is_admin u |}.

(** The user object of the response of POST /api/login. *)
Definition login_user (u : user) : json :=
  JObj [("id", JNum (user_id u)); ("email", JStr (user_email u));
        ("name", JStr (user_name u)); ("is_admin", JBool (user_is_admin u))].

(** The row [UPDATE users] writes over [u]. *)
Definition rewritten (name email password : string) (id : Z) (u : user) : user :=
  if user_id u =? id
  then {| user_id := user_id u; user_name := name; user_email := email;
          user_password := password; user_is_admin := user_is_admin u |}
  else u.


(** ** Stored texts that are JSON *)

Section decoding.
Context `{Libs}.

(** The two lists of a body, as the routes serialize them, are [integral]:
    their numbers are integers of magnitude at most 2^53 and their objects
    have each key once, in the order of the engine. *)
Definition body_integral (data : Body.data) : bool :=
  integral (or_else (Body.levantados data) (JArr []))
  && integral (or_else (Body.carismas data) (JArr [])).

(** Both texts of every community can be decoded. *)
Definition texts_ok (d : db) : bool :=
  forallb (fun c => match Part000.decoded c with Some _ => true | None => false end)
    (comunidades d).



(** [x] comes before [y] in a listing by descending id. *)
Definition id_desc (x y : comunidade) : Prop := com_id y <= com_id x.

(** The object of a community in the list of the second version. *)
Definition listed (d : db) (c : comunidade) : json :=
  JObj (row_members c ++ [("etapa_nome", null_or_str (Part001.etapa_nome c d))]).

(** The sum of the counts of the groups of key [k]. *)
Definition group_total {K : Type} (same : K -> K -> bool) (k : K) (acc : list (K * Z))
  : Z :=
  fold_right (fun g s => if same k (fst g) then snd g + s else s) 0 acc.

(** The object of a group of the report by diocese. *)
Definition diocese_json (g : option string * Z) : json :=
  JObj [("nome_diocese", null_or_str (fst g)); ("total", JStr (number_string (snd g)))].

(** Whether the community [c] is joined to a stage of name [k]. *)
Definition in_stage (d : db) (k : string) (c : comunidade) : bool :=
  match etapa_id (com_vals c) with
  | Some e => existsb (fun x => (et_id x =? e) && String.eqb k (et_nome x)) (etapas d)
  | None => false
  end.

(** The object of a group of the report by stage. *)
Definition stage_json (g : string * Z) : json :=
  JObj [("etapa", JStr (fst g)); ("total", JStr (number_string (snd g)))].

(** ** The applications *)

(** A request to one of the routes the files register, with what the
    handler reads of it; the salt is the one [bcrypt.hash] draws. *)
Inductive request : Type :=
| PostRegister (body : Register.body) (salt : string)
| PostLogin (email password : option string)
| PutUser (header : option string) (body : Profile.body) (salt : string)
| GetOptions (header : option string)
| PostComunidades (header : option string) (data : Body.data)
| GetComunidades (header : option string)
| GetComunidade (header : option string) (id : Z)
| PutComunidade (header : option string) (id : Z) (data : Body.data)
| DeleteComunidade (header : option string) (id : Z)
| GetRelatorios (header : option string) (tipo : string).

(** The answer of Express when no route matches: status 404 and no JSON
    body. *)
Definition not_found : handler := fun d => (d, Responded 404 None).

Definition part000_app (r : request) : handler :=
  match r with
  | PostRegister body salt => post_register body salt
  | PostLogin email password => post_login email password
  | PutUser header body salt => part000_put_user header body salt
  | GetOptions header => Part000.verificarToken header (fun _ => get_options)
  | PostComunidades header data =>
      Part000.verificarToken header (fun _ => Part000.post_comunidades data)
  | GetComunidades header =>
      Part000.verificarToken header (fun _ => Part000.get_comunidades)
  | GetComunidade header id =>
      Part000.verificarToken header (fun _ => Part000.get_comunidade id)
  | PutComunidade header id data =>
      Part000.verificarToken header (fun _ => Part000.put_comunidade id data)
  | DeleteComunidade header id => part000_delete header id
  | GetRelatorios header tipo => part000_relatorios header tipo
  end.

Definition part001_app (r : request) : handler :=
  match r with
  | PostRegister body salt => post_register body salt
  | PostLogin email password => post_login email password
  | PutUser header body salt => part001_put_user header body salt
  | GetOptions header => Part001.verificarToken header (fun _ => get_options)
  | PostComunidades header data =>
      Part001.verificarToken header (fun _ => Part001.post_comunidades data)
  | GetComunidades header =>
      Part001.verificarToken header (fun _ => Part001.get_comunidades)
  | GetComunidade header id =>
      Part001.verificarToken header (fun _ => Part001.get_comunidade id)
  | PutComunidade header id data =>
      Part001.verificarToken header (fun _ => Part001.put_comunidade id data)
  | DeleteComunidade header id => part001_delete header id
  | GetRelatorios _ _ => not_found
  end.

Definition server_app (r : request) : handler :=
  match r with
  | PostRegister body salt => post_register body salt
  | PostLogin email password => post_login email password
  | PutUser header body salt => server_put_user header body salt
  | GetOptions header => Server.verificarToken header (fun _ => get_options)
  | _ => not_found
  end.

(** The database after a sequence of requests: a handler that throws ends
    the process, and the requests that follow are not served. *)
Fixpoint run (app : request -> handler) (rs : list request) (d : db) : db :=
  match rs with
  | [] => d
  | r :: rest =>
      match app r d with
      | (d', Threw) => d'
      | (d', Responded _ _) => run app rest d'
      end
  end.

(** The two lists of the body of a request are [integral]. *)
Definition request_integral (r : request) : bool :=
  match r with
  | PostComunidades _ data => body_integral data
  | PutComunidade _ _ data => body_integral data
  | _ => true
  end.

(** The four tables as the constraints and the service keep them. *)
Definition tables_ok (d : db) : Prop :=
  users_ok d /\ comunidades_ok d /\ options_ok d /\ texts_ok d = true.

End decoding.

(** ** More examples *)

Definition rui_body : Register.body :=
  {| Register.name := Some "Rui"; Register.email := Some "rui@example.org";
     Register.password := Some (JStr "senha"); Register.is_admin := None |}.

(** The seeded database after Ana and Rui have registered. *)
Definition with_rui : db := fst (@post_register toy_libs rui_body "salt2" with_ana).

(** A body that names a stage that does not exist. *)
Definition stage_99_body : Body.data :=
  {| Body.numero_comunidade := None; Body.nome_diocese := None; Body.nome_bispo := None;
     Body.nome_cidade := None; Body.nome_paroquia := None; Body.nome_paroco := None;
     Body.nome_vigario := None; Body.qtd_total := None; Body.qtd_jovens := None;
     Body.etapa_id := Some 99; Body.data_formacao := None;
     Body.data_ultima_etapa := None; Body.levantados := None; Body.carismas := None |}.

(** A body of the second stage whose charism list has a [null] item and
    whose candidate list is a number. *)
Definition null_item_body : Body.data :=
  {| Body.numero_comunidade := None; Body.nome_diocese := Some "Braga";
     Body.nome_bispo := None; Body.nome_cidade := None; Body.nome_paroquia := None;
     Body.nome_paroco := None; Body.nome_vigario := None; Body.qtd_total := None;
     Body.qtd_jovens := None; Body.etapa_id := Some 2; Body.data_formacao := None;
     Body.data_ultima_etapa := None; Body.levantados := Some (JNum 5);
     Body.carismas := Some (JArr [JNull]) |}.

(** A body with two candidates, two charisms, a stage and the dates. *)
Definition body_y : Body.data :=
  {| Body.numero_comunidade := Some "13"; Body.nome_diocese := Some "Porto";
     Body.nome_bispo := None; Body.nome_cidade := None; Body.nome_paroquia := None;
     Body.nome_paroco := None; Body.nome_vigario := None;
     Body.qtd_total := Some 12; Body.qtd_jovens := Some 5;
     Body.etapa_id := Some 2; Body.data_formacao := Some "2019-10-06";
     Body.data_ultima_etapa := Some "2023-04-09";
     Body.levantados := Some (JArr [JObj [("name", JStr "Y")]; JObj [("name", JStr "Z")]]);
     Body.carismas :=
       Some (JArr [JObj [("carisma_id", JNum 1)]; JObj [("carisma_id", JNum 2)]]) |}.

(** The community of [body_x], then the community of [body_y]. *)
Definition x_y : db :=
  fst (@Part000.post_comunidades toy_libs body_y
         (fst (@Part000.post_comunidades toy_libs body_x seeded))).

(** A session: Ana registers, creates two communities, replaces the first
    and deletes the second; then she deletes an id that is no INTEGER, and
    the create that follows is not served. *)
Definition session : list request :=
  [PostRegister ana_body "salt1";
   PostComunidades (Some "Bearer jwt-1") body_x;
   PostComunidades (Some "Bearer jwt-1") null_item_body;
   PutComunidade (Some "Bearer jwt-1") 1 dated_body;
   DeleteComunidade (Some "Bearer jwt-1") 2;
   DeleteComunidade (Some "Bearer jwt-1") 99999999999;
   PostComunidades (Some "Bearer jwt-1") body_y].

(** * Facts about the JSON codec *)

Section codec_facts.

Local Open Scope char_scope.

Lemma digit19_cases c :
  digit19 c = true ->
  c = "1" \/ c = "2" \/ c = "3" \/ c = "4" \/ c = "5" \/ c = "6" \/ c = "7"
  \/ c = "8" \/ c = "9".
Proof.
  unfold digit19. simpl. rewrite !orb_true_iff, !Ascii.eqb_eq. intuition discriminate.
Qed.

Lemma delimited_cases rest :
  delimited rest ->
  rest = [] \/ exists c r, rest = c :: r /\ (c = "," \/ c = "]" \/ c = "}").
Proof.
  destruct rest as [|c r]; simpl; [auto|]. intros H. right. eauto.
Qed.

Ltac delim_cases H :=
  apply delimited_cases in H;
  destruct H as [-> | (? & ? & -> & [-> | [-> | ->]])].

Lemma read_uint_chars d rest :
  delimited rest -> read_uint (uint_chars d ++ rest) = (d, rest).
Proof.
  intros H. induction d; simpl; try (rewrite IHd; reflexivity).
  delim_cases H; reflexivity.
Qed.

Lemma to_uint_normal p : Pos.to_uint p = unorm (Pos.to_uint p).
Proof.
  rewrite <- DecimalPos.Unsigned.to_of, DecimalPos.Unsigned.of_to. reflexivity.
Qed.

Lemma to_uint_head p :
  exists c r, uint_chars (Pos.to_uint p) = c :: r /\ digit19 c = true.
Proof.
  pose proof (DecimalPos.Unsigned.to_uint_nonnil p) as Hnil.
  pose proof (DecimalPos.Unsigned.to_uint_nonzero p) as Hzero.
  pose proof (to_uint_normal p) as Hnorm.
  assert (Hd0 : forall d', Pos.to_uint p <> D0 d').
  { intros d' E. destruct (nzhead (Pos.to_uint p)) eqn:Hz.
    1: { apply Hzero. rewrite Hnorm. apply unorm_0. exact Hz. }
    all: rewrite unorm_nzhead in Hnorm by congruence.
    all: apply (nzhead_nonzero (Pos.to_uint p) d'); congruence. }
  destruct (Pos.to_uint p) as [|d|d|d|d|d|d|d|d|d|d] eqn:E;
    [congruence | exfalso; eapply Hd0; reflexivity | ..];
    simpl; eexists _, _; (split; [reflexivity | reflexivity]).
Qed.


Lemma decimal_safe neg (n : Z) :
  (n <=? two53)%Z = true -> decimal neg (n * 10 ^ 0 + 0)%Z (0 - 0)%Z = integer neg n.
Proof.
  intros Hn. rewrite Z.pow_0_r, Z.mul_1_r, Z.add_0_r. unfold decimal.
  change (0 - 0 =? 0)%Z with true. rewrite Hn, orb_true_r. reflexivity.
Qed.

Lemma parse_number_chars (z : Z) rest :
  (Z.abs z <=? two53)%Z = true ->
  delimited rest -> parse_number (number_chars z ++ rest) = Some (JNum z, rest).
Proof.
  intros Hz H. destruct z as [|p|p].
  - simpl. delim_cases H; reflexivity.
  - simpl. destruct (to_uint_head p) as (c & r & E & Hc).
    pose proof (read_uint_chars (Pos.to_uint p) rest H) as Hr.
    rewrite E in *. simpl app in *. unfold parse_number.
    assert (Hm : Ascii.eqb c "-" = false)
      by (apply digit19_cases in Hc; intuition (subst; reflexivity)).
    rewrite Hm. unfold parse_int_part.
    assert (H0 : Ascii.eqb c "0" = false)
      by (apply digit19_cases in Hc; intuition (subst; reflexivity)).
    rewrite H0.
    assert (Hd : exists D, digit_of_char c = Some D)
      by (apply digit19_cases in Hc; intuition (subst; eexists; reflexivity)).
    destruct Hd as [D ->]. rewrite Hr.
    replace (parse_frac rest) with (Some (Nil, rest))
      by (delim_cases H; reflexivity).
    replace (parse_exp rest) with (Some (0%Z, rest))
      by (delim_cases H; reflexivity).
    cbv beta iota. unfold N.of_uint at 1. rewrite DecimalPos.Unsigned.of_to.
    change (Z.of_nat (nb_digits Nil)) with 0%Z. change (Z.of_N (N.of_uint Nil)) with 0%Z.
    change (Z.of_N (N.pos p)) with (Z.pos p).
    rewrite decimal_safe by exact Hz. reflexivity.
  - simpl. destruct (to_uint_head p) as (c & r & E & Hc).
    pose proof (read_uint_chars (Pos.to_uint p) rest H) as Hr.
    rewrite E in *. simpl app in *. unfold parse_number.
    change (Ascii.eqb "-" "-") with true. cbv beta iota. unfold parse_int_part.
    assert (H0 : Ascii.eqb c "0" = false)
      by (apply digit19_cases in Hc; intuition (subst; reflexivity)).
    rewrite H0.
    assert (Hd : exists D, digit_of_char c = Some D)
      by (apply digit19_cases in Hc; intuition (subst; eexists; reflexivity)).
    destruct Hd as [D ->]. rewrite Hr.
    replace (parse_frac rest) with (Some (Nil, rest))
      by (delim_cases H; reflexivity).
    replace (parse_exp rest) with (Some (0%Z, rest))
      by (delim_cases H; reflexivity).
    cbv beta iota. unfold N.of_uint at 1. rewrite DecimalPos.Unsigned.of_to.
    change (Z.of_nat (nb_digits Nil)) with 0%Z. change (Z.of_N (N.of_uint Nil)) with 0%Z.
    change (Z.of_N (N.pos p)) with (Z.pos p).
    rewrite decimal_safe by exact Hz. reflexivity.
Qed.

Lemma uint_chars_inj d1 d2 : uint_chars d1 = uint_chars d2 -> d1 = d2.
Proof.
  intros E.
  pose proof (read_uint_chars d1 [] I) as H1.
  pose proof (read_uint_chars d2 [] I) as H2.
  rewrite E in H1. congruence.
Qed.

Lemma number_chars_inj z1 z2 : number_chars z1 = number_chars z2 -> z1 = z2.
Proof.
  assert (Hpos : forall p q, uint_chars (Pos.to_uint p) = uint_chars (Pos.to_uint q)
                             -> p = q).
  { intros p q E. apply uint_chars_inj in E.
    apply DecimalPos.Unsigned.to_uint_inj in E. exact E. }
  assert (Hhead : forall p c r, uint_chars (Pos.to_uint p) = c :: r
                                -> c <> "0" /\ c <> "-").
  { intros p c r E. destruct (to_uint_head p) as (c' & r' & E' & Hc).
    rewrite E in E'. injection E' as -> ->.
    apply digit19_cases in Hc. split; intros ->; intuition discriminate. }
  destruct z1 as [|p|p], z2 as [|q|q]; simpl; intros E.
  - reflexivity.
  - symmetry in E. apply Hhead in E. tauto.
  - discriminate E.
  - apply Hhead in E. tauto.
  - f_equal. apply Hpos, E.
  - apply Hhead in E. tauto.
  - discriminate E.
  - symmetry in E. apply Hhead in E. tauto.
  - injection E as E. f_equal. apply Hpos, E.
Qed.

Lemma number_string_inj z1 z2 : number_string z1 = number_string z2 -> z1 = z2.
Proof.
  unfold number_string. intros E. apply number_chars_inj.
  rewrite <- (list_ascii_of_string_of_list_ascii (number_chars z1)), E.
  apply list_ascii_of_string_of_list_ascii.
Qed.

Lemma number_text_safe (z : Z) :
  (Z.abs z <=? two53)%Z = true -> number_text (JNum z) = number_chars z.
Proof. intros Hz. unfold number_text. rewrite Hz. reflexivity. Qed.

(** ** Objects in the order of the engine *)

Lemma ordered_from_snoc ks k last named :
  ordered_from last named (ks ++ [k]) = true ->
  ordered_from last named ks = true
  /\ existsb (String.eqb k) ks = false
  /\ (forall i, index_key k = Some i ->
        named = false /\ (last < i)%Z
        /\ Forall (fun k' => exists j, index_key k' = Some j /\ (j < i)%Z) ks).
Proof.
  revert last named. induction ks as [|k' ks IH]; intros last named; simpl.
  - intros H. split; [reflexivity|]. split; [reflexivity|].
    intros i Hi. rewrite Hi in H.
    apply andb_true_iff in H as [H _]. apply andb_true_iff in H as [Hn Hl].
    apply negb_true_iff in Hn. apply Z.ltb_lt in Hl. auto.
  - intros H. apply andb_true_iff in H as [Hdup H].
    rewrite existsb_app in Hdup. simpl in Hdup. rewrite orb_false_r in Hdup.
    apply negb_true_iff, orb_false_iff in Hdup as [Hdup Hk].
    rewrite Hdup. simpl.
    assert (Hkk : String.eqb k k' = false)
      by (rewrite String.eqb_sym; exact Hk).
    rewrite Hkk. simpl.
    destruct (index_key k') as [j|] eqn:Hj.
    + apply andb_true_iff in H as [H Hrest]. rewrite H. simpl.
      apply andb_true_iff in H as [Hn Hl].
      apply negb_true_iff in Hn. apply Z.ltb_lt in Hl.
      destruct (IH _ _ Hrest) as (H1 & H2 & H3).
      split; [exact H1|]. split; [exact H2|].
      intros i Hi. destruct (H3 i Hi) as (_ & Hji & HF).
      split; [exact Hn|]. split; [lia|]. constructor; eauto.
    + destruct (IH _ _ H) as (H1 & H2 & H3).
      split; [exact H1|]. split; [exact H2|].
      intros i Hi. destruct (H3 i Hi) as (Hfalse & _). discriminate.
Qed.

Lemma insert_index_last i k v (ms : list (string * json)) :
  Forall (fun k' => exists j, index_key k' = Some j /\ (j < i)%Z) (map fst ms) ->
  insert_index i k v ms = ms ++ [(k, v)].
Proof.
  induction ms as [|m ms IH]; simpl; [reflexivity|].
  intros HF. apply Forall_cons in HF as [(j & Hj & Hlt) HF].
  rewrite Hj. apply Z.ltb_lt in Hlt. rewrite Hlt. rewrite IH by exact HF. reflexivity.
Qed.

Lemma obj_set_last k v (ms : list (string * json)) :
  ordered (map fst (ms ++ [(k, v)])) = true -> obj_set k v ms = ms ++ [(k, v)].
Proof.
  unfold ordered. rewrite map_app. simpl. intros H.
  apply ordered_from_snoc in H as (_ & Hnew & Hidx).
  unfold obj_set.
  assert (Hk : has_key k ms = false).
  { unfold has_key. rewrite <- Hnew. clear.
    induction ms as [|m ms IH]; simpl; [reflexivity|]. rewrite IH. reflexivity. }
  rewrite Hk. destruct (index_key k) as [i|] eqn:Hi; [|reflexivity].
  destruct (Hidx i eq_refl) as (_ & _ & HF). apply insert_index_last, HF.
Qed.

Lemma ordered_prefix (ks : list string) k :
  ordered (ks ++ [k]) = true -> ordered ks = true.
Proof. unfold ordered. intros H. apply ordered_from_snoc in H. tauto. Qed.

Lemma object_of_ordered (ms : list (string * json)) :
  ordered (map fst ms) = true -> object_of ms = ms.
Proof.
  unfold object_of. induction ms as [|[k v] ms IH] using rev_ind; [reflexivity|].
  intros H. rewrite fold_left_app. simpl.
  rewrite IH by (rewrite map_app in H; exact (ordered_prefix _ _ H)).
  apply obj_set_last, H.
Qed.

Lemma psb_plain c r :
  Ascii.eqb c dquote = false -> Ascii.eqb c "\" = false ->
  (N_of_ascii c <? 32)%N = false ->
  parse_string_body (c :: r) = prepend [c] (parse_string_body r).
Proof. intros H1 H2 H3. cbn [parse_string_body]. rewrite H1, H2, H3. reflexivity. Qed.

Lemma psb_simple e x r :
  In (e, x) [(dquote, dquote); ("\", "\"); ("b", "008"); ("t", "009"); ("n", "010");
             ("f", "012"); ("r", "013")] ->
  parse_string_body ("\" :: e :: r) = prepend [x] (parse_string_body r).
Proof.
  simpl. intros H.
  repeat (destruct H as [H | H]; [injection H as <- <-; reflexivity|]).
  destruct H.
Qed.

Lemma psb_control a b c r :
  (exists hi, hex4 "0" "0" a b = Some hi /\ is_high_surrogate hi = false
              /\ utf8 hi = [c]) ->
  parse_string_body ("\" :: "u" :: "0" :: "0" :: a :: b :: r)
  = prepend [c] (parse_string_body r).
Proof.
  intros (hi & H1 & H2 & H3). cbn [parse_string_body].
  change (Ascii.eqb "\" dquote) with false. change (Ascii.eqb "\" "\") with true.
  change (Ascii.eqb "u" dquote || Ascii.eqb "u" "\" || Ascii.eqb "u" "/") with false.
  change (Ascii.eqb "u" "b") with false. change (Ascii.eqb "u" "t") with false.
  change (Ascii.eqb "u" "n") with false. change (Ascii.eqb "u" "f") with false.
  change (Ascii.eqb "u" "r") with false. change (Ascii.eqb "u" "u") with true.
  cbv beta iota. rewrite H1, H2, H3. reflexivity.
Qed.

Lemma parse_string_body_escape c tail l rest :
  parse_string_body tail = Some (l, rest) ->
  parse_string_body (escape_char c ++ tail) = Some (c :: l, rest).
Proof.
  intros H.
  assert (Hp : prepend [c] (parse_string_body tail) = Some (c :: l, rest))
    by (rewrite H; reflexivity).
  rewrite <- Hp. clear.
  destruct c as [[] [] [] [] [] [] [] []];
    match goal with
    | |- parse_string_body (?e ++ _) = _ =>
        let e' := eval vm_compute in e in change e with e'
    end;
    cbn [app];
    first
      [ apply psb_plain; reflexivity
      | apply psb_simple; simpl; tauto
      | apply psb_control; eexists; repeat split; vm_compute; reflexivity ].
Qed.

Lemma parse_string_body_quote l rest :
  parse_string_body (flat_map escape_char l ++ dquote :: rest) = Some (l, rest).
Proof.
  induction l as [|c l IH]; [reflexivity|].
  simpl flat_map. rewrite <- app_assoc. apply parse_string_body_escape, IH.
Qed.


Lemma number_head z :
  exists c r, number_chars z = c :: r /\ (c = "-" \/ c = "0" \/ digit19 c = true).
Proof.
  destruct z as [|p|p]; simpl.
  - eauto 6.
  - destruct (to_uint_head p) as (c & r & -> & Hc). eauto 6.
  - eauto 6.
Qed.

Lemma parse_value_number fuel c r :
  c = "-" \/ c = "0" \/ digit19 c = true ->
  parse_value (S fuel) (c :: r) = parse_number (c :: r).
Proof.
  intros [-> | [-> | H]]; [reflexivity | reflexivity |].
  apply digit19_cases in H.
  repeat (destruct H as [-> | H]; [reflexivity|]). subst. reflexivity.
Qed.

Lemma print_head v :
  integral v = true ->
  exists c r, print v = c :: r /\ is_ws c = false /\ Ascii.eqb c "]" = false
              /\ Ascii.eqb c "}" = false.
Proof.
  destruct v as [| [|] | z | l | s | items | ms]; simpl integral; intros H;
    try discriminate H; try (eexists _, _; repeat split; reflexivity).
  cbn [print]. rewrite number_text_safe by exact H.
  destruct (number_head z) as (c & r & -> & Hc). exists c, r.
  destruct Hc as [-> | [-> | Hc]]; [auto | auto |].
  apply digit19_cases in Hc.
  repeat (destruct Hc as [-> | Hc]; [auto|]). subst. auto.
Qed.

Lemma parse_value_bracket fuel r :
  parse_value (S fuel) ("[" :: r)
  = match skip_ws r with
    | c' :: r' =>
        if Ascii.eqb c' "]" then Some (JArr [], r')
        else match parse_elements fuel r with
             | Some (items, r2) => Some (JArr items, r2)
             | None => None
             end
    | [] => None
    end.
Proof. reflexivity. Qed.

Lemma parse_value_brace fuel r :
  parse_value (S fuel) ("{" :: r)
  = match skip_ws r with
    | c' :: r' =>
        if Ascii.eqb c' "}" then Some (JObj [], r')
        else match parse_members fuel r with
             | Some (ms, r2) => Some (JObj (object_of ms), r2)
             | None => None
             end
    | [] => None
    end.
Proof. reflexivity. Qed.

Lemma skip_ws_head c r : is_ws c = false -> skip_ws (c :: r) = c :: r.
Proof. intros H. simpl. rewrite H. reflexivity. Qed.

Lemma parse_elements_S fuel s :
  parse_elements (S fuel) s
  = match parse_value fuel s with
    | Some (v, r) =>
        match skip_ws r with
        | c :: r' =>
            if Ascii.eqb c "," then
              match parse_elements fuel r' with
              | Some (vs, r2) => Some (v :: vs, r2)
              | None => None
              end
            else if Ascii.eqb c "]" then Some ([v], r')
            else None
        | [] => None
        end
    | None => None
    end.
Proof. reflexivity. Qed.

Lemma parse_elements_join items :
  items <> [] -> Forall round_trips items -> forallb integral items = true ->
  forall fuel rest,
    (list_sum (map (fun x => S (json_size x)) items) <= fuel)%nat ->
    parse_elements fuel (join_commas (map print items) ++ "]" :: rest)
    = Some (items, rest).
Proof.
  induction items as [|x items IH]; [congruence|].
  intros _ HF Hint fuel rest Hfuel.
  apply Forall_cons in HF as [Hx HF].
  simpl in Hint. apply andb_true_iff in Hint as [Hix Hint].
  simpl in Hfuel. destruct fuel as [|fuel]; [lia|].
  rewrite parse_elements_S.
  destruct items as [|y items].
  - simpl join_commas. rewrite (Hx Hix fuel ("]" :: rest)); [reflexivity | lia |].
    simpl; auto.
  - change (join_commas (map print (x :: y :: items)))
      with (print x ++ "," :: join_commas (map print (y :: items))).
    rewrite <- app_assoc. simpl app at 2.
    rewrite (Hx Hix fuel); [| lia | simpl; auto].
    cbn [skip_ws]. change (is_ws ",") with false. cbv iota.
    change (Ascii.eqb "," ",") with true. cbv iota.
    rewrite IH; [reflexivity | congruence | assumption | assumption |].
    simpl in *. lia.
Qed.


Lemma parse_members_S fuel r :
  parse_members (S fuel) (dquote :: r)
  = match parse_string_body r with
    | Some (k, r1) =>
        match skip_ws r1 with
        | c :: r2 =>
            if Ascii.eqb c ":" then
              match parse_value fuel r2 with
              | Some (v, r3) =>
                  match skip_ws r3 with
                  | c' :: r4 =>
                      if Ascii.eqb c' "," then
                        match parse_members fuel r4 with
                        | Some (ms, r5) => Some ((string_of_list_ascii k, v) :: ms, r5)
                        | None => None
                        end
                      else if Ascii.eqb c' "}"
                      then Some ([(string_of_list_ascii k, v)], r4)
                      else None
                  | [] => None
                  end
              | None => None
              end
            else None
        | [] => None
        end
    | None => None
    end.
Proof. reflexivity. Qed.

Lemma member_chars_app m tail :
  member_chars m ++ tail
  = dquote :: flat_map escape_char (list_ascii_of_string (fst m))
      ++ dquote :: ":" :: print (snd m) ++ tail.
Proof.
  unfold member_chars, quote. simpl. rewrite <- !app_assoc. reflexivity.
Qed.

Lemma parse_members_join ms :
  ms <> [] -> Forall (fun m => round_trips (snd m)) ms ->
  forallb (fun m => integral (snd m)) ms = true ->
  forall fuel rest,
    (list_sum (map (fun m => S (json_size (snd m))) ms) <= fuel)%nat ->
    parse_members fuel (join_commas (map member_chars ms) ++ "}" :: rest)
    = Some (ms, rest).
Proof.
  induction ms as [|[k v] ms IH]; [congruence|].
  intros _ HF Hint fuel rest Hfuel.
  apply Forall_cons in HF as [Hx HF]. simpl in Hx.
  simpl in Hint. apply andb_true_iff in Hint as [Hix Hint].
  simpl in Hfuel. destruct fuel as [|fuel]; [lia|].
  destruct ms as [|m ms].
  - simpl join_commas. rewrite member_chars_app, parse_members_S.
    rewrite parse_string_body_quote. simpl fst; simpl snd.
    rewrite skip_ws_head by reflexivity.
    change (Ascii.eqb ":" ":") with true. cbv iota.
    rewrite (Hx Hix fuel ("}" :: rest)); [| lia | simpl; auto].
    rewrite string_of_list_ascii_of_string. reflexivity.
  - change (join_commas (map member_chars ((k, v) :: m :: ms)))
      with (member_chars (k, v) ++ "," :: join_commas (map member_chars (m :: ms))).
    rewrite <- app_assoc. simpl app at 2.
    rewrite member_chars_app, parse_members_S.
    rewrite parse_string_body_quote. simpl fst; simpl snd.
    rewrite skip_ws_head by reflexivity.
    change (Ascii.eqb ":" ":") with true. cbv iota.
    rewrite (Hx Hix fuel); [| lia | simpl; auto].
    rewrite skip_ws_head by reflexivity.
    change (Ascii.eqb "," ",") with true. cbv iota.
    rewrite IH; [| congruence | assumption | assumption | simpl in *; lia].
    rewrite string_of_list_ascii_of_string. reflexivity.
Qed.

Lemma print_round_trips v : round_trips v.
Proof.
  induction v using json_nested_ind; intros Hint fuel rest Hfuel Hrest;
    (destruct fuel as [|fuel]; [simpl in Hfuel; lia|]).
  - reflexivity.
  - destruct b; reflexivity.
  - simpl in Hint. destruct (number_head z) as (c & r & E & Hc).
    pose proof (parse_number_chars z rest Hint Hrest) as Hn.
    cbn [print]. rewrite number_text_safe by exact Hint.
    rewrite E in *. simpl app in *.
    rewrite parse_value_number by assumption. exact Hn.
  - discriminate Hint.
  - simpl print. unfold quote. simpl app. rewrite <- app_assoc. simpl app.
    change (parse_value (S fuel) (dquote :: ?x))
      with (match parse_string_body x with
            | Some (str, r') => Some (JStr (string_of_list_ascii str), r')
            | None => None
            end).
    rewrite parse_string_body_quote, string_of_list_ascii_of_string. reflexivity.
  - simpl in Hint, Hfuel. simpl print. simpl app. rewrite <- app_assoc. simpl app.
    rewrite parse_value_bracket.
    destruct items as [|x items]; [reflexivity|].
    destruct (print_head x) as (c & r & E & Hws & Hb & _).
    { simpl in Hint. apply andb_true_iff in Hint. tauto. }
    assert (Hhead : exists r', join_commas (map print (x :: items)) ++ "]" :: rest
                               = c :: r').
    { destruct items; simpl; rewrite E; simpl; eauto. }
    destruct Hhead as [r' Hhead].
    rewrite Hhead, skip_ws_head, Hb by assumption. rewrite <- Hhead.
    rewrite parse_elements_join; [reflexivity | congruence | assumption
                                 | assumption | lia].
  - simpl in Hint, Hfuel. apply andb_true_iff in Hint as [Hord Hint].
    change (print (JObj ms)) with ("{" :: join_commas (map member_chars ms) ++ ["}"]).
    simpl app. rewrite <- app_assoc. simpl app.
    rewrite parse_value_brace.
    destruct ms as [|m ms]; [reflexivity|].
    assert (Hhead : exists r', join_commas (map member_chars (m :: ms)) ++ "}" :: rest
                               = dquote :: r').
    { destruct ms; simpl; eauto. }
    destruct Hhead as [r' Hhead].
    rewrite Hhead, skip_ws_head by reflexivity.
    change (Ascii.eqb dquote "}") with false. cbv iota. rewrite <- Hhead.
    rewrite parse_members_join; [| congruence | assumption | assumption | lia].
    rewrite object_of_ordered by exact Hord. reflexivity.
Qed.


Lemma length_join_commas (l : list chars) :
  (list_sum (map (fun x => S (length x)) l) <= S (length (join_commas l)))%nat.
Proof.
  induction l as [|x [|y l] IH]; simpl in *; [lia | lia |].
  rewrite length_app. simpl. lia.
Qed.

Lemma json_size_le_length v :
  integral v = true -> (json_size v <= length (print v))%nat.
Proof.
  induction v using json_nested_ind; intros Hint; simpl in Hint.
  - simpl. lia.
  - destruct b; simpl; lia.
  - cbn [print]. rewrite number_text_safe by exact Hint.
    destruct (number_head z) as (c & r & E & _). simpl. rewrite E. simpl. lia.
  - discriminate.
  - simpl. rewrite length_app. simpl. lia.
  - change (print (JArr items)) with ("[" :: join_commas (map print items) ++ ["]"]).
    simpl. rewrite length_app. simpl.
    pose proof (length_join_commas (map print items)) as Hj.
    rewrite map_map in Hj.
    enough (list_sum (map (fun x => S (json_size x)) items)
            <= list_sum (map (fun x => S (length (print x))) items))%nat by lia.
    clear Hj. induction H as [|x items Hx HF IH]; simpl in *; [lia|].
    apply andb_true_iff in Hint as [Hix Hint]. specialize (Hx Hix).
    specialize (IH Hint). lia.
  - change (print (JObj ms)) with ("{" :: join_commas (map member_chars ms) ++ ["}"]).
    simpl. rewrite length_app. simpl.
    pose proof (length_join_commas (map member_chars ms)) as Hj.
    rewrite map_map in Hj.
    enough (list_sum (map (fun m => S (json_size (snd m))) ms)
            <= list_sum (map (fun m => S (length (member_chars m))) ms))%nat by lia.
    apply andb_true_iff in Hint as [_ Hint].
    clear Hj. induction H as [|m ms Hx HF IH]; simpl in *; [lia|].
    apply andb_true_iff in Hint as [Hix Hint]. specialize (Hx Hix).
    specialize (IH Hint). unfold member_chars in *. rewrite ?length_app in *. simpl in *. lia.
Qed.

(** Parsing the text of a value gives the value back. *)
Lemma JSON_parse_stringify v :
  integral v = true -> JSON_parse (JSON_stringify v) = Some v.
Proof.
  intros Hint. unfold JSON_parse, JSON_stringify.
  rewrite list_ascii_of_string_of_list_ascii.
  pose proof (print_round_trips v Hint (S (length (print v))) []) as H.
  rewrite app_nil_r in H. rewrite H; [reflexivity | | exact I].
  pose proof (json_size_le_length v Hint). lia.
Qed.

End codec_facts.

(** * Facts about the tables *)

Section table_facts.
Context `{libs : Libs}.

Lemma set_comunidades_same d :
  set_comunidades (comunidades d) (comunidades_seq d) d = d.
Proof. destruct d; reflexivity. Qed.

Lemma no_row_existsb id (l : list comunidade) :
  filter (fun c => com_id c = id) l = [] ->
  existsb (fun c => com_id c =? id) l = false.
Proof.
  induction l as [|c l IH]; [reflexivity|].
  rewrite filter_cons. simpl. destruct (decide (com_id c = id)) as [E|E]; [discriminate|].
  intros Hl. apply Z.eqb_neq in E. rewrite E. simpl. auto.
Qed.

Lemma no_row_filter id (l : list comunidade) :
  filter (fun c => com_id c = id) l = [] ->
  filter (fun c => com_id c <> id) l = l.
Proof.
  induction l as [|c l IH]; [reflexivity|].
  rewrite !filter_cons. destruct (decide (com_id c = id)) as [E|E]; [discriminate|].
  intros Hl. destruct (decide (com_id c <> id)); [|contradiction]. f_equal. auto.
Qed.

Lemma update_unknown_id v id d :
  comunidades_by_id id d = [] -> accepted v = true -> int4 id = true ->
  update_comunidade v id d = Some (d, []).
Proof.
  intros Hno Hv Hid. unfold update_comunidade.
  rewrite Hv, Hid, (no_row_existsb id _ Hno). simpl.
  rewrite (no_row_filter id _ Hno), Hno. simpl.
  rewrite app_nil_r, set_comunidades_same. reflexivity.
Qed.

Lemma existsb_false_filter id (l : list comunidade) :
  existsb (fun c => com_id c =? id) l = false ->
  filter (fun c => com_id c = id) l = [].
Proof.
  induction l as [|c l IH]; [reflexivity|].
  simpl. intros Hex. apply orb_false_iff in Hex as [Hc Hl].
  rewrite filter_cons. apply Z.eqb_neq in Hc.
  destruct (decide (com_id c = id)); [contradiction|auto].
Qed.

(** A successful INSERT adds one row, with the next value of the sequence
    as its id, and no other row has this id. *)
Lemma insert_comunidade_row v d d' row :
  insert_comunidade v d = (d', Some row) ->
  com_vals row = stored v
  /\ com_id row = comunidades_seq d + 1
  /\ comunidades d' = comunidades d ++ [row]
  /\ comunidades_by_id (com_id row) d' = [row]
  /\ int4 (com_id row) = true
  /\ accepted v = true.
Proof.
  unfold insert_comunidade.
  destruct (accepted v) eqn:Hv; [|discriminate].
  destruct (int4 (comunidades_seq d + 1)) eqn:Hid; [|discriminate]. simpl.
  destruct (existsb _ (comunidades d)) eqn:Hex; simpl; [discriminate|].
  destruct (negb (references_etapa v d)); [discriminate|].
  intros E. injection E as <- <-. simpl.
  split; [reflexivity|]. split; [reflexivity|]. split; [reflexivity|].
  split; [|split; [exact Hid | reflexivity]].
  unfold comunidades_by_id. simpl. rewrite filter_app.
  rewrite (existsb_false_filter _ _ Hex). simpl.
  rewrite filter_cons, filter_nil. simpl.
  destruct (decide (comunidades_seq d + 1 = comunidades_seq d + 1)); [reflexivity|].
  contradiction.
Qed.


Lemma or_else_array items d : or_else (Some (JArr items)) d = JArr items.
Proof. reflexivity. Qed.

(** * Facts about the header *)

Lemma split_space_app a r :
  no_space a = true -> split_space (a +:+ String " " r) = a :: split_space r.
Proof.
  induction a as [|c a IH]; simpl; [reflexivity|].
  intros Ha. apply andb_true_iff in Ha as [Hc Ha].
  apply negb_true_iff in Hc. rewrite Hc, (IH Ha). reflexivity.
Qed.

Lemma split_space_whole a : no_space a = true -> split_space a = [a].
Proof.
  induction a as [|c a IH]; simpl; [reflexivity|].
  intros Ha. apply andb_true_iff in Ha as [Hc Ha].
  apply negb_true_iff in Hc. rewrite Hc, (IH Ha). reflexivity.
Qed.

Lemma split_space_not_nil r : split_space r <> [].
Proof.
  destruct r as [|c r]; simpl; [discriminate|].
  destruct (Ascii.eqb c " "); [discriminate|].
  destruct (split_space r); discriminate.
Qed.

Lemma split_space_single r t : split_space r = [t] -> r = t /\ no_space t = true.
Proof.
  revert t. induction r as [|c r IH]; simpl; intros t.
  - intros E. injection E as <-. auto.
  - pose proof (split_space_not_nil r) as Hne.
    destruct (Ascii.eqb c " ") eqn:Hc.
    + intros E. injection E as _ E. contradiction.
    + destruct (split_space r) as [|p ps] eqn:Hs; [contradiction|].
      intros E. injection E as <- ->.
      destruct (IH p eq_refl) as [-> Hp]. simpl. rewrite Hc, Hp. auto.
Qed.

Lemma split_space_two h a t :
  split_space h = [a; t] ->
  h = a +:+ String " " t /\ no_space a = true /\ no_space t = true.
Proof.
  revert a. induction h as [|c h IH]; simpl; intros a; [discriminate|].
  destruct (Ascii.eqb c " ") eqn:Hc.
  - intros E. injection E as <- Hs. apply Ascii.eqb_eq in Hc as ->.
    apply split_space_single in Hs as [-> Ht]. auto.
  - destruct (split_space h) as [|p ps] eqn:Hs; [discriminate|].
    intros E. injection E as <- ->.
    destruct (IH p eq_refl) as (-> & Hp & Ht). simpl. rewrite Hc, Hp. auto.
Qed.

(** * Facts about the users table *)

Lemma filter_map_same_id (f : user -> user) id (l : list user) :
  (forall u, user_id (f u) = user_id u) ->
  filter (fun u => user_id u = id) (map f l) = map f (filter (fun u => user_id u = id) l).
Proof.
  intros Hf. induction l as [|u l IH]; [reflexivity|].
  simpl. rewrite !filter_cons, Hf.
  destruct (decide (user_id u = id)); simpl; rewrite IH; reflexivity.
Qed.

Lemma users_by_id_head id d row rest :
  users_by_id id d = row :: rest -> user_id row = id.
Proof.
  unfold users_by_id. intros E.
  assert (Hin : row ∈ filter (fun u => user_id u = id) (users d))
    by (rewrite E; left).
  apply list_elem_of_filter in Hin. tauto.
Qed.


End table_facts.

(** * Facts about the reads that decode *)

Section report_facts.
Context `{libs : Libs}.


Lemma insert_sorted_elem {A : Type} (before : A -> A -> bool) (c x : A) (l : list A) :
  x ∈ insert_sorted before c l <-> x = c \/ x ∈ l.
Proof.
  induction l as [|y l IH]; simpl.
  - rewrite list_elem_of_singleton, elem_of_nil. tauto.
  - destruct (before c y).
    + rewrite elem_of_cons. tauto.
    + rewrite !elem_of_cons, IH. tauto.
Qed.

Lemma order_by_elem {A : Type} (before : A -> A -> bool) (x : A) (l : list A) :
  x ∈ order_by before l <-> x ∈ l.
Proof.
  unfold order_by. induction l as [|y l IH]; simpl; [tauto|].
  rewrite insert_sorted_elem, elem_of_cons, IH. tauto.
Qed.

Lemma insert_sorted_perm {A : Type} (before : A -> A -> bool) (x : A) (l : list A) :
  insert_sorted before x l ≡ₚ x :: l.
Proof.
  induction l as [|y l IH]; simpl; [reflexivity|].
  destruct (before x y); [reflexivity|].
  rewrite IH. apply Permutation_swap.
Qed.

Lemma order_by_perm {A : Type} (before : A -> A -> bool) (l : list A) :
  order_by before l ≡ₚ l.
Proof.
  unfold order_by. induction l as [|x l IH]; simpl; [reflexivity|].
  rewrite insert_sorted_perm, IH. reflexivity.
Qed.








Lemma counts_empty : counts ∅ [].
Proof. intros id. rewrite lookup_empty. reflexivity. Qed.

Lemma carisma_ids_app l1 l2 : carisma_ids (l1 ++ l2) = carisma_ids l1 ++ carisma_ids l2.
Proof. unfold carisma_ids. apply flat_map_app. Qed.

Lemma count_item_counts m seen item :
  counts m seen -> association item = true ->
  exists m', Part000.count_item (Some m) item = Some m' /\ counts m' (seen ++ [item]).
Proof.
  intros Hm Hitem. unfold association in Hitem. unfold Part000.count_item.
  destruct (get_prop item "carisma_id") as [[[| | z | | | |]|]|] eqn:Hget;
    try discriminate Hitem.
  assert (Hkey : property_key (Some (JNum z)) = number_string z).
  { unfold property_key, to_string. rewrite number_text_safe by exact Hitem.
    reflexivity. }
  rewrite Hkey.
  eexists. split; [reflexivity|]. intros id.
  rewrite carisma_ids_app, List.filter_app, length_app, Nat2Z.inj_add, <- Hm.
  unfold carisma_ids at 1. simpl. rewrite Hget. simpl.
  destruct (Z.eqb_spec z id) as [-> | Hne].
  - rewrite lookup_insert_eq. simpl. lia.
  - rewrite lookup_insert_ne; [simpl; lia|].
    intros E. apply number_string_inj in E. contradiction.
Qed.

Lemma fold_count_item_counts items m seen :
  counts m seen -> forallb association items = true ->
  exists m', fold_left Part000.count_item items (Some m) = Some m'
             /\ counts m' (seen ++ items).
Proof.
  revert m seen. induction items as [|item items IH]; intros m seen Hm Hok.
  - exists m. rewrite app_nil_r. auto.
  - simpl in Hok. apply andb_true_iff in Hok as [Hitem Hok].
    destruct (count_item_counts m seen item Hm Hitem) as (m1 & E1 & Hm1).
    destruct (IH m1 (seen ++ [item]) Hm1 Hok) as (m2 & E2 & Hm2).
    exists m2.
    change (fold_left Part000.count_item (item :: items) (Some m))
      with (fold_left Part000.count_item items (Part000.count_item (Some m) item)).
    rewrite E1, E2.
    rewrite <- app_assoc in Hm2. auto.
Qed.

Lemma contagem_of_counts rows m seen :
  counts m seen -> forallb associations_ok rows = true ->
  exists m',
    fold_left Part000.count_row (map (fun c => carismas_json (com_vals c)) rows) (Some m)
    = Some m'
    /\ counts m' (seen ++ all_carisma_items rows).
Proof.
  revert m seen. induction rows as [|row rows IH]; intros m seen Hm Hok.
  - exists m. simpl. rewrite app_nil_r. auto.
  - simpl in Hok. apply andb_true_iff in Hok as [Hrow Hok].
    unfold associations_ok in Hrow.
    destruct (Part000.parse_or_empty (carismas_json (com_vals row)))
      as [[| | | | | items |]|] eqn:Hparse; try discriminate Hrow.
    destruct (fold_count_item_counts items m seen Hm Hrow) as (m1 & E1 & Hm1).
    destruct (IH m1 (seen ++ items) Hm1 Hok) as (m2 & E2 & Hm2).
    exists m2. cbn [map fold_left]. unfold Part000.count_row at 2.
    rewrite Hparse. cbn [iterate]. rewrite E1, E2.
    rewrite <- app_assoc in Hm2. split; [reflexivity|].
    unfold all_carisma_items. cbn [flat_map]. rewrite Hparse. exact Hm2.
Qed.

End report_facts.

(** * The claims of the specification *)

Section claims.
Context `{libs : Libs}.

(** C9, as the code has it. Deleting a community whose id is in the range
    of INTEGER answers [{ok:true}], in both versions of the route; when no
    row has the id the database is left as it was; in every case the rows of
    the other ids, and the other tables, are untouched, and no row of the id
    remains.  For an id outside the range of INTEGER, PostgreSQL rejects the
    DELETE, neither version catches the error, and the handler throws: no
    response is sent, and the database is left as it was. *)
Theorem delete_comunidade_answers (id : Z) (d : db) :
  (int4 id = true ->
   exists d',
     Part000.delete_comunidade id d = (d', Responded 200 ok_true)
     /\ Part001.delete_comunidade id d = (d', Responded 200 ok_true)
     /\ (comunidades_by_id id d = [] -> d' = d)
     /\ (forall row, com_id row <> id -> row ∈ comunidades d' <-> row ∈ comunidades d)
     /\ comunidades_by_id id d' = []
     /\ users d' = users d /\ etapas d' = etapas d /\ carismas d' = carismas d)
  /\ (int4 id = false ->
      Part000.delete_comunidade id d = (d, Threw)
      /\ Part001.delete_comunidade id d = (d, Threw)).
Proof.
  unfold Part000.delete_comunidade, Part001.delete_comunidade. split.
  - intros ->. simpl. exists (delete_comunidade_row id d).
    split; [reflexivity|]. split; [reflexivity|]. split.
    { intros Hno. unfold delete_comunidade_row.
      rewrite (no_row_filter id _ Hno). apply set_comunidades_same. }
    split.
    { intros row Hne. simpl. split; intros Hin.
      - apply list_elem_of_filter in Hin. tauto.
      - apply list_elem_of_filter. tauto. }
    split; [|repeat split].
    unfold comunidades_by_id. simpl.
    induction (comunidades d) as [|c l IH]; [reflexivity|].
    rewrite filter_cons. destruct (decide (com_id c <> id)) as [E|E]; [|exact IH].
    rewrite filter_cons. destruct (decide (com_id c = id)); [contradiction|exact IH].
  - intros ->. split; reflexivity.
Qed.

(** C10, as the code has it. For an id in the range of INTEGER that no
    community has, GET /api/comunidades/:id answers 404 in both versions,
    while PUT on the same id, with a body whose parameters PostgreSQL
    accepts, answers 200 ([{ok:true}] in the first version, an empty body
    in the second) and leaves the database as it was.  When PostgreSQL
    rejects the id or a parameter of the body, PUT throws in the first
    version and answers 400 in the second; when it rejects the id, GET
    throws in both versions. *)
Theorem put_comunidade_unknown_id (id : Z) (data : Body.data) (d : db) :
  comunidades_by_id id d = [] ->
  (int4 id = true ->
   Part000.get_comunidade id d = (d, Responded 404 (error "Não encontrado"))
   /\ Part001.get_comunidade id d
      = (d, Responded 404 (error "Comunidade não encontrada"))
   /\ (accepted (Part000.vals_of data) = true ->
       Part000.put_comunidade id data d = (d, Responded 200 ok_true))
   /\ (accepted (Part001.vals_of data) = true ->
       Part001.put_comunidade id data d = (d, Responded 200 None)))
  /\ (int4 id = false ->
      Part000.get_comunidade id d = (d, Threw)
      /\ Part001.get_comunidade id d = (d, Threw))
  /\ (int4 id = false \/ accepted (Part000.vals_of data) = false ->
      Part000.put_comunidade id data d = (d, Threw))
  /\ (int4 id = false \/ accepted (Part001.vals_of data) = false ->
      Part001.put_comunidade id data d
      = (d, Responded 400 (error "Erro ao atualizar comunidade"))).
Proof.
  intros Hno. unfold Part000.put_comunidade, Part001.put_comunidade,
    Part000.get_comunidade, Part001.get_comunidade.
  split; [|split; [|split]].
  - intros Hid. rewrite Hid, Hno. simpl.
    split; [reflexivity|]. split; [reflexivity|].
    split; intros Hv; rewrite update_unknown_id by assumption; reflexivity.
  - intros ->. split; reflexivity.
  - intros Hbad. unfold update_comunidade.
    destruct Hbad as [-> | ->]; rewrite ?andb_false_r; reflexivity.
  - intros Hbad. unfold update_comunidade.
    destruct Hbad as [-> | ->]; rewrite ?andb_false_r; reflexivity.
Qed.

(** C5, as the code has it. When a create request lacks [qtd_total] or
    [qtd_jovens], the first version stores 0 in that column and the second
    version stores NULL; when it lacks [levantados] or [carismas], both
    versions store the text of the empty list. *)
Theorem create_defaults (data : Body.data) (d : db) :
  (forall d' id,
      Part000.post_comunidades data d
      = (d', Responded 200 (Some (JObj [("id", JNum id)]))) ->
      exists row,
        comunidades_by_id id d' = [row]
        /\ (Body.qtd_total data = None -> qtd_total (com_vals row) = Some 0)
        /\ (Body.qtd_jovens data = None -> qtd_jovens (com_vals row) = Some 0)
        /\ (Body.levantados data = None -> levantados_json (com_vals row) = Some "[]")
        /\ (Body.carismas data = None -> carismas_json (com_vals row) = Some "[]"))
  /\ (forall d' status body,
         Part001.post_comunidades data d = (d', Responded status body) ->
         status = 200 ->
         exists row,
           body = Some (JObj (row_members row))
           /\ comunidades_by_id (com_id row) d' = [row]
           /\ (Body.qtd_total data = None -> qtd_total (com_vals row) = None)
           /\ (Body.qtd_jovens data = None -> qtd_jovens (com_vals row) = None)
           /\ (Body.levantados data = None -> levantados_json (com_vals row) = Some "[]")
           /\ (Body.carismas data = None -> carismas_json (com_vals row) = Some "[]")).
Proof.
  split.
  - intros d' id. unfold Part000.post_comunidades.
    destruct (insert_comunidade _ d) as [d1 [row|]] eqn:Hins; [|discriminate].
    intros E. injection E as <- <-.
    apply insert_comunidade_row in Hins as (Hv & _ & _ & Hby & _).
    exists row. rewrite Hv. simpl.
    repeat split; try assumption; intros ->; reflexivity.
  - intros d' status body. unfold Part001.post_comunidades.
    destruct (insert_comunidade _ d) as [d1 [row|]] eqn:Hins.
    + intros E _. injection E as <- _ <-.
      apply insert_comunidade_row in Hins as (Hv & _ & _ & Hby & _).
      exists row. rewrite Hv. simpl.
      repeat split; try assumption; intros ->; reflexivity.
    + intros E ->. discriminate E.
Qed.


(** C3, as the code has it. A login that finds no user of the e-mail and a
    login whose password the hash comparison rejects are both answered with
    status 400, the first with the message "Usuário não encontrado" and the
    second with "Senha incorreta": the two responses differ. *)
Theorem login_failures_differ (d : db) (e1 e2 p1 : option string) (p2 : string)
    (u : user) (rest : list user) :
  users_by_email e1 d = [] ->
  users_by_email e2 d = u :: rest ->
  bcrypt_compare p2 (user_password u) = false ->
  post_login e1 p1 d = (d, Responded 400 (error "Usuário não encontrado"))
  /\ post_login e2 (Some p2) d = (d, Responded 400 (error "Senha incorreta"))
  /\ post_login e1 p1 d <> post_login e2 (Some p2) d.
Proof.
  intros H1 H2 Hcmp.
  assert (Ha : post_login e1 p1 d = (d, Responded 400 (error "Usuário não encontrado")))
    by (unfold post_login; rewrite H1; reflexivity).
  assert (Hb : post_login e2 (Some p2) d = (d, Responded 400 (error "Senha incorreta")))
    by (unfold post_login; rewrite H2, Hcmp; reflexivity).
  repeat split; [exact Ha | exact Hb |]. rewrite Ha, Hb. discriminate.
Qed.


(** C8. A self-update leaves the name, the e-mail and the password hash of
    the caller's record as they were, each when the request omits it; a
    password that is given (and not empty) is stored, when the update
    succeeds, as the bcrypt hash of it, which is not the password. *)
Theorem put_user_keeps_omitted (message : string) (req_user : claims)
    (body : Profile.body) (salt : string) (d d' : db) (out : outcome)
    (row : user) (rest : list user) :
  users_by_id (claim_id req_user) d = row :: rest ->
  put_user message req_user body salt d = (d', out) ->
  exists row' rest',
    users_by_id (claim_id req_user) d' = row' :: rest'
    /\ user_is_admin row' = user_is_admin row
    /\ (Profile.name body = None -> user_name row' = user_name row)
    /\ (Profile.email body = None -> user_email row' = user_email row)
    /\ (Profile.password body = None -> user_password row' = user_password row)
    /\ (forall p, Profile.password body = Some p -> p <> EmptyString ->
                  out = Responded 200 ok_true ->
                  user_password row' = bcrypt_hash salt p
                  /\ (bcrypt_hash salt p <> p -> user_password row' <> p)).
Proof.
  intros Hrow. unfold put_user. rewrite Hrow.
  pose proof (users_by_id_head _ _ _ _ Hrow) as Hid.
  destruct (update_user _ _ _ _ d) as [d1|] eqn:Hup; intros E; injection E as <- <-.
  - unfold update_user in Hup.
    destruct (existsb _ (users d) && existsb _ (users d)); [discriminate|].
    injection Hup as <-. unfold users_by_id in *. simpl.
    rewrite filter_map_same_id, Hrow
      by (intros u; destruct (user_id u =? claim_id req_user); reflexivity).
    simpl. rewrite Hid, Z.eqb_refl. eexists _, _. split; [reflexivity|]. simpl.
    split; [reflexivity|].
    split; [intros ->; reflexivity|].
    split; [intros ->; reflexivity|].
    split; [intros ->; reflexivity|].
    intros p Hp Hne _. rewrite Hp. simpl.
    apply String.eqb_neq in Hne. rewrite Hne. auto.
  - exists row, rest.
    split; [assumption|]. split; [reflexivity|].
    split; [reflexivity|]. split; [reflexivity|]. split; [reflexivity|].
    intros p _ _ Hout. discriminate Hout.
Qed.

(** C4, as the code has it. The guard answers 401 "Sem token" when the
    Authorization header is absent or empty.  A header made of two parts
    without spaces, separated by one space, is accepted exactly when
    [jwt.verify] accepts the second part: the handler then runs with the
    decoded claims, otherwise the answer is 401 "Token inválido"; the first
    part is not compared with "Bearer".  In the first version every other
    header is answered 401 "Token inválido"; in the two other files the
    token is the second of the parts, whatever follows it, and a header
    without a space is answered 401 "Token inválido". *)
Theorem guard_contract (next : claims -> handler) (d : db) :
  (forall header, absent header = true ->
     Part000.verificarToken header next d = (d, Responded 401 (error "Sem token"))
     /\ Part001.verificarToken header next d = (d, Responded 401 (error "Sem token"))
     /\ Server.verificarToken header next d = (d, Responded 401 (error "Sem token")))
  /\ (forall scheme token,
        no_space scheme = true -> no_space token = true ->
        let answer :=
          match jwt_verify token with
          | Some data => next data d
          | None => (d, Responded 401 (error "Token inválido"))
          end in
        Part000.verificarToken (Some (scheme +:+ String " " token)) next d = answer
        /\ Part001.verificarToken (Some (scheme +:+ String " " token)) next d = answer
        /\ Server.verificarToken (Some (scheme +:+ String " " token)) next d = answer)
  /\ (forall h,
        absent (Some h) = false ->
        (forall scheme token, no_space scheme = true -> no_space token = true ->
                              h <> scheme +:+ String " " token) ->
        Part000.verificarToken (Some h) next d
        = (d, Responded 401 (error "Token inválido")))
  /\ (forall scheme token more,
        no_space scheme = true -> no_space token = true ->
        let h := scheme +:+ String " " (token +:+ String " " more) in
        let answer :=
          match jwt_verify token with
          | Some data => next data d
          | None => (d, Responded 401 (error "Token inválido"))
          end in
        Part001.verificarToken (Some h) next d = answer
        /\ Server.verificarToken (Some h) next d = answer)
  /\ (forall h,
        absent (Some h) = false -> no_space h = true ->
        Part001.verificarToken (Some h) next d
        = (d, Responded 401 (error "Token inválido"))
        /\ Server.verificarToken (Some h) next d
           = (d, Responded 401 (error "Token inválido"))).
Proof.
  repeat apply conj.
  - intros header Ha. unfold Part000.verificarToken, Part001.verificarToken,
      Server.verificarToken. rewrite Ha. auto.
  - intros scheme token Hs Ht answer.
    assert (Hne : absent (Some (scheme +:+ String " " token)) = false)
      by (destruct scheme; reflexivity).
    assert (Hstr : str_or (Some (scheme +:+ String " " token)) EmptyString
                   = scheme +:+ String " " token)
      by (destruct scheme; reflexivity).
    unfold Part000.verificarToken, Part001.verificarToken, Server.verificarToken.
    rewrite Hne, Hstr, split_space_app, split_space_whole by assumption.
    auto.
  - intros h Ha Hshape. unfold Part000.verificarToken. rewrite Ha.
    assert (Hstr : str_or (Some h) EmptyString = h)
      by (simpl in *; rewrite Ha; reflexivity).
    rewrite Hstr.
    destruct (split_space h) as [|a [|t [|x l]]] eqn:Hs; try reflexivity.
    apply split_space_two in Hs as (-> & Hna & Hnt).
    exfalso. exact (Hshape a t Hna Hnt eq_refl).
  - intros scheme token more Hs Ht h answer.
    assert (Hne : absent (Some h) = false) by (subst h; destruct scheme; reflexivity).
    assert (Hstr : str_or (Some h) EmptyString = h)
      by (subst h; destruct scheme; reflexivity).
    unfold Part001.verificarToken, Server.verificarToken.
    rewrite Hne, Hstr. subst h. rewrite !split_space_app by assumption. auto.
  - intros h Ha Hn. unfold Part001.verificarToken, Server.verificarToken.
    assert (Hstr : str_or (Some h) EmptyString = h)
      by (simpl in *; rewrite Ha; reflexivity).
    rewrite Ha, Hstr, split_space_whole by assumption. auto.
Qed.


(** C6, as the code has it. For an administrator, when every stored
    [carismas_json] decodes to a list of items that refer to a charism by a
    number, an integer of magnitude at most 2^53 ([associations_ok]), the
    charism report answers one entry for every row of the [carismas] table,
    in the order of the table, with the name of the charism and, as its
    total, the number of occurrences of its id in the decoded lists of all
    the communities: 0 for a charism that no community refers to.  The
    service does not keep the stored lists so. *)
Theorem charism_report_counts (admin : claims) (d : db) :
  claim_is_admin admin = true ->
  forallb associations_ok (comunidades d) = true ->
  Part000.get_relatorios admin "carismas" d
  = (d, Responded 200
          (Some (JArr (map (fun c =>
                              JObj [("nome", JStr (car_nome c));
                                    ("total", JNum (occurrences (car_id c)
                                                      (comunidades d)))])
                         (carismas d))))).
Proof.
  intros Hadmin Hok. unfold Part000.get_relatorios, Part000.contagem_of.
  rewrite Hadmin.
  destruct (contagem_of_counts (comunidades d) ∅ [] counts_empty Hok)
    as (m & -> & Hm).
  simpl. do 4 f_equal. apply map_ext. intros c.
  rewrite (Hm (car_id c)). reflexivity.
Qed.

End claims.

Section claims_on_examples.
#[local] Existing Instance toy_libs.

Lemma delete_comunidade_answers_witness :
  int4 1 = true
  /\ exists d',
       Part000.delete_comunidade 1 two_x = (d', Responded 200 ok_true)
       /\ Part001.delete_comunidade 1 two_x = (d', Responded 200 ok_true)
       /\ comunidades_by_id 1 d' = [].
Proof.
  split; [reflexivity|].
  destruct (delete_comunidade_answers 1 two_x) as [Hok _].
  destruct (Hok eq_refl) as (d' & H0 & H1 & _ & _ & Hby & _).
  exists d'. split; [exact H0|]. split; [exact H1 | exact Hby].
Defined.

(** C9 fails on an id that is not an INTEGER: no community has the id
    99999999999, and the DELETE of it answers nothing in either version. *)
Lemma delete_comunidade_counterexample :
  comunidades_by_id 99999999999 two_x = []
  /\ Part000.delete_comunidade 99999999999 two_x = (two_x, Threw)
  /\ Part001.delete_comunidade 99999999999 two_x = (two_x, Threw)
  /\ snd (Part000.delete_comunidade 99999999999 two_x) <> Responded 200 ok_true.
Proof. repeat split. discriminate. Qed.

Lemma put_comunidade_unknown_id_witness :
  comunidades_by_id 7 seeded = []
  /\ Part000.put_comunidade 7 dated_body seeded = (seeded, Responded 200 ok_true)
  /\ Part001.put_comunidade 7 dated_body seeded = (seeded, Responded 200 None)
  /\ Part001.get_comunidade 7 seeded
     = (seeded, Responded 404 (error "Comunidade não encontrada")).
Proof.
  split; [reflexivity|].
  destruct (put_comunidade_unknown_id 7 dated_body seeded eq_refl) as [Hok _].
  destruct (Hok eq_refl) as (_ & Hget & H0 & H1).
  split; [exact (H0 eq_refl)|]. split; [exact (H1 eq_refl) | exact Hget].
Defined.

(** C10 fails when PostgreSQL rejects the id or the body: no community has
    the id 99999999999, and PUT on it throws in the first version and
    answers 400 in the second; so does PUT on the unknown id 7 with a
    [qtd_total] of 2^31 or with a date that is none. *)
Lemma put_comunidade_counterexample :
  comunidades_by_id 99999999999 seeded = []
  /\ Part000.put_comunidade 99999999999 body_x seeded = (seeded, Threw)
  /\ Part001.put_comunidade 99999999999 body_x seeded
     = (seeded, Responded 400 (error "Erro ao atualizar comunidade"))
  /\ comunidades_by_id 7 seeded = []
  /\ Part000.put_comunidade 7 big_body seeded = (seeded, Threw)
  /\ Part001.put_comunidade 7 big_body seeded
     = (seeded, Responded 400 (error "Erro ao atualizar comunidade"))
  /\ Part000.put_comunidade 7 undated_body seeded = (seeded, Threw)
  /\ Part001.put_comunidade 7 undated_body seeded
     = (seeded, Responded 400 (error "Erro ao atualizar comunidade")).
Proof. repeat split. Qed.

Lemma create_defaults_witness :
  exists row,
    comunidades_by_id 1 (fst (Part000.post_comunidades no_body seeded)) = [row]
    /\ qtd_total (com_vals row) = Some 0
    /\ levantados_json (com_vals row) = Some "[]".
Proof.
  destruct (create_defaults no_body seeded) as [H0 _].
  destruct (H0 (fst (Part000.post_comunidades no_body seeded)) 1 eq_refl)
    as (row & Hrow & Ht & _ & Hl & _).
  exists row. repeat split; [exact Hrow | exact (Ht eq_refl) | exact (Hl eq_refl)].
Defined.

(** C5 fails on the second version: a create request without [qtd_total]
    stores NULL, not 0. *)
Lemma create_defaults_counterexample :
  Body.qtd_total no_body = None
  /\ exists row,
       comunidades (fst (Part001.post_comunidades no_body seeded)) = [row]
       /\ snd (Part001.post_comunidades no_body seeded)
          = Responded 200 (Some (JObj (row_members row)))
       /\ qtd_total (com_vals row) = None
       /\ qtd_total (com_vals row) <> Some 0.
Proof.
  split; [reflexivity|]. eexists. repeat split. discriminate.
Qed.



Lemma login_failures_differ_witness :
  @post_login toy_libs (Some "eva@example.org") (Some "errada") with_ana
  <> @post_login toy_libs (Some "ana@example.org") (Some "errada") with_ana.
Proof.
  pose proof (@login_failures_differ toy_libs with_ana (Some "eva@example.org")
                (Some "ana@example.org") (Some "errada") "errada"
                {| user_id := 1; user_name := "Ana"; user_email := "ana@example.org";
                   user_password := "$2b$10$salt1.segredo"; user_is_admin := true |}
                [] eq_refl eq_refl eq_refl) as (_ & _ & Hne).
  exact Hne.
Defined.

(** C3 fails: on a database where Ana is registered, a login with an
    unknown e-mail and a login with Ana's e-mail and a wrong password are
    two failed logins of the two kinds, and they are answered differently. *)
Lemma login_failures_counterexample :
  users_by_email (Some "eva@example.org") with_ana = []
  /\ (exists user rest,
        users_by_email (Some "ana@example.org") with_ana = user :: rest
        /\ @bcrypt_compare toy_libs "errada" (user_password user) = false)
  /\ snd (@post_login toy_libs (Some "eva@example.org") (Some "errada") with_ana)
     = Responded 400 (error "Usuário não encontrado")
  /\ snd (@post_login toy_libs (Some "ana@example.org") (Some "errada") with_ana)
     = Responded 400 (error "Senha incorreta")
  /\ snd (@post_login toy_libs (Some "eva@example.org") (Some "errada") with_ana)
     <> snd (@post_login toy_libs (Some "ana@example.org") (Some "errada") with_ana).
Proof.
  split; [reflexivity|]. split; [eexists _, _; split; reflexivity|].
  split; [reflexivity|]. split; [reflexivity|]. discriminate.
Qed.


Lemma put_user_keeps_omitted_witness :
  exists row' rest',
    users_by_id 1
      (fst (@put_user toy_libs "Erro ao atualizar (email já usado)" ana_claims
              {| Profile.name := None; Profile.email := None;
                 Profile.password := Some "novo" |} "salt2" with_ana))
    = row' :: rest'
    /\ user_name row' = "Ana"
    /\ user_email row' = "ana@example.org"
    /\ user_password row' = "$2b$10$salt2.novo".
Proof.
  set (body := {| Profile.name := None; Profile.email := None;
                  Profile.password := Some "novo" |}).
  destruct (@put_user_keeps_omitted toy_libs "Erro ao atualizar (email já usado)"
              ana_claims body "salt2" with_ana
              (fst (@put_user toy_libs "Erro ao atualizar (email já usado)" ana_claims
                      body "salt2" with_ana))
              (Responded 200 ok_true)
              {| user_id := 1; user_name := "Ana"; user_email := "ana@example.org";
                 user_password := "$2b$10$salt1.segredo"; user_is_admin := true |}
              [] eq_refl eq_refl)
    as (row' & rest' & Hby & _ & Hn & He & _ & Hp).
  exists row', rest'. split; [exact Hby|].
  split; [exact (Hn eq_refl)|]. split; [exact (He eq_refl)|].
  destruct (Hp "novo" eq_refl) as [Hh _]; [discriminate | reflexivity | exact Hh].
Defined.

(** C4 fails: the header "Basic jwt-1" is not of the form "Bearer <token>",
    and the guard of each file lets it through with the claims of the
    token. *)
Lemma guard_counterexample :
  ~ bearer_form "Basic jwt-1"
  /\ @jwt_verify toy_libs "jwt-1" = Some ana_claims
  /\ @part000_delete toy_libs (Some "Basic jwt-1") 7 seeded
     = (seeded, Responded 200 ok_true)
  /\ @part001_delete toy_libs (Some "Basic jwt-1") 7 seeded
     = (seeded, Responded 200 ok_true)
  /\ @Server.verificarToken toy_libs (Some "Basic jwt-1")
       (fun user _ => (seeded, Responded 200 (Some (JNum (claim_id user))))) seeded
     = (seeded, Responded 200 (Some (JNum 1))).
Proof.
  split; [intros [token E]; discriminate E|]. repeat split.
Qed.



Lemma charism_report_counts_witness :
  Part000.get_relatorios ana_claims "carismas" two_x
  = (two_x,
     Responded 200
       (Some (JArr [JObj [("nome", JStr "Encontro"); ("total", JNum 0)];
                    JObj [("nome", JStr "Animação"); ("total", JNum 2)];
                    JObj [("nome", JStr "Acolhida"); ("total", JNum 0)];
                    JObj [("nome", JStr "Evangelização"); ("total", JNum 0)];
                    JObj [("nome", JStr "Liturgia"); ("total", JNum 0)]]))).
Proof.
  rewrite (charism_report_counts ana_claims two_x); reflexivity.
Defined.

(** C6 fails on a database the service builds: the create request whose
    charism list is [[null]] is answered 200, and the report then throws at
    [item.carisma_id] and answers nothing. *)
Lemma charism_report_counterexample :
  exists d',
    Part000.post_comunidades null_item_body seeded
    = (d', Responded 200 (Some (JObj [("id", JNum 1)])))
    /\ claim_is_admin ana_claims = true
    /\ Part000.get_relatorios ana_claims "carismas" d' = (d', Threw).
Proof. eexists. repeat split. Qed.

End claims_on_examples.

(** * Further properties of the routes *)

Section route_facts.
Context `{libs : Libs}.

Lemma existsb_email_filter e (l : list user) :
  existsb (fun u => String.eqb (user_email u) e) l = false ->
  filter (fun u => String.eqb (user_email u) e = true) l = [].
Proof.
  induction l as [|u l IH]; [reflexivity|].
  simpl. intros Hex. apply orb_false_iff in Hex as [Hu Hl].
  rewrite filter_cons. destruct (decide (String.eqb (user_email u) e = true)); auto.
  congruence.
Qed.

Lemma absent_false_some s :
  absent s = false -> exists x, s = Some x /\ x <> EmptyString /\ str_or s EmptyString = x.
Proof.
  destruct s as [x|]; simpl; [|discriminate]. intros Hx. exists x. rewrite Hx.
  split; [reflexivity|]. split; [|reflexivity]. intros ->. discriminate.
Qed.

(** What a successful registration stores. *)
Lemma post_register_ok (b : Register.body) (salt : string) (d d1 : db)
    (body : jsval) :
  post_register b salt d = (d1, Responded 200 body) ->
  exists e pw u,
    Register.email b = Some e /\ e <> EmptyString
    /\ Register.password b = Some (JStr pw) /\ pw <> EmptyString
    /\ u = {| user_id := users_seq d + 1;
              user_name := str_or (Register.name b) EmptyString;
              user_email := e;
              user_password := bcrypt_hash salt pw;
              user_is_admin := default false (Register.is_admin b) |}
    /\ d1 = set_users (users d ++ [u]) (users_seq d + 1) d
    /\ existsb (fun x => user_id x =? users_seq d + 1) (users d) = false
    /\ existsb (fun x => String.eqb (user_email x) e) (users d) = false
    /\ body = Some (JObj [("token", JStr (gerarToken u));
                          ("user", JObj [("id", JNum (user_id u));
                                         ("email", JStr e);
                                         ("is_admin", JBool (user_is_admin u))])]).
Proof.
  unfold post_register.
  destruct (absent (Register.email b)) eqn:He; [discriminate|].
  destruct (truthy (Register.password b)) eqn:Ht; [|discriminate].
  destruct (Register.password b) as [[| | | |pw| |]|] eqn:Hp; simpl;
    try discriminate.
  simpl in Ht. destruct (String.eqb pw EmptyString) eqn:Hnp; [discriminate|].
  apply absent_false_some in He as (e & He & Hne & Hse).
  apply String.eqb_neq in Hnp.
  rewrite Hse. unfold insert_user.
  destruct (existsb (fun u => user_id u =? _) (users d)) eqn:Hid; [discriminate|].
  destruct (existsb (fun u => String.eqb _ _) (users d)) eqn:Hem; [discriminate|].
  simpl. intros E. injection E as <- <-.
  eexists e, pw, _. repeat (split; [eassumption || reflexivity|]). reflexivity.
Qed.

Lemma existsb_false_not_in {A B : Type} (f : A -> B) (same : B -> B -> bool) (x : B)
    (l : list A) :
  (forall a b, same a b = true <-> a = b) ->
  existsb (fun a => same (f a) x) l = false -> x ∉ map f l.
Proof.
  intros Hsame Hex Hin. apply list_elem_of_fmap in Hin as (a & -> & Hin).
  apply list_elem_of_In in Hin.
  assert (Ht : existsb (fun a0 => same (f a0) (f a)) l = true).
  { apply existsb_exists. exists a. split; [exact Hin|]. apply Hsame. reflexivity. }
  congruence.
Qed.

Lemma update_user_some name email password id d d' :
  update_user name email password id d = Some d' ->
  d' = set_users (map (rewritten name email password id) (users d)) (users_seq d) d
  /\ (existsb (fun u => user_id u =? id) (users d) = true ->
      forall u, u ∈ users d -> user_id u <> id -> user_email u <> email).
Proof.
  unfold update_user.
  destruct (existsb (fun u => user_id u =? id) (users d)) eqn:Hid; simpl.
  - destruct (existsb (fun u => negb _ && _) (users d)) eqn:Hother; simpl;
      [intros E; discriminate E|].
    intros E. injection E as <-. split; [reflexivity|].
    intros _ u Hin Hne He.
    assert (Ht : existsb (fun u0 => negb (user_id u0 =? id)
                                    && String.eqb (user_email u0) email) (users d) = true).
    { apply existsb_exists. exists u. split; [apply list_elem_of_In, Hin|].
      apply Z.eqb_neq in Hne. rewrite Hne, He, String.eqb_refl. reflexivity. }
    congruence.
  - intros E. injection E as <-. split; [reflexivity|]. discriminate.
Qed.

Lemma rewritten_id name email password id u :
  user_id (rewritten name email password id u) = user_id u.
Proof. unfold rewritten. destruct (user_id u =? id); reflexivity. Qed.

Lemma map_rewritten_none name email password id (l : list user) :
  id ∉ map user_id l -> map (rewritten name email password id) l = l.
Proof.
  induction l as [|u l IH]; [reflexivity|].
  simpl. intros Hn. apply not_elem_of_cons in Hn as [Hne Hn].
  unfold rewritten at 1. apply not_eq_sym, Z.eqb_neq in Hne. rewrite Hne.
  f_equal. auto.
Qed.

Lemma rewritten_emails_nodup name email password id (l : list user) :
  NoDup (map user_id l) -> NoDup (map user_email l) ->
  (forall u, u ∈ l -> user_id u <> id -> user_email u <> email) ->
  NoDup (map user_email (map (rewritten name email password id) l)).
Proof.
  induction l as [|u l IH]; [intros; constructor|].
  simpl. intros Hids Hemails Hother.
  apply NoDup_cons in Hids as [Hid Hids]. apply NoDup_cons in Hemails as [Hem Hemails].
  assert (Htail : forall x, x ∈ l -> user_id x <> id -> user_email x <> email)
    by (intros x Hx; apply Hother; right; exact Hx).
  destruct (Z.eq_dec (user_id u) id) as [E|E].
  - rewrite map_rewritten_none by congruence.
    unfold rewritten. apply Z.eqb_eq in E as E'. rewrite E'. simpl.
    apply NoDup_cons. split; [|exact Hemails].
    intros Hin. apply list_elem_of_fmap in Hin as (x & Hx & Hin).
    apply (Htail x Hin); [|congruence].
    intros Ex. apply Hid. apply list_elem_of_fmap. exists x. split; [congruence|exact Hin].
  - apply NoDup_cons. split; [|apply IH; assumption].
    unfold rewritten at 1. apply Z.eqb_neq in E as E'. rewrite E'.
    intros Hin. apply list_elem_of_fmap in Hin as (y & Hy & Hin).
    apply list_elem_of_fmap in Hin as (x & -> & Hin).
    unfold rewritten in Hy. destruct (user_id x =? id); simpl in Hy.
    + apply (Hother u); [left | exact E | exact Hy].
    + apply Hem. apply list_elem_of_fmap. exists x. auto.
Qed.

Lemma filter_none {A : Type} (P : A -> Prop) `{forall x, Decision (P x)} (l : list A) :
  (forall y, y ∈ l -> ~ P y) -> filter P l = [].
Proof.
  induction l as [|a l IH]; [reflexivity|].
  intros Hn. rewrite filter_cons_False by (apply Hn; left).
  apply IH. intros y Hy. apply Hn. right. exact Hy.
Qed.

Lemma nodup_filter_le_1 {A B : Type} `{EqDecision B} (f : A -> B) (x : B) (l : list A) :
  NoDup (map f l) -> (length (filter (fun a => f a = x) l) <= 1)%nat.
Proof.
  induction l as [|a l IH]; simpl; [lia|].
  intros Hnd. apply NoDup_cons in Hnd as [Ha Hnd]. rewrite filter_cons.
  destruct (decide (f a = x)) as [E|E]; [|auto].
  assert (Hnone : filter (fun a0 => f a0 = x) l = []).
  { apply filter_none. intros y Hy Ey. apply Ha.
    apply list_elem_of_fmap. exists y. split; [congruence|exact Hy]. }
  rewrite Hnone. simpl. lia.
Qed.

(** ** Facts about the comunidades table *)

Lemma stringify_parse_or_empty v :
  integral v = true -> Part000.parse_or_empty (Some (JSON_stringify v)) = Some v.
Proof.
  intros Hv. unfold Part000.parse_or_empty.
  destruct (print_head v Hv) as (c & r & E & _).
  assert (Hs : str_or (Some (JSON_stringify v)) "[]" = JSON_stringify v)
    by (unfold JSON_stringify; rewrite E; reflexivity).
  rewrite Hs. apply JSON_parse_stringify, Hv.
Qed.

Lemma update_comunidade_some v id d d' rows :
  update_comunidade v id d = Some (d', rows) ->
  accepted v = true /\ int4 id = true
  /\ rows = map (fun c => {| com_id := com_id c; com_vals := stored v |})
             (comunidades_by_id id d)
  /\ d' = set_comunidades (filter (fun c => com_id c <> id) (comunidades d) ++ rows)
            (comunidades_seq d) d
  /\ (comunidades_by_id id d <> [] -> references_etapa v d = true).
Proof.
  unfold update_comunidade.
  destruct (accepted v); [|discriminate]. destruct (int4 id); [|discriminate]. simpl.
  destruct (existsb (fun c => com_id c =? id) (comunidades d)) eqn:Hex; simpl.
  - destruct (references_etapa v d); simpl; [|intros E; discriminate E].
    intros E. injection E as <- <-. auto.
  - intros E. injection E as <- <-. repeat (split; [reflexivity|]).
    intros Hne. exfalso. apply Hne. apply existsb_false_filter, Hex.
Qed.

Lemma filter_all {A : Type} (P : A -> Prop) `{forall x, Decision (P x)} (l : list A) :
  (forall y, y ∈ l -> P y) -> filter P l = l.
Proof.
  induction l as [|a l IH]; [reflexivity|].
  intros Hall. rewrite filter_cons_True by (apply Hall; left).
  f_equal. apply IH. intros y Hy. apply Hall. right. exact Hy.
Qed.

(** The rows of an id after an UPDATE of this id. *)
Lemma by_id_updated v id (l : list comunidade) :
  filter (fun c => com_id c = id)
    (filter (fun c => com_id c <> id) l
     ++ map (fun c => {| com_id := com_id c; com_vals := stored v |})
          (filter (fun c => com_id c = id) l))
  = map (fun c => {| com_id := com_id c; com_vals := stored v |})
      (filter (fun c => com_id c = id) l).
Proof.
  rewrite filter_app, filter_none, filter_all; [reflexivity | |].
  - intros y Hy. apply list_elem_of_fmap in Hy as (c & -> & Hc).
    apply list_elem_of_filter in Hc. simpl. tauto.
  - intros y Hy. apply list_elem_of_filter in Hy. tauto.
Qed.

Lemma by_id_after_update v id d d' rows :
  update_comunidade v id d = Some (d', rows) -> comunidades_by_id id d' = rows.
Proof.
  intros Hup. apply update_comunidade_some in Hup as (_ & _ & -> & -> & _).
  unfold comunidades_by_id. simpl. apply by_id_updated.
Qed.

(** An UPDATE keeps the rows, up to their order and the values of the
    updated ones. *)
Lemma updated_ids v id (l : list comunidade) :
  map com_id
    (filter (fun c => com_id c <> id) l
     ++ map (fun c => {| com_id := com_id c; com_vals := stored v |})
          (filter (fun c => com_id c = id) l))
  ≡ₚ map com_id l.
Proof.
  rewrite map_app, <- list_fmap_compose.
  induction l as [|c l IH]; [reflexivity|].
  rewrite !filter_cons.
  destruct (decide (com_id c <> id)) as [E|E];
    destruct (decide (com_id c = id)) as [E'|E']; try contradiction.
  - simpl. rewrite IH. reflexivity.
  - simpl. rewrite <- IH. symmetry. apply Permutation_middle.
Qed.

Lemma by_id_after_delete id d :
  comunidades_by_id id (delete_comunidade_row id d) = [].
Proof.
  unfold comunidades_by_id. simpl. apply filter_none.
  intros y Hy. apply list_elem_of_filter in Hy. tauto.
Qed.

Lemma decoded_vals id v l c :
  levantados_json v = Some (JSON_stringify l) ->
  carismas_json v = Some (JSON_stringify c) ->
  integral l = true -> integral c = true ->
  Part000.decoded {| com_id := id; com_vals := v |}
  = Some (JObj (row_members {| com_id := id; com_vals := v |}
                  ++ [("levantados", l); ("carismas", c)])).
Proof.
  intros Hl Hc Hil Hic. unfold Part000.decoded. cbn [com_vals].
  rewrite Hl, Hc, !stringify_parse_or_empty by assumption. reflexivity.
Qed.

Lemma existsb_id_coms_false id (l : list comunidade) :
  Forall (fun c => com_id c <= id - 1) l ->
  existsb (fun c => com_id c =? id) l = false.
Proof.
  induction 1 as [|c l Hc _ IH]; [reflexivity|].
  simpl. rewrite IH, orb_false_r. apply Z.eqb_neq. lia.
Qed.

Lemma insert_comunidade_fresh v d :
  comunidades_ok d ->
  insert_comunidade v d
  = if negb (accepted v && int4 (comunidades_seq d + 1)) then (d, None)
    else if references_etapa v d
    then (set_comunidades
            (comunidades d
             ++ [{| com_id := comunidades_seq d + 1; com_vals := stored v |}])
            (comunidades_seq d + 1) d,
          Some {| com_id := comunidades_seq d + 1; com_vals := stored v |})
    else (set_comunidades (comunidades d) (comunidades_seq d + 1) d, None).
Proof.
  intros (_ & Hseq & _). unfold insert_comunidade.
  rewrite existsb_id_coms_false
    by (eapply Forall_impl; [exact Hseq | simpl; intros; lia]).
  destruct (negb _); [reflexivity|].
  destruct (references_etapa v d); reflexivity.
Qed.

Lemma insert_comunidade_ok v d :
  comunidades_ok d -> comunidades_ok (fst (insert_comunidade v d)).
Proof.
  intros Hok. rewrite insert_comunidade_fresh by assumption.
  destruct (negb _); [exact Hok|].
  destruct Hok as (Hids & Hseq & Hfk).
  assert (Hle : Forall (fun c => com_id c <= comunidades_seq d + 1) (comunidades d))
    by (eapply Forall_impl; [exact Hseq | simpl; intros; lia]).
  destruct (references_etapa v d) eqn:Href; unfold comunidades_ok; simpl.
  - rewrite map_app. simpl. repeat split.
    + apply NoDup_app. split; [exact Hids|]. split; [|apply NoDup_singleton].
      intros x Hx Hx'. apply list_elem_of_singleton in Hx' as ->.
      apply list_elem_of_fmap in Hx as (c & Hc & Hin).
      rewrite Forall_forall in Hseq. specialize (Hseq c Hin). lia.
    + apply Forall_app. split; [exact Hle|]. apply Forall_singleton. simpl. lia.
    + apply Forall_app. split; [exact Hfk|]. apply Forall_singleton. exact Href.
  - repeat split; assumption.
Qed.

Lemma update_comunidade_ok v id d d' rows :
  comunidades_ok d -> update_comunidade v id d = Some (d', rows) -> comunidades_ok d'.
Proof.
  intros (Hids & Hseq & Hfk) Hup.
  apply update_comunidade_some in Hup as (_ & _ & -> & -> & Href).
  unfold comunidades_ok. simpl. repeat split.
  - unfold comunidades_by_id. rewrite updated_ids. exact Hids.
  - apply Forall_app. split.
    + apply Forall_forall. intros c Hc. apply list_elem_of_filter in Hc as [_ Hc].
      rewrite Forall_forall in Hseq. auto.
    + apply Forall_fmap, Forall_forall. intros c Hc.
      apply list_elem_of_filter in Hc as [_ Hc]. simpl.
      rewrite Forall_forall in Hseq. auto.
  - apply Forall_app. split.
    + apply Forall_forall. intros c Hc. apply list_elem_of_filter in Hc as [_ Hc].
      rewrite Forall_forall in Hfk. apply Hfk, Hc.
    + apply Forall_fmap, Forall_forall. intros c Hc. simpl.
      apply Href. intros Hnone. rewrite Hnone in Hc. inversion Hc.
Qed.

Lemma nodup_map_filter {A B : Type} (f : A -> B) (P : A -> Prop)
    `{forall x, Decision (P x)} (l : list A) :
  NoDup (map f l) -> NoDup (map f (filter P l)).
Proof.
  induction l as [|a l IH]; [intros; constructor|].
  simpl. intros Hnd. apply NoDup_cons in Hnd as [Ha Hl]. rewrite filter_cons.
  destruct (decide (P a)); [|auto]. simpl. apply NoDup_cons.
  split; [|auto]. intros Hin. apply Ha.
  apply list_elem_of_fmap in Hin as (x & Hx & Hin).
  apply list_elem_of_filter in Hin as [_ Hin].
  apply list_elem_of_fmap. eauto.
Qed.

Lemma delete_comunidade_ok id d :
  comunidades_ok d -> comunidades_ok (delete_comunidade_row id d).
Proof.
  intros (Hids & Hseq & Hfk). unfold comunidades_ok. simpl. repeat split.
  - apply nodup_map_filter, Hids.
  - apply Forall_forall. intros c Hc. apply list_elem_of_filter in Hc as [_ Hc].
    rewrite Forall_forall in Hseq. auto.
  - apply Forall_forall. intros c Hc. apply list_elem_of_filter in Hc as [_ Hc].
    rewrite Forall_forall in Hfk. apply Hfk, Hc.
Qed.

(** ** Facts about ORDER BY *)

Lemma insert_sorted_sorted {A : Type} (before : A -> A -> bool) (x : A) (l : list A) :
  (forall a b, before a b = false -> before b a = true) ->
  (forall a b c, before a b = true -> before b c = true -> before a c = true) ->
  StronglySorted (fun a b => before a b = true) l ->
  StronglySorted (fun a b => before a b = true) (insert_sorted before x l).
Proof.
  intros Htotal Htrans Hl. induction Hl as [|y l Hl IH Hy]; simpl.
  - repeat constructor.
  - destruct (before x y) eqn:Hxy.
    + constructor; [constructor; assumption|].
      constructor; [exact Hxy|].
      eapply Forall_impl; [exact Hy|]. intros z Hz. simpl in *. eauto.
    + constructor; [exact IH|].
      rewrite insert_sorted_perm. constructor; [auto | exact Hy].
Qed.

Lemma order_by_sorted {A : Type} (before : A -> A -> bool) (l : list A) :
  (forall a b, before a b = false -> before b a = true) ->
  (forall a b c, before a b = true -> before b c = true -> before a c = true) ->
  StronglySorted (fun a b => before a b = true) (order_by before l).
Proof.
  intros Htotal Htrans. unfold order_by.
  induction l as [|x l IH]; simpl; [constructor|].
  apply insert_sorted_sorted; assumption.
Qed.

Lemma strongly_sorted_impl {A : Type} (R1 R2 : A -> A -> Prop) (l : list A) :
  (forall a b, R1 a b -> R2 a b) -> StronglySorted R1 l -> StronglySorted R2 l.
Proof.
  intros Himpl. induction 1 as [|x l _ IH Hx]; constructor; [exact IH|].
  eapply Forall_impl; [exact Hx|]. intros y. apply Himpl.
Qed.

Lemma order_by_id_desc_sorted (l : list comunidade) :
  StronglySorted id_desc (order_by_id_desc l).
Proof.
  unfold order_by_id_desc.
  apply strongly_sorted_impl with (R1 := fun a b => (com_id b <=? com_id a) = true).
  - intros a b Hab. apply Z.leb_le, Hab.
  - apply order_by_sorted.
    + intros a b Hab. apply Z.leb_gt in Hab. apply Z.leb_le. lia.
    + intros a b c Hab Hbc. apply Z.leb_le in Hab, Hbc. apply Z.leb_le. lia.
Qed.

(** The newest row heads a listing by descending id. *)
Lemma newest_first (l rows : list comunidade) (new : comunidade) :
  rows ≡ₚ l ++ [new] -> StronglySorted id_desc rows ->
  Forall (fun c => com_id c < com_id new) l ->
  exists more, rows = new :: more.
Proof.
  intros Hperm Hsorted Hless.
  destruct rows as [|h t].
  { apply Permutation_length in Hperm. rewrite length_app in Hperm.
    simpl in Hperm. lia. }
  assert (Hh : h ∈ l ++ [new]) by (rewrite <- Hperm; left).
  assert (Hn : new ∈ h :: t) by (rewrite Hperm; apply elem_of_app; right; left).
  apply elem_of_app in Hh as [Hh | Hh].
  - exfalso. rewrite Forall_forall in Hless. specialize (Hless h Hh).
    apply elem_of_cons in Hn as [-> | Hn]; [lia|].
    apply StronglySorted_inv in Hsorted as [_ Hall].
    rewrite Forall_forall in Hall. specialize (Hall new Hn).
    unfold id_desc in Hall. lia.
  - apply list_elem_of_singleton in Hh as ->. eauto.
Qed.

Lemma map_throwing_all {A B : Type} (f : A -> option B) (l : list A) :
  Forall (fun x => is_Some (f x)) l ->
  exists ys, Part000.map_throwing f l = Some ys /\ Forall2 (fun x y => f x = Some y) l ys.
Proof.
  induction 1 as [|x l [y Hy] _ (ys & Hys & HF)]; simpl.
  - exists []. split; [reflexivity|constructor].
  - rewrite Hy, Hys. exists (y :: ys). split; [reflexivity|]. constructor; assumption.
Qed.

Lemma texts_ok_forall d :
  texts_ok d = true <-> Forall (fun c => is_Some (Part000.decoded c)) (comunidades d).
Proof.
  unfold texts_ok. rewrite forallb_forall, Forall_forall. split.
  - intros Hall c Hc. apply list_elem_of_In in Hc. specialize (Hall c Hc).
    destruct (Part000.decoded c); [eauto|discriminate].
  - intros Hall c Hc. apply list_elem_of_In in Hc. destruct (Hall c Hc) as [b ->].
    reflexivity.
Qed.


Lemma decoded_written id (data : Body.data) :
  body_integral data = true ->
  is_Some (Part000.decoded {| com_id := id; com_vals := stored (Part000.vals_of data) |})
  /\ is_Some (Part000.decoded
                {| com_id := id; com_vals := stored (Part001.vals_of data) |}).
Proof.
  unfold body_integral. intros Hint. apply andb_true_iff in Hint as [Hl Hc].
  split.
  - rewrite (decoded_vals id (stored (Part000.vals_of data))
               (or_else (Body.levantados data) (JArr []))
               (or_else (Body.carismas data) (JArr [])) eq_refl eq_refl Hl Hc).
    eauto.
  - rewrite (decoded_vals id (stored (Part001.vals_of data))
               (or_else (Body.levantados data) (JArr []))
               (or_else (Body.carismas data) (JArr [])) eq_refl eq_refl Hl Hc).
    eauto.
Qed.

Lemma insert_comunidade_texts v d :
  texts_ok d = true ->
  is_Some (Part000.decoded
             {| com_id := comunidades_seq d + 1; com_vals := stored v |}) ->
  texts_ok (fst (insert_comunidade v d)) = true.
Proof.
  intros Hok Hnew. unfold insert_comunidade.
  destruct (negb _); [exact Hok|].
  destruct (existsb _ (comunidades d) || negb (references_etapa v d)); [exact Hok|].
  apply texts_ok_forall. simpl. apply Forall_app. split.
  - apply texts_ok_forall, Hok.
  - apply Forall_singleton, Hnew.
Qed.

Lemma decoded_same_vals (c c' : comunidade) :
  com_vals c = com_vals c' -> is_Some (Part000.decoded c) -> is_Some (Part000.decoded c').
Proof.
  unfold Part000.decoded. intros <-.
  destruct (Part000.parse_or_empty (levantados_json (com_vals c)));
    [|intros [x Hx]; discriminate Hx].
  destruct (Part000.parse_or_empty (carismas_json (com_vals c)));
    [eauto | intros [x Hx]; discriminate Hx].
Qed.

Lemma update_comunidade_texts v id d d' rows :
  texts_ok d = true ->
  is_Some (Part000.decoded {| com_id := id; com_vals := stored v |}) ->
  update_comunidade v id d = Some (d', rows) -> texts_ok d' = true.
Proof.
  intros Hok Hnew Hup. apply update_comunidade_some in Hup as (_ & _ & -> & -> & _).
  apply texts_ok_forall. simpl. apply Forall_app. split.
  - apply Forall_forall. intros c Hc. apply list_elem_of_filter in Hc as [_ Hc].
    apply texts_ok_forall in Hok. rewrite Forall_forall in Hok. auto.
  - apply Forall_fmap, Forall_forall. intros c Hc. simpl.
    exact (decoded_same_vals {| com_id := id; com_vals := stored v |}
             {| com_id := com_id c; com_vals := stored v |} eq_refl Hnew).
Qed.

(** ** Facts about the seeds of [initDb] *)

Lemma seed_etapa_cases d n :
  Forall (fun e => et_id e <= etapas_seq d) (etapas d) ->
  (n ∈ map et_nome (etapas d)
   /\ seed_etapa d n = set_etapas (etapas d) (etapas_seq d + 1) d)
  \/ ((n ∉ map et_nome (etapas d))
      /\ seed_etapa d n
         = set_etapas (etapas d ++ [{| et_id := etapas_seq d + 1; et_nome := n |}])
             (etapas_seq d + 1) d).
Proof.
  intros Hseq. unfold seed_etapa.
  destruct (existsb _ (etapas d)) eqn:Hex.
  - left. split; [|reflexivity].
    apply existsb_exists in Hex as (e & Hin & He).
    apply list_elem_of_In in Hin. rewrite Forall_forall in Hseq.
    specialize (Hseq e Hin). apply orb_true_iff in He as [He | He].
    + apply Z.eqb_eq in He. lia.
    + apply String.eqb_eq in He. apply list_elem_of_fmap. eauto.
  - right. split; [|reflexivity].
    intros Hin. apply list_elem_of_fmap in Hin as (e & -> & Hin).
    assert (Ht : existsb (fun e0 => (et_id e0 =? etapas_seq d + 1)
                                    || String.eqb (et_nome e0) (et_nome e)) (etapas d)
                 = true).
    { apply existsb_exists. exists e. split; [apply list_elem_of_In, Hin|].
      rewrite String.eqb_refl. apply orb_true_r. }
    congruence.
Qed.

Lemma seed_carisma_cases d n :
  Forall (fun c => car_id c <= carismas_seq d) (carismas d) ->
  (n ∈ map car_nome (carismas d)
   /\ seed_carisma d n = set_carismas (carismas d) (carismas_seq d + 1) d)
  \/ ((n ∉ map car_nome (carismas d))
      /\ seed_carisma d n
         = set_carismas
             (carismas d ++ [{| car_id := carismas_seq d + 1; car_nome := n |}])
             (carismas_seq d + 1) d).
Proof.
  intros Hseq. unfold seed_carisma.
  destruct (existsb _ (carismas d)) eqn:Hex.
  - left. split; [|reflexivity].
    apply existsb_exists in Hex as (e & Hin & He).
    apply list_elem_of_In in Hin. rewrite Forall_forall in Hseq.
    specialize (Hseq e Hin). apply orb_true_iff in He as [He | He].
    + apply Z.eqb_eq in He. lia.
    + apply String.eqb_eq in He. apply list_elem_of_fmap. eauto.
  - right. split; [|reflexivity].
    intros Hin. apply list_elem_of_fmap in Hin as (e & -> & Hin).
    assert (Ht : existsb (fun e0 => (car_id e0 =? carismas_seq d + 1)
                                    || String.eqb (car_nome e0) (car_nome e))
                   (carismas d) = true).
    { apply existsb_exists. exists e. split; [apply list_elem_of_In, Hin|].
      rewrite String.eqb_refl. apply orb_true_r. }
    congruence.
Qed.

(** What seeding the stages does and leaves alone. *)
Lemma seed_etapas_fold (ns : list string) (d : db) :
  Forall (fun e => et_id e <= etapas_seq d) (etapas d) ->
  let d' := fold_left seed_etapa ns d in
  Forall (fun e => et_id e <= etapas_seq d') (etapas d')
  /\ (exists more, etapas d' = etapas d ++ more)
  /\ (forall n, n ∈ ns -> n ∈ map et_nome (etapas d'))
  /\ ((forall n, n ∈ ns -> n ∈ map et_nome (etapas d)) -> etapas d' = etapas d)
  /\ users d' = users d /\ users_seq d' = users_seq d
  /\ carismas d' = carismas d /\ carismas_seq d' = carismas_seq d
  /\ comunidades d' = comunidades d /\ comunidades_seq d' = comunidades_seq d.
Proof.
  revert d. induction ns as [|n ns IH]; intros d Hseq; simpl.
  - repeat split; auto. { exists []. rewrite app_nil_r. reflexivity. }
    intros n Hn. inversion Hn.
  - assert (Hseq1 : Forall (fun e => et_id e <= etapas_seq (seed_etapa d n))
                      (etapas (seed_etapa d n))).
    { destruct (seed_etapa_cases d n Hseq) as [[_ ->] | [_ ->]]; simpl.
      - eapply Forall_impl; [exact Hseq | simpl; intros; lia].
      - apply Forall_app. split; [|apply Forall_singleton; simpl; lia].
        eapply Forall_impl; [exact Hseq | simpl; intros; lia]. }
    destruct (IH (seed_etapa d n) Hseq1)
      as (H1 & (more & H2) & H3 & H4 & H5 & H6 & H7 & H8 & H9 & H10).
    assert (Hstep : (exists extra, etapas (seed_etapa d n) = etapas d ++ extra)
                    /\ n ∈ map et_nome (etapas (seed_etapa d n))
                    /\ (n ∈ map et_nome (etapas d)
                        -> etapas (seed_etapa d n) = etapas d)
                    /\ users (seed_etapa d n) = users d
                    /\ users_seq (seed_etapa d n) = users_seq d
                    /\ carismas (seed_etapa d n) = carismas d
                    /\ carismas_seq (seed_etapa d n) = carismas_seq d
                    /\ comunidades (seed_etapa d n) = comunidades d
                    /\ comunidades_seq (seed_etapa d n) = comunidades_seq d).
    { destruct (seed_etapa_cases d n Hseq) as [[Hin ->] | [Hnot ->]]; simpl.
      - repeat split; auto. exists []. rewrite app_nil_r. reflexivity.
      - repeat split; eauto.
        + rewrite map_app. apply elem_of_app. right. simpl. left.
        + intros Hin. contradiction. }
    destruct Hstep as ((extra & S1) & S2 & S3 & S4 & S5 & S6 & S7 & S8 & S9).
    split; [exact H1|]. split.
    { exists (extra ++ more). rewrite H2, S1, app_assoc. reflexivity. }
    split.
    { intros m Hm. apply elem_of_cons in Hm as [-> | Hm]; [|auto].
      rewrite H2, map_app. apply elem_of_app. left. exact S2. }
    split.
    { intros Hall. rewrite H4.
      - apply S3, Hall. left.
      - intros m Hm. rewrite S3 by (apply Hall; left). apply Hall. right. exact Hm. }
    repeat split; congruence.
Qed.

(** What seeding the charisms does and leaves alone. *)
Lemma seed_carismas_fold (ns : list string) (d : db) :
  Forall (fun c => car_id c <= carismas_seq d) (carismas d) ->
  let d' := fold_left seed_carisma ns d in
  Forall (fun c => car_id c <= carismas_seq d') (carismas d')
  /\ (exists more, carismas d' = carismas d ++ more)
  /\ (forall n, n ∈ ns -> n ∈ map car_nome (carismas d'))
  /\ ((forall n, n ∈ ns -> n ∈ map car_nome (carismas d)) -> carismas d' = carismas d)
  /\ users d' = users d /\ users_seq d' = users_seq d
  /\ etapas d' = etapas d /\ etapas_seq d' = etapas_seq d
  /\ comunidades d' = comunidades d /\ comunidades_seq d' = comunidades_seq d.
Proof.
  revert d. induction ns as [|n ns IH]; intros d Hseq; simpl.
  - repeat split; auto. { exists []. rewrite app_nil_r. reflexivity. }
    intros n Hn. inversion Hn.
  - assert (Hseq1 : Forall (fun c => car_id c <= carismas_seq (seed_carisma d n))
                      (carismas (seed_carisma d n))).
    { destruct (seed_carisma_cases d n Hseq) as [[_ ->] | [_ ->]]; simpl.
      - eapply Forall_impl; [exact Hseq | simpl; intros; lia].
      - apply Forall_app. split; [|apply Forall_singleton; simpl; lia].
        eapply Forall_impl; [exact Hseq | simpl; intros; lia]. }
    destruct (IH (seed_carisma d n) Hseq1)
      as (H1 & (more & H2) & H3 & H4 & H5 & H6 & H7 & H8 & H9 & H10).
    assert (Hstep : (exists extra, carismas (seed_carisma d n) = carismas d ++ extra)
                    /\ n ∈ map car_nome (carismas (seed_carisma d n))
                    /\ (n ∈ map car_nome (carismas d)
                        -> carismas (seed_carisma d n) = carismas d)
                    /\ users (seed_carisma d n) = users d
                    /\ users_seq (seed_carisma d n) = users_seq d
                    /\ etapas (seed_carisma d n) = etapas d
                    /\ etapas_seq (seed_carisma d n) = etapas_seq d
                    /\ comunidades (seed_carisma d n) = comunidades d
                    /\ comunidades_seq (seed_carisma d n) = comunidades_seq d).
    { destruct (seed_carisma_cases d n Hseq) as [[Hin ->] | [Hnot ->]]; simpl.
      - repeat split; auto. exists []. rewrite app_nil_r. reflexivity.
      - repeat split; eauto.
        + rewrite map_app. apply elem_of_app. right. simpl. left.
        + intros Hin. contradiction. }
    destruct Hstep as ((extra & S1) & S2 & S3 & S4 & S5 & S6 & S7 & S8 & S9).
    split; [exact H1|]. split.
    { exists (extra ++ more). rewrite H2, S1, app_assoc. reflexivity. }
    split.
    { intros m Hm. apply elem_of_cons in Hm as [-> | Hm]; [|auto].
      rewrite H2, map_app. apply elem_of_app. left. exact S2. }
    split.
    { intros Hall. rewrite H4.
      - apply S3, Hall. left.
      - intros m Hm. rewrite S3 by (apply Hall; left). apply Hall. right. exact Hm. }
    repeat split; congruence.
Qed.

(** ** Facts about GROUP BY *)

Section group_facts.
Context {K : Type} (same : K -> K -> bool).
Hypothesis same_eq : forall a b, same a b = true <-> a = b.

Lemma same_refl a : same a a = true.
Proof. apply same_eq. reflexivity. Qed.

Lemma same_false a b : a <> b -> same a b = false.
Proof.
  intros Hne. destruct (same a b) eqn:E; [|reflexivity].
  apply same_eq in E. contradiction.
Qed.

Lemma count_group_keys k (acc : list (K * Z)) :
  (k ∈ map fst acc /\ map fst (count_group same k acc) = map fst acc)
  \/ ((k ∉ map fst acc) /\ map fst (count_group same k acc) = map fst acc ++ [k]).
Proof.
  induction acc as [|[k' n] acc IH]; simpl.
  - right. split; [apply not_elem_of_nil | reflexivity].
  - destruct (same k k') eqn:E; simpl.
    + apply same_eq in E as ->. left. split; [left | reflexivity].
    + assert (Hne : k <> k') by (intros ->; rewrite same_refl in E; discriminate).
      destruct IH as [[Hin ->] | [Hnot ->]].
      * left. split; [right; exact Hin | reflexivity].
      * right. split; [|reflexivity]. apply not_elem_of_cons. auto.
Qed.

Lemma count_group_nodup k (acc : list (K * Z)) :
  NoDup (map fst acc) -> NoDup (map fst (count_group same k acc)).
Proof.
  intros Hnd. destruct (count_group_keys k acc) as [[_ ->] | [Hnot ->]]; [exact Hnd|].
  apply NoDup_app. split; [exact Hnd|]. split; [|apply NoDup_singleton].
  intros x Hx Hx'. apply list_elem_of_singleton in Hx' as ->. contradiction.
Qed.

Lemma count_group_total k k' (acc : list (K * Z)) :
  group_total same k (count_group same k' acc)
  = group_total same k acc + (if same k k' then 1 else 0).
Proof.
  induction acc as [|[k0 n] acc IH]; simpl.
  - destruct (same k k'); lia.
  - destruct (same k' k0) eqn:E0; simpl.
    + apply same_eq in E0 as ->. destruct (same k k0); lia.
    + rewrite IH. destruct (same k k0) eqn:E1; [|lia].
      apply same_eq in E1 as ->.
      rewrite (same_false k0 k') by (intros ->; rewrite same_refl in E0; discriminate).
      lia.
Qed.

Lemma group_count_spec (keys : list K) (acc : list (K * Z)) :
  NoDup (map fst acc) ->
  let groups := fold_left (fun a k => count_group same k a) keys acc in
  NoDup (map fst groups)
  /\ (forall k, k ∈ map fst groups <-> k ∈ map fst acc \/ k ∈ keys)
  /\ (forall k, group_total same k groups
                = group_total same k acc
                  + Z.of_nat (length (List.filter (same k) keys))).
Proof.
  revert acc. induction keys as [|x keys IH]; intros acc Hnd; simpl.
  - split; [exact Hnd|]. split.
    + intros k. rewrite elem_of_nil. tauto.
    + intros k. lia.
  - destruct (IH (count_group same x acc) (count_group_nodup x acc Hnd))
      as (H1 & H2 & H3).
    split; [exact H1|]. split.
    + intros k. rewrite H2, elem_of_cons.
      destruct (count_group_keys x acc) as [[Hin ->] | [Hnot ->]].
      * split; [tauto|]. intros [Hk | [-> | Hk]]; auto.
      * rewrite elem_of_app, list_elem_of_singleton. tauto.
    + intros k. rewrite H3, count_group_total.
      destruct (same k x); simpl length; lia.
Qed.

Lemma group_total_unknown k (groups : list (K * Z)) :
  k ∉ map fst groups -> group_total same k groups = 0.
Proof.
  induction groups as [|[k1 n1] groups IH]; simpl; [reflexivity|].
  intros Hn. apply not_elem_of_cons in Hn as [Hne Hn].
  rewrite same_false by exact Hne. auto.
Qed.

Lemma group_total_single k n (groups : list (K * Z)) :
  NoDup (map fst groups) -> (k, n) ∈ groups -> group_total same k groups = n.
Proof.
  induction groups as [|[k' n'] groups IH]; simpl; intros Hnd Hin; [inversion Hin|].
  apply NoDup_cons in Hnd as [Hk Hnd].
  apply elem_of_cons in Hin as [E | Hin].
  - injection E as <- <-. rewrite same_refl, group_total_unknown by exact Hk. lia.
  - rewrite same_false; [auto|].
    intros ->. apply Hk. apply list_elem_of_fmap. exists (k', n). auto.
Qed.

End group_facts.

Lemma same_text_eq (a b : option string) : same_text a b = true <-> a = b.
Proof.
  destruct a as [x|], b as [y|]; simpl; try (split; congruence).
  rewrite String.eqb_eq. split; congruence.
Qed.

Lemma string_eqb_eq (a b : string) : String.eqb a b = true <-> a = b.
Proof. apply String.eqb_eq. Qed.

Lemma filter_app_std {A : Type} (f : A -> bool) (l1 l2 : list A) :
  List.filter f (l1 ++ l2) = List.filter f l1 ++ List.filter f l2.
Proof.
  induction l1 as [|x l1 IH]; [reflexivity|].
  simpl. destruct (f x); simpl; congruence.
Qed.

(** A community joins at most one stage, as the stage ids are distinct. *)
Lemma joined_names (d : db) (k : string) (e : Z) :
  NoDup (map et_id (etapas d)) ->
  length (List.filter (String.eqb k)
            (map et_nome (filter (fun x => et_id x = e) (etapas d))))
  = if existsb (fun x => (et_id x =? e) && String.eqb k (et_nome x)) (etapas d)
    then 1%nat else 0%nat.
Proof.
  intros Hnd.
  pose proof (nodup_filter_le_1 et_id e (etapas d) Hnd) as Hle.
  destruct (filter (fun x => et_id x = e) (etapas d)) as [|x [|y r]] eqn:Ef;
    [| |simpl in Hle; lia].
  - simpl. destruct (existsb _ (etapas d)) eqn:Ex; [|reflexivity].
    apply existsb_exists in Ex as (x & Hx & Hb).
    apply andb_true_iff in Hb as [Hid _]. apply Z.eqb_eq in Hid.
    assert (Hin : x ∈ filter (fun x => et_id x = e) (etapas d)).
    { apply list_elem_of_filter. split; [exact Hid | apply list_elem_of_In; exact Hx]. }
    rewrite Ef in Hin. inversion Hin.
  - assert (Hx : x ∈ filter (fun x => et_id x = e) (etapas d)) by (rewrite Ef; left).
    apply list_elem_of_filter in Hx as [Hid Hx].
    simpl. destruct (String.eqb k (et_nome x)) eqn:Ek; simpl.
    + assert (Ex : existsb (fun x => (et_id x =? e) && String.eqb k (et_nome x))
                     (etapas d) = true).
      { apply existsb_exists. exists x. split; [apply list_elem_of_In; exact Hx|].
        rewrite Ek, andb_true_r. apply Z.eqb_eq. exact Hid. }
      rewrite Ex. reflexivity.
    + destruct (existsb _ (etapas d)) eqn:Ex; [|reflexivity].
      apply existsb_exists in Ex as (y & Hy & Hb).
      apply andb_true_iff in Hb as [Hid' Hk]. apply Z.eqb_eq in Hid'.
      assert (Hin : y ∈ filter (fun x => et_id x = e) (etapas d)).
      { apply list_elem_of_filter. split; [exact Hid' | apply list_elem_of_In; exact Hy]. }
      rewrite Ef in Hin. apply list_elem_of_singleton in Hin as ->. congruence.
Qed.

Lemma joined_count (d : db) (k : string) :
  NoDup (map et_id (etapas d)) ->
  length (List.filter (String.eqb k) (Part000.etapa_names d))
  = length (List.filter (in_stage d k) (comunidades d)).
Proof.
  intros Hnd. unfold Part000.etapa_names.
  induction (comunidades d) as [|c l IH]; [reflexivity|].
  simpl. rewrite filter_app_std, length_app, IH. unfold in_stage at 2.
  destruct (etapa_id (com_vals c)) as [e|]; [|reflexivity].
  rewrite joined_names by exact Hnd.
  destruct (existsb _ (etapas d)); reflexivity.
Qed.

(** ** A loop that threw stays thrown *)

Lemma count_item_none (items : list json) :
  fold_left Part000.count_item items None = None.
Proof. induction items as [|x items IH]; [reflexivity | exact IH]. Qed.

Lemma count_item_null (items : list json) (acc : option (gmap string Z)) :
  JNull ∈ items -> fold_left Part000.count_item items acc = None.
Proof.
  revert acc. induction items as [|x items IH]; intros acc Hin; [inversion Hin|].
  apply elem_of_cons in Hin as [<- | Hin]; simpl.
  - destruct acc; apply count_item_none.
  - apply IH, Hin.
Qed.

Lemma or_else_truthy (v d : json) : truthy (Some v) = true -> or_else (Some v) d = v.
Proof. unfold or_else. intros ->. reflexivity. Qed.

(** ** What the routes keep of the tables *)

Lemma post_register_users_ok (b : Register.body) (salt : string) (d : db) :
  users_ok d -> users_ok (fst (post_register b salt d)).
Proof.
  intros (Hids & Hemails & Hseq). unfold post_register.
  destruct (absent (Register.email b) || negb (truthy (Register.password b)));
    [repeat split; assumption|].
  destruct (as_string (Register.password b)) as [pw|]; [|repeat split; assumption].
  unfold insert_user.
  assert (Hle : Forall (fun u => user_id u <= users_seq d + 1) (users d))
    by (eapply Forall_impl; [exact Hseq | simpl; intros; lia]).
  destruct (existsb (fun u => user_id u =? _) (users d)) eqn:Hid; simpl;
    [repeat split; assumption|].
  destruct (existsb (fun u => String.eqb _ _) (users d)) eqn:Hem; simpl;
    [repeat split; assumption|].
  unfold users_ok. simpl. rewrite !map_app. simpl. repeat split.
  - apply NoDup_app. split; [exact Hids|]. split; [|apply NoDup_singleton].
    intros x Hx Hx'. apply list_elem_of_singleton in Hx' as ->.
    apply list_elem_of_fmap in Hx as (u & Hu & Hin).
    rewrite Forall_forall in Hseq. specialize (Hseq u Hin). lia.
  - apply NoDup_app. split; [exact Hemails|]. split; [|apply NoDup_singleton].
    intros x Hx Hx'. apply list_elem_of_singleton in Hx' as ->.
    revert Hx. apply (existsb_false_not_in user_email String.eqb); [|exact Hem].
    intros a c. apply String.eqb_eq.
  - apply Forall_app. split; [exact Hle|]. apply Forall_singleton. simpl. lia.
Qed.

Lemma put_user_users_ok (message : string) (req_user : claims) (body : Profile.body)
    (salt : string) (d : db) :
  users_ok d -> users_ok (fst (put_user message req_user body salt d)).
Proof.
  intros (Hids & Hemails & Hseq). unfold put_user.
  destruct (users_by_id (claim_id req_user) d) as [|row rest];
    [repeat split; assumption|].
  destruct (update_user _ _ _ _ d) as [d'|] eqn:Hup; [|repeat split; assumption].
  apply update_user_some in Hup as [-> Hother]. unfold users_ok. simpl.
  repeat split.
  - rewrite <- list_fmap_compose.
    erewrite list_fmap_ext; [exact Hids|]. intros i x _. apply rewritten_id.
  - destruct (existsb (fun u => user_id u =? claim_id req_user) (users d)) eqn:Hex.
    + apply rewritten_emails_nodup; auto.
    + rewrite map_rewritten_none; [exact Hemails|].
      apply (existsb_false_not_in user_id Z.eqb); [|exact Hex].
      intros a c. apply Z.eqb_eq.
  - apply Forall_fmap. eapply Forall_impl; [exact Hseq|].
    intros u Hu. simpl. rewrite rewritten_id. exact Hu.
Qed.

Lemma set_users_same d : set_users (users d) (users_seq d) d = d.
Proof. destruct d; reflexivity. Qed.

Lemma post_register_writes (b : Register.body) (salt : string) (d : db) :
  exists us seq, fst (post_register b salt d) = set_users us seq d.
Proof.
  unfold post_register.
  destruct (absent (Register.email b) || negb (truthy (Register.password b))).
  - exists (users d), (users_seq d). symmetry. apply set_users_same.
  - destruct (as_string (Register.password b)) as [pw|].
    + unfold insert_user. destruct (_ || _); simpl; eauto.
    + exists (users d), (users_seq d). symmetry. apply set_users_same.
Qed.

Lemma put_user_writes (message : string) (req_user : claims) (body : Profile.body)
    (salt : string) (d : db) :
  exists us seq, fst (put_user message req_user body salt d) = set_users us seq d.
Proof.
  unfold put_user.
  destruct (users_by_id (claim_id req_user) d) as [|row rest].
  - exists (users d), (users_seq d). symmetry. apply set_users_same.
  - unfold update_user. destruct (_ && _); simpl; [|eauto].
    exists (users d), (users_seq d). symmetry. apply set_users_same.
Qed.

Lemma users_write_keeps (d d' : db) :
  tables_ok d -> (exists us seq, d' = set_users us seq d) -> users_ok d' -> tables_ok d'.
Proof.
  intros (_ & Hc & Ho & Ht) (us & seq & ->) Hu.
  split; [exact Hu|]. split; [exact Hc|]. split; [exact Ho | exact Ht].
Qed.

Lemma comunidades_write_keeps (d d' : db) :
  tables_ok d -> (exists cs seq, d' = set_comunidades cs seq d) ->
  comunidades_ok d' -> texts_ok d' = true -> tables_ok d'.
Proof.
  intros (Hu & _ & Ho & _) (cs & seq & ->) Hc Ht.
  split; [exact Hu|]. split; [exact Hc|]. split; [exact Ho | exact Ht].
Qed.

Lemma insert_comunidade_writes v d :
  exists cs seq, fst (insert_comunidade v d) = set_comunidades cs seq d.
Proof.
  unfold insert_comunidade. destruct (negb _).
  - exists (comunidades d), (comunidades_seq d). symmetry. apply set_comunidades_same.
  - destruct (_ || _); simpl; eauto.
Qed.

Lemma update_comunidade_writes v id d d' rows :
  update_comunidade v id d = Some (d', rows) ->
  exists cs seq, d' = set_comunidades cs seq d.
Proof.
  intros Hup. apply update_comunidade_some in Hup as (_ & _ & _ & -> & _). eauto.
Qed.

Lemma delete_comunidade_texts id d :
  texts_ok d = true -> texts_ok (delete_comunidade_row id d) = true.
Proof.
  intros Hok. apply texts_ok_forall. simpl. apply Forall_forall. intros c Hc.
  apply list_elem_of_filter in Hc as [_ Hc].
  apply texts_ok_forall in Hok. rewrite Forall_forall in Hok. auto.
Qed.

Lemma post_comunidades_keep (data : Body.data) (d : db) :
  body_integral data = true -> tables_ok d ->
  tables_ok (fst (Part000.post_comunidades data d))
  /\ tables_ok (fst (Part001.post_comunidades data d)).
Proof.
  intros Hint Hok. pose proof Hok as (_ & Hc & _ & Ht).
  unfold Part000.post_comunidades, Part001.post_comunidades. split.
  - pose proof (insert_comunidade_ok (Part000.vals_of data) d Hc) as H0.
    pose proof (insert_comunidade_texts (Part000.vals_of data) d Ht
                  (proj1 (decoded_written _ data Hint))) as H1.
    pose proof (insert_comunidade_writes (Part000.vals_of data) d) as H2.
    destruct (insert_comunidade (Part000.vals_of data) d) as [d' [row|]];
      exact (comunidades_write_keeps _ _ Hok H2 H0 H1).
  - pose proof (insert_comunidade_ok (Part001.vals_of data) d Hc) as H0.
    pose proof (insert_comunidade_texts (Part001.vals_of data) d Ht
                  (proj2 (decoded_written _ data Hint))) as H1.
    pose proof (insert_comunidade_writes (Part001.vals_of data) d) as H2.
    destruct (insert_comunidade (Part001.vals_of data) d) as [d' [row|]];
      exact (comunidades_write_keeps _ _ Hok H2 H0 H1).
Qed.

Lemma put_comunidade_keeps (id : Z) (data : Body.data) (d : db) :
  body_integral data = true -> tables_ok d ->
  tables_ok (fst (Part000.put_comunidade id data d))
  /\ tables_ok (fst (Part001.put_comunidade id data d)).
Proof.
  intros Hint Hok. pose proof Hok as (_ & Hc & _ & Ht).
  unfold Part000.put_comunidade, Part001.put_comunidade. split.
  - destruct (update_comunidade (Part000.vals_of data) id d) as [[d' rows]|] eqn:Hup;
      [|exact Hok].
    exact (comunidades_write_keeps _ _ Hok (update_comunidade_writes _ _ _ _ _ Hup)
             (update_comunidade_ok _ _ _ _ _ Hc Hup)
             (update_comunidade_texts _ _ _ _ _ Ht
                (proj1 (decoded_written id data Hint)) Hup)).
  - destruct (update_comunidade (Part001.vals_of data) id d) as [[d' rows]|] eqn:Hup;
      [|exact Hok].
    exact (comunidades_write_keeps _ _ Hok (update_comunidade_writes _ _ _ _ _ Hup)
             (update_comunidade_ok _ _ _ _ _ Hc Hup)
             (update_comunidade_texts _ _ _ _ _ Ht
                (proj2 (decoded_written id data Hint)) Hup)).
Qed.

Lemma delete_comunidade_row_keeps (id : Z) (d : db) :
  tables_ok d -> tables_ok (delete_comunidade_row id d).
Proof.
  intros Hok. pose proof Hok as (_ & Hc & _ & Ht).
  apply (comunidades_write_keeps d); [exact Hok | unfold delete_comunidade_row; eauto | |].
  - apply delete_comunidade_ok, Hc.
  - apply delete_comunidade_texts, Ht.
Qed.

Lemma guard000_cases (header : option string) (next : claims -> handler) (d : db) :
  (exists body, Part000.verificarToken header next d = (d, Responded 401 body))
  \/ (exists c, Part000.verificarToken header next d = next c d).
Proof.
  unfold Part000.verificarToken. destruct (absent header); [eauto|].
  destruct (negb _); [eauto|]. destruct (jwt_verify _); eauto.
Qed.

Lemma guard001_cases (header : option string) (next : claims -> handler) (d : db) :
  (exists body, Part001.verificarToken header next d = (d, Responded 401 body))
  \/ (exists c, Part001.verificarToken header next d = next c d).
Proof.
  unfold Part001.verificarToken. destruct (absent header); [eauto|].
  destruct (_ !! _); [|eauto]. destruct (jwt_verify _); eauto.
Qed.

Lemma server_guard_cases (header : option string) (next : claims -> handler) (d : db) :
  (exists body, Server.verificarToken header next d = (d, Responded 401 body))
  \/ (exists c, Server.verificarToken header next d = next c d).
Proof.
  unfold Server.verificarToken. destruct (absent header); [eauto|].
  destruct (_ !! _); [|eauto]. destruct (jwt_verify _); eauto.
Qed.

Lemma get_comunidades_answers (d : db) :
  texts_ok d = true -> snd (Part000.get_comunidades d) <> Threw.
Proof.
  intros Hok. apply texts_ok_forall in Hok.
  assert (Hall : Forall (fun c => is_Some (Part000.decoded c))
                   (order_by_id_desc (comunidades d))).
  { apply Forall_forall. intros c Hc. apply order_by_elem in Hc.
    rewrite Forall_forall in Hok. auto. }
  apply map_throwing_all in Hall as (bodies & Hmap & _).
  unfold Part000.get_comunidades. rewrite Hmap. discriminate.
Qed.

Lemma get_comunidade_answers (id : Z) (d : db) :
  texts_ok d = true -> int4 id = true -> snd (Part000.get_comunidade id d) <> Threw.
Proof.
  intros Hok Hid. apply texts_ok_forall in Hok. unfold Part000.get_comunidade.
  rewrite Hid. simpl negb. cbv iota.
  destruct (comunidades_by_id id d) as [|row rest] eqn:Hby; [discriminate|].
  assert (Hin : row ∈ comunidades d).
  { assert (Hr : row ∈ comunidades_by_id id d) by (rewrite Hby; left).
    apply list_elem_of_filter in Hr. tauto. }
  rewrite Forall_forall in Hok. destruct (Hok row Hin) as [body ->]. discriminate.
Qed.

Lemma part000_app_keeps (r : request) (d : db) :
  request_integral r = true -> tables_ok d -> tables_ok (fst (part000_app r d)).
Proof.
  intros Hint Hok. destruct r; simpl in *;
    unfold part000_put_user, part000_delete, part000_relatorios;
    try (match goal with
         | |- context [Part000.verificarToken ?h ?n d] =>
             destruct (guard000_cases h n d) as [[b ->] | [c ->]]; [exact Hok|]
         end).
  - apply (users_write_keeps d); [exact Hok | apply post_register_writes |].
    apply post_register_users_ok, Hok.
  - unfold post_login. destruct (users_by_email email d); [exact Hok|].
    destruct password; [|exact Hok]. destruct (negb _); exact Hok.
  - apply (users_write_keeps d); [exact Hok | apply put_user_writes |].
    apply put_user_users_ok, Hok.
  - exact Hok.
  - apply post_comunidades_keep; assumption.
  - unfold Part000.get_comunidades. destruct (Part000.map_throwing _ _); exact Hok.
  - unfold Part000.get_comunidade. destruct (negb _); [exact Hok|].
    destruct (comunidades_by_id id d); [exact Hok|].
    destruct (Part000.decoded _); exact Hok.
  - apply put_comunidade_keeps; assumption.
  - unfold Part000.delete_comunidade. destruct (negb _); [exact Hok|].
    apply delete_comunidade_row_keeps, Hok.
  - unfold Part000.get_relatorios. destruct (negb _); [exact Hok|].
    repeat (destruct (String.eqb tipo _); [try exact Hok|]); try exact Hok.
    + destruct (Part000.contagem_of _); exact Hok.
    + destruct (fold_left _ _ _); exact Hok.
Qed.

Lemma part001_app_keeps (r : request) (d : db) :
  request_integral r = true -> tables_ok d -> tables_ok (fst (part001_app r d)).
Proof.
  intros Hint Hok. destruct r; simpl in *;
    unfold part001_put_user, part001_delete;
    try (match goal with
         | |- context [Part001.verificarToken ?h ?n d] =>
             destruct (guard001_cases h n d) as [[b ->] | [c ->]]; [exact Hok|]
         end).
  - apply (users_write_keeps d); [exact Hok | apply post_register_writes |].
    apply post_register_users_ok, Hok.
  - unfold post_login. destruct (users_by_email email d); [exact Hok|].
    destruct password; [|exact Hok]. destruct (negb _); exact Hok.
  - apply (users_write_keeps d); [exact Hok | apply put_user_writes |].
    apply put_user_users_ok, Hok.
  - exact Hok.
  - apply post_comunidades_keep; assumption.
  - exact Hok.
  - unfold Part001.get_comunidade. destruct (negb _); [exact Hok|].
    destruct (comunidades_by_id id d); exact Hok.
  - apply put_comunidade_keeps; assumption.
  - unfold Part001.delete_comunidade. destruct (negb _); [exact Hok|].
    apply delete_comunidade_row_keeps, Hok.
  - exact Hok.
Qed.

Lemma server_app_keeps (r : request) (d : db) :
  tables_ok d -> tables_ok (fst (server_app r d)).
Proof.
  intros Hok. destruct r; simpl in *; try exact Hok;
    unfold server_put_user;
    try (match goal with
         | |- context [Server.verificarToken ?h ?n d] =>
             destruct (server_guard_cases h n d) as [[b ->] | [c ->]]; [exact Hok|]
         end).
  - apply (users_write_keeps d); [exact Hok | apply post_register_writes |].
    apply post_register_users_ok, Hok.
  - unfold post_login. destruct (users_by_email email d); [exact Hok|].
    destruct password; [|exact Hok]. destruct (negb _); exact Hok.
  - apply (users_write_keeps d); [exact Hok | apply put_user_writes |].
    apply put_user_users_ok, Hok.
  - exact Hok.
Qed.

Lemma run_keeps (app : request -> handler) (allowed : request -> bool) :
  (forall r d, allowed r = true -> tables_ok d -> tables_ok (fst (app r d))) ->
  forall rs d, forallb allowed rs = true -> tables_ok d -> tables_ok (run app rs d).
Proof.
  intros Hstep. induction rs as [|r rs IH]; intros d Hall Hok; [exact Hok|].
  simpl in Hall. apply andb_true_iff in Hall as [Hr Hrs].
  simpl. pose proof (Hstep r d Hr Hok) as Hnext.
  destruct (app r d) as [d' [status body|]]; simpl in Hnext; [|exact Hnext].
  apply IH; assumption.
Qed.

End route_facts.


(** ** The properties *)

Section properties.
Context `{libs : Libs}.

(** X1. After a successful registration, a login with the same e-mail and
    password answers 200 with the token and the record of the new user,
    as long as bcrypt accepts the password against the hash it made. *)
Theorem register_then_login (b : Register.body) (salt pw : string) (d d1 : db)
    (body : jsval) :
  post_register b salt d = (d1, Responded 200 body) ->
  Register.password b = Some (JStr pw) ->
  bcrypt_compare pw (bcrypt_hash salt pw) = true ->
  exists u,
    users d1 = users d ++ [u]
    /\ Some (user_email u) = Register.email b
    /\ user_name u = str_or (Register.name b) EmptyString
    /\ user_is_admin u = default false (Register.is_admin b)
    /\ post_login (Register.email b) (Some pw) d1
       = (d1, Responded 200 (Some (JObj [("token", JStr (gerarToken u));
                                         ("user", login_user u)]))).
Proof.
  intros Hreg Hpw Hcmp.
  apply post_register_ok in Hreg
    as (e & pw' & u & He & Hne & Hp & Hnp & -> & -> & Hid & Hem & _).
  rewrite Hpw in Hp. injection Hp as <-.
  eexists. split; [reflexivity|]. split; [symmetry; exact He|].
  split; [reflexivity|]. split; [reflexivity|].
  unfold post_login, users_by_email. rewrite He. simpl.
  rewrite filter_app, (existsb_email_filter _ _ Hem). simpl.
  rewrite filter_cons, filter_nil. simpl.
  destruct (decide (String.eqb e e = true)) as [_|Hn];
    [|rewrite String.eqb_refl in Hn; congruence].
  simpl. rewrite Hcmp. reflexivity.
Qed.

(** X2. A registration touches no existing record and no other table.
    Either it answers 200 and the users table has one more row, at its end,
    with the next id of the sequence and the bcrypt hash of the password,
    which is a string, as its password; or it answers 400 and the users
    table is as it was; or it throws and the database is as it was.  It
    throws exactly when the body has an e-mail and a password that is truthy
    and not a string: [bcrypt.hash], awaited before the [try], rejects
    it. *)
Theorem register_only_appends (b : Register.body) (salt : string) (d : db) :
  (exists d' out,
     post_register b salt d = (d', out)
     /\ comunidades d' = comunidades d /\ etapas d' = etapas d
     /\ carismas d' = carismas d
     /\ ((exists body u pw,
             out = Responded 200 body
             /\ Register.password b = Some (JStr pw)
             /\ users d' = users d ++ [u]
             /\ user_id u = users_seq d + 1
             /\ user_password u = bcrypt_hash salt pw)
         \/ (exists body, out = Responded 400 body /\ users d' = users d)
         \/ (out = Threw /\ d' = d)))
  /\ (snd (post_register b salt d) = Threw
      <-> absent (Register.email b) = false
          /\ truthy (Register.password b) = true
          /\ as_string (Register.password b) = None).
Proof.
  split.
  - destruct (post_register b salt d) as [d' out] eqn:Hreg.
    pose proof Hreg as Hcopy. unfold post_register in Hreg.
    destruct (absent (Register.email b) || negb (truthy (Register.password b))).
    { injection Hreg as <- <-. eexists _, _. split; [reflexivity|].
      repeat (split; [reflexivity|]). right. left. eauto. }
    destruct (as_string (Register.password b)) as [pw|] eqn:Has.
    2:{ injection Hreg as <- <-. eexists _, _. split; [reflexivity|].
        repeat (split; [reflexivity|]). right. right. auto. }
    unfold insert_user in Hreg.
    destruct (existsb _ (users d) || existsb _ (users d)) eqn:Hex.
    + injection Hreg as <- <-. eexists _, _. split; [reflexivity|]. simpl.
      repeat (split; [reflexivity|]). right. left. eauto.
    + injection Hreg as <- <-. eexists _, _. split; [reflexivity|].
      apply post_register_ok in Hcopy
        as (e & pw' & u & _ & _ & Hp & Hnp & -> & _ & _ & _ & _).
      simpl. repeat (split; [reflexivity|]). left.
      eexists _, _, pw'. split; [reflexivity|]. split; [exact Hp|].
      split; [reflexivity|]. split; [reflexivity|].
      rewrite Hp in Has. injection Has as <-. reflexivity.
  - unfold post_register.
    destruct (absent (Register.email b)); simpl;
      [split; [discriminate | intros [E _]; discriminate E]|].
    destruct (truthy (Register.password b)); simpl;
      [|split; [discriminate | intros (_ & E & _); discriminate E]].
    destruct (as_string (Register.password b)) as [pw|]; [|tauto].
    split; [|intros (_ & _ & E); discriminate E].
    destruct (insert_user _ _ _ _ d) as [d' [u|]]; discriminate.
Qed.

Lemma nth_1_lookup (parts : list string) :
  length parts = 2%nat -> parts !! 1%nat = Some (nth 1 parts EmptyString).
Proof.
  destruct parts as [|a [|t [|x l]]]; simpl; intros E; try discriminate. reflexivity.
Qed.

(** X3. The guards of the three files take the same decision except on
    headers that do not have exactly two parts: [server.js] and the second
    version always answer alike, and the first version either answers as
    they do or refuses with 401 "Token inválido". *)
Theorem guards_agree (header : option string) (next : claims -> handler) (d : db) :
  Server.verificarToken header next d = Part001.verificarToken header next d
  /\ (Part000.verificarToken header next d = Part001.verificarToken header next d
      \/ Part000.verificarToken header next d
         = (d, Responded 401 (error "Token inválido"))).
Proof.
  split; [reflexivity|].
  unfold Part000.verificarToken, Part001.verificarToken.
  destruct (absent header); [left; reflexivity|].
  destruct (length (split_space (str_or header EmptyString)) =? 2)%nat eqn:Hlen;
    simpl; [|right; reflexivity].
  apply Nat.eqb_eq in Hlen. rewrite (nth_1_lookup _ Hlen). left. reflexivity.
Qed.

(** X4. A request none of whose header parts [jwt.verify] accepts never
    reaches a handler: the three guards answer 401, with the same message,
    and leave the database as it was. *)
Theorem guard_needs_verified_part (header : option string) (next : claims -> handler)
    (d : db) :
  (forall t, t ∈ split_space (str_or header EmptyString) -> jwt_verify t = None) ->
  exists msg,
    (msg = "Sem token" \/ msg = "Token inválido")
    /\ Part000.verificarToken header next d = (d, Responded 401 (error msg))
    /\ Part001.verificarToken header next d = (d, Responded 401 (error msg))
    /\ Server.verificarToken header next d = (d, Responded 401 (error msg)).
Proof.
  intros Hnone.
  unfold Part000.verificarToken, Part001.verificarToken, Server.verificarToken.
  destruct (absent header); [exists "Sem token"; auto|].
  exists "Token inválido". split; [auto|].
  set (parts := split_space (str_or header EmptyString)) in *.
  assert (H1 : match parts !! 1%nat with
               | Some token =>
                   match jwt_verify token with
                   | Some data => next data d
                   | None => (d, Responded 401 (error "Token inválido"))
                   end
               | None => (d, Responded 401 (error "Token inválido"))
               end = (d, Responded 401 (error "Token inválido"))).
  { destruct (parts !! 1%nat) as [token|] eqn:Hl; [|reflexivity].
    rewrite (Hnone token); [reflexivity|].
    apply list_elem_of_lookup. eauto. }
  split; [|auto].
  destruct (length parts =? 2)%nat eqn:Hlen; simpl; [|reflexivity].
  apply Nat.eqb_eq in Hlen. rewrite (Hnone (nth 1 parts EmptyString)); [reflexivity|].
  apply list_elem_of_lookup. exists 1%nat. apply nth_1_lookup, Hlen.
Qed.

Lemma bearer_passes (tok : string) (next : claims -> handler) (d : db) (c : claims) :
  jwt_verify tok = Some c -> no_space tok = true ->
  Part000.verificarToken (Some ("Bearer " +:+ tok)) next d = next c d
  /\ Part001.verificarToken (Some ("Bearer " +:+ tok)) next d = next c d
  /\ Server.verificarToken (Some ("Bearer " +:+ tok)) next d = next c d.
Proof.
  intros Hv Hs.
  unfold Part000.verificarToken, Part001.verificarToken, Server.verificarToken.
  change (absent (Some ("Bearer " +:+ tok))) with false.
  change (str_or (Some ("Bearer " +:+ tok)) EmptyString)
    with ("Bearer" +:+ String " " tok).
  rewrite split_space_app, split_space_whole by (assumption || reflexivity).
  simpl. rewrite Hv. auto.
Qed.

(** X5. The token of a successful login, sent back as "Bearer <token>",
    passes the guard of each file, which runs the handler with the id, the
    e-mail and the admin flag of the user that logged in; this holds when
    [jwt.verify] gives back the claims of the tokens signed for the users of
    the table and the token has no space. *)
Theorem login_token_passes_guards (e : option string) (pw : string) (d : db)
    (body : jsval) :
  (forall u, u ∈ users d -> jwt_verify (gerarToken u) = Some (claims_of u)) ->
  post_login e (Some pw) d = (d, Responded 200 body) ->
  exists u tok,
    u ∈ users d /\ Some (user_email u) = e
    /\ bcrypt_compare pw (user_password u) = true
    /\ body = Some (JObj [("token", JStr tok); ("user", login_user u)])
    /\ (no_space tok = true ->
        forall next,
          Part000.verificarToken (Some ("Bearer " +:+ tok)) next d = next (claims_of u) d
          /\ Part001.verificarToken (Some ("Bearer " +:+ tok)) next d
             = next (claims_of u) d
          /\ Server.verificarToken (Some ("Bearer " +:+ tok)) next d
             = next (claims_of u) d).
Proof.
  intros Hjwt. unfold post_login.
  destruct (users_by_email e d) as [|u rest] eqn:Hby; [discriminate|].
  destruct (bcrypt_compare pw (user_password u)) eqn:Hcmp; simpl; [|discriminate].
  intros E. injection E as <-.
  assert (Hin : u ∈ users_by_email e d) by (rewrite Hby; left).
  unfold users_by_email in Hin. destruct e as [e|]; [|inversion Hin].
  apply list_elem_of_filter in Hin as [He Hin]. apply String.eqb_eq in He.
  exists u, (gerarToken u). split; [exact Hin|]. split; [congruence|].
  split; [exact Hcmp|]. split; [reflexivity|].
  intros Hs next. apply bearer_passes; [apply Hjwt, Hin | exact Hs].
Qed.

Lemma relatorios_admin_not_403 (c : claims) (tipo : string) (d : db) :
  claim_is_admin c = true ->
  exists out,
    Part000.get_relatorios c tipo d = (d, out)
    /\ (out = Threw \/ exists body, out = Responded 200 body).
Proof.
  intros Hc. unfold Part000.get_relatorios. rewrite Hc. simpl.
  destruct (String.eqb tipo "diocese"); [eauto|].
  destruct (String.eqb tipo "etapas"); [eauto|].
  destruct (String.eqb tipo "carismas");
    [destruct (Part000.contagem_of _); eauto|].
  destruct (String.eqb tipo "vocacionados"); [|eauto].
  destruct (fold_left _ _ _); eauto.
Qed.

(** X6. The admin flag that opens the reports is the one the client sent
    when it registered: with the token of a successful registration, sent as
    "Bearer <token>", GET /api/relatorios/:tipo answers 403 for every report
    when [is_admin] was absent or false, and never 403 when it was true;
    this holds when [jwt.verify] gives back the claims of the tokens signed
    for the users of the table and the token has no space. *)
Theorem registered_flag_opens_reports (b : Register.body) (salt tipo : string)
    (d d1 : db) (body : jsval) :
  (forall u, u ∈ users d1 -> jwt_verify (gerarToken u) = Some (claims_of u)) ->
  post_register b salt d = (d1, Responded 200 body) ->
  exists tok user_json,
    body = Some (JObj [("token", JStr tok); ("user", user_json)])
    /\ (no_space tok = true ->
        exists out,
          part000_relatorios (Some ("Bearer " +:+ tok)) tipo d1 = (d1, out)
          /\ (default false (Register.is_admin b) = false ->
              out = Responded 403 (error "Acesso restrito"))
          /\ (default false (Register.is_admin b) = true ->
              out = Threw \/ exists report, out = Responded 200 report)).
Proof.
  intros Hjwt Hreg.
  apply post_register_ok in Hreg
    as (e & pw & u & _ & _ & _ & _ & Hu & -> & _ & _ & ->).
  eexists _, _. split; [reflexivity|]. intros Hs.
  unfold part000_relatorios.
  destruct (bearer_passes (gerarToken u)
              (fun user => Part000.get_relatorios user tipo)
              (set_users (users d ++ [u]) (users_seq d + 1) d) (claims_of u)
              (Hjwt u ltac:(simpl; apply elem_of_app; right; left)) Hs) as [-> _].
  destruct (default false (Register.is_admin b)) eqn:Hflag.
  - destruct (relatorios_admin_not_403 (claims_of u) tipo
                (set_users (users d ++ [u]) (users_seq d + 1) d))
      as (out & -> & Hout); [rewrite Hu; reflexivity|].
    exists out. split; [reflexivity|]. split; [discriminate|]. auto.
  - unfold Part000.get_relatorios.
    replace (claim_is_admin (claims_of u)) with false by (rewrite Hu; reflexivity).
    simpl. eexists. split; [reflexivity|]. split; [reflexivity|]. discriminate.
Qed.

(** X7. Registration and self-update keep the users table as the
    constraints want it: distinct ids, distinct e-mails, no id ahead of the
    sequence.  On such a table an e-mail selects at most one user, so the
    row a login compares the password with is the only one of its e-mail. *)
Theorem users_stay_ok (d : db) :
  users_ok d ->
  (forall b salt, users_ok (fst (post_register b salt d)))
  /\ (forall message req_user body salt,
        users_ok (fst (put_user message req_user body salt d)))
  /\ (forall e, (length (users_by_email e d) <= 1)%nat)
  /\ (forall id, (length (users_by_id id d) <= 1)%nat).
Proof.
  intros Hok. repeat apply conj.
  - intros b salt. apply post_register_users_ok, Hok.
  - intros message req_user body salt. apply put_user_users_ok, Hok.
  - destruct Hok as (Hids & Hemails & Hseq). intros [e|]; simpl; [|lia].
    assert (Heq : filter (fun u => String.eqb (user_email u) e = true) (users d)
                  = filter (fun u => user_email u = e) (users d)).
    { apply list_filter_iff. intros u. apply String.eqb_eq. }
    rewrite Heq. apply nodup_filter_le_1, Hemails.
  - intros id. apply nodup_filter_le_1, Hok.
Qed.


(** X9. A self-update touches the record of the caller only: whatever the
    outcome, the users table keeps its length, every record of another id
    stays where it was and as it was, no id and no admin flag changes, and
    the other tables and the sequences are untouched. *)
Theorem put_user_touches_only_caller (message : string) (req_user : claims)
    (body : Profile.body) (salt : string) (d d' : db) (out : outcome) :
  put_user message req_user body salt d = (d', out) ->
  length (users d') = length (users d)
  /\ (forall i u, users d !! i = Some u ->
        exists u', users d' !! i = Some u'
                   /\ user_id u' = user_id u /\ user_is_admin u' = user_is_admin u
                   /\ (user_id u <> claim_id req_user -> u' = u))
  /\ users_seq d' = users_seq d /\ comunidades d' = comunidades d
  /\ comunidades_seq d' = comunidades_seq d
  /\ etapas d' = etapas d /\ carismas d' = carismas d.
Proof.
  unfold put_user.
  assert (Hsame : length (users d) = length (users d)
            /\ (forall i u, users d !! i = Some u ->
                  exists u', users d !! i = Some u'
                             /\ user_id u' = user_id u
                             /\ user_is_admin u' = user_is_admin u
                             /\ (user_id u <> claim_id req_user -> u' = u))
            /\ users_seq d = users_seq d /\ comunidades d = comunidades d
            /\ comunidades_seq d = comunidades_seq d
            /\ etapas d = etapas d /\ carismas d = carismas d)
    by (repeat split; eauto 6).
  destruct (users_by_id (claim_id req_user) d) as [|row rest];
    [intros E; injection E as <- <-; exact Hsame|].
  destruct (update_user _ _ _ _ d) as [d1|] eqn:Hup;
    intros E; injection E as <- <-; [|exact Hsame].
  apply update_user_some in Hup as [-> _]. simpl.
  split; [apply length_map|]. split; [|repeat split].
  intros i u Hi. eexists. split; [rewrite list_lookup_fmap, Hi; reflexivity|].
  unfold rewritten. destruct (Z.eqb_spec (user_id u) (claim_id req_user)); simpl.
  - repeat split. contradiction.
  - repeat split.
Qed.

(** X10. After a self-update that stored a new password, a login with the
    caller's e-mail (the new one, if the update changed it) and the new
    password answers 200 for the caller's id, as long as bcrypt accepts the
    password against the hash it made. *)
Theorem put_user_then_login (message : string) (req_user : claims)
    (body : Profile.body) (salt p : string) (d d' : db) (row : user)
    (rest : list user) :
  users_by_id (claim_id req_user) d = row :: rest ->
  put_user message req_user body salt d = (d', Responded 200 ok_true) ->
  Profile.password body = Some p -> p <> EmptyString ->
  bcrypt_compare p (bcrypt_hash salt p) = true ->
  exists u,
    user_id u = claim_id req_user
    /\ user_email u = str_or (Profile.email body) (user_email row)
    /\ user_password u = bcrypt_hash salt p
    /\ post_login (Some (user_email u)) (Some p) d'
       = (d', Responded 200 (Some (JObj [("token", JStr (gerarToken u));
                                         ("user", login_user u)]))).
Proof.
  intros Hrow Hput Hp Hne Hcmp. unfold put_user in Hput. rewrite Hrow in Hput.
  destruct (update_user _ _ _ _ d) as [d1|] eqn:Hup; [|discriminate].
  injection Hput as ->. rewrite Hp in Hup. simpl absent in Hup.
  simpl str_or in Hup at 3. apply String.eqb_neq in Hne. rewrite Hne in Hup.
  apply update_user_some in Hup as [-> Hother].
  set (e := str_or (Profile.email body) (user_email row)) in *.
  set (n := str_or (Profile.name body) (user_name row)) in *.
  assert (Hrin : row ∈ users d /\ user_id row = claim_id req_user).
  { assert (Hr : row ∈ users_by_id (claim_id req_user) d) by (rewrite Hrow; left).
    apply list_elem_of_filter in Hr. tauto. }
  destruct Hrin as [Hrin Hrid].
  assert (Hex : existsb (fun u => user_id u =? claim_id req_user) (users d) = true).
  { apply existsb_exists. exists row. split; [apply list_elem_of_In, Hrin|].
    apply Z.eqb_eq, Hrid. }
  specialize (Hother Hex).
  set (f := rewritten n e (bcrypt_hash salt p) (claim_id req_user)) in *.
  assert (Hall : Forall (fun u => user_id u = claim_id req_user
                                  /\ user_email u = e
                                  /\ user_password u = bcrypt_hash salt p)
                   (filter (fun u => String.eqb (user_email u) e = true)
                      (map f (users d)))).
  { apply Forall_forall. intros x Hx. apply list_elem_of_filter in Hx as [Hxe Hx].
    apply String.eqb_eq in Hxe. apply list_elem_of_fmap in Hx as (u & -> & Hu).
    unfold f, rewritten in *.
    destruct (Z.eqb_spec (user_id u) (claim_id req_user)) as [E|E]; simpl in *.
    - auto.
    - exfalso. exact (Hother u Hu E Hxe). }
  assert (Hnonempty : f row ∈ filter (fun u => String.eqb (user_email u) e = true)
                                (map f (users d))).
  { apply list_elem_of_filter. split.
    - unfold f, rewritten. apply Z.eqb_eq in Hrid. rewrite Hrid. simpl.
      apply String.eqb_refl.
    - apply list_elem_of_fmap. eauto. }
  destruct (filter (fun u => String.eqb (user_email u) e = true) (map f (users d)))
    as [|u us] eqn:Hf; [inversion Hnonempty|].
  apply Forall_cons in Hall as [(Hid & Hem & Hpw) _].
  exists u. repeat (split; [assumption|]).
  unfold post_login, users_by_email. simpl users. rewrite Hem, Hf, Hpw, Hcmp.
  reflexivity.
Qed.

(** X11. A PUT on a community that exists, when it is answered 200,
    replaces the row as a whole, and a GET of the same id then shows it: the
    columns are those computed from the body alone, as PostgreSQL stores
    them ([stored]), and the driver answers a DATE as the text [date_out]
    of it.  In the first version, for a body whose two lists are
    [integral] (their numbers are integers of magnitude at most 2^53 and
    their objects have each key once, in the order of the engine), the
    response of the GET has also the two lists of the body as [levantados]
    and [carismas]; in the second version the PUT answers the new row and
    the GET answers the same. *)
Theorem put_then_get (id : Z) (data : Body.data) (d : db) (row : comunidade)
    (rest : list comunidade) :
  comunidades_by_id id d = row :: rest ->
  (forall d',
      body_integral data = true ->
      Part000.put_comunidade id data d = (d', Responded 200 ok_true) ->
      Part000.get_comunidade id d'
      = (d', Responded 200
               (Some (JObj (row_members {| com_id := id;
                                           com_vals := stored (Part000.vals_of data) |}
                              ++ [("levantados",
                                    or_else (Body.levantados data) (JArr []));
                                  ("carismas",
                                    or_else (Body.carismas data) (JArr []))])))))
  /\ (forall d' body,
         Part001.put_comunidade id data d = (d', Responded 200 body) ->
         body = Some (JObj (row_members {| com_id := id;
                                           com_vals := stored (Part001.vals_of data) |}))
         /\ Part001.get_comunidade id d' = (d', Responded 200 body)).
Proof.
  intros Hrow.
  assert (Hid : com_id row = id).
  { assert (Hr : row ∈ comunidades_by_id id d) by (rewrite Hrow; left).
    apply list_elem_of_filter in Hr. tauto. }
  split.
  - intros d' Hint. unfold body_integral in Hint.
    apply andb_true_iff in Hint as [Hl Hc]. unfold Part000.put_comunidade.
    destruct (update_comunidade _ id d) as [[d1 rows]|] eqn:Hup; [|discriminate].
    intros E. injection E as <-.
    pose proof (by_id_after_update _ _ _ _ _ Hup) as Hby.
    apply update_comunidade_some in Hup as (_ & Hint4 & Hrows & _ & _).
    rewrite Hrow in Hrows. simpl in Hrows. rewrite Hid in Hrows. subst rows.
    unfold Part000.get_comunidade. rewrite Hint4, Hby. simpl negb. cbv iota.
    rewrite (decoded_vals id (stored (Part000.vals_of data))
               (or_else (Body.levantados data) (JArr []))
               (or_else (Body.carismas data) (JArr [])) eq_refl eq_refl Hl Hc).
    reflexivity.
  - intros d' body. unfold Part001.put_comunidade.
    destruct (update_comunidade _ id d) as [[d1 rows]|] eqn:Hup; [|discriminate].
    intros E. injection E as <- <-.
    pose proof (by_id_after_update _ _ _ _ _ Hup) as Hby.
    apply update_comunidade_some in Hup as (_ & Hint4 & Hrows & _ & _).
    rewrite Hrow in Hrows. simpl in Hrows. rewrite Hid in Hrows. subst rows.
    split; [reflexivity|].
    unfold Part001.get_comunidade. rewrite Hint4, Hby. reflexivity.
Qed.

(** X12. A PUT has no partial-patch semantics: on a community that exists,
    when the PUT is answered 200, the fourteen columns of the row are those
    computed from the body alone, whatever the row held before
    ([com_vals row' = stored (vals_of data)]).  So each of the fourteen
    fields that the body omits is stored as NULL when it is one of the seven
    texts, one of the two dates or the stage, as the text of the empty list
    when it is one of the two lists, and, when it is one of the two counts,
    as 0 in the first version and as NULL in the second. *)
Theorem put_resets_omitted_fields (id : Z) (data : Body.data) (d : db)
    (row : comunidade) (rest : list comunidade) :
  comunidades_by_id id d = row :: rest ->
  (forall d',
      Part000.put_comunidade id data d = (d', Responded 200 ok_true) ->
      exists row' rest',
        comunidades_by_id id d' = row' :: rest'
        /\ com_vals row' = stored (Part000.vals_of data)
        /\ (Body.numero_comunidade data = None -> numero_comunidade (com_vals row') = None)
        /\ (Body.nome_diocese data = None -> nome_diocese (com_vals row') = None)
        /\ (Body.nome_bispo data = None -> nome_bispo (com_vals row') = None)
        /\ (Body.nome_cidade data = None -> nome_cidade (com_vals row') = None)
        /\ (Body.nome_paroquia data = None -> nome_paroquia (com_vals row') = None)
        /\ (Body.nome_paroco data = None -> nome_paroco (com_vals row') = None)
        /\ (Body.nome_vigario data = None -> nome_vigario (com_vals row') = None)
        /\ (Body.qtd_total data = None -> qtd_total (com_vals row') = Some 0)
        /\ (Body.qtd_jovens data = None -> qtd_jovens (com_vals row') = Some 0)
        /\ (Body.etapa_id data = None -> etapa_id (com_vals row') = None)
        /\ (Body.data_formacao data = None -> data_formacao (com_vals row') = None)
        /\ (Body.data_ultima_etapa data = None -> data_ultima_etapa (com_vals row') = None)
        /\ (Body.levantados data = None -> levantados_json (com_vals row') = Some "[]")
        /\ (Body.carismas data = None -> carismas_json (com_vals row') = Some "[]"))
  /\ (forall d' body,
      Part001.put_comunidade id data d = (d', Responded 200 body) ->
      exists row' rest',
        comunidades_by_id id d' = row' :: rest'
        /\ com_vals row' = stored (Part001.vals_of data)
        /\ (Body.numero_comunidade data = None -> numero_comunidade (com_vals row') = None)
        /\ (Body.nome_diocese data = None -> nome_diocese (com_vals row') = None)
        /\ (Body.nome_bispo data = None -> nome_bispo (com_vals row') = None)
        /\ (Body.nome_cidade data = None -> nome_cidade (com_vals row') = None)
        /\ (Body.nome_paroquia data = None -> nome_paroquia (com_vals row') = None)
        /\ (Body.nome_paroco data = None -> nome_paroco (com_vals row') = None)
        /\ (Body.nome_vigario data = None -> nome_vigario (com_vals row') = None)
        /\ (Body.qtd_total data = None -> qtd_total (com_vals row') = None)
        /\ (Body.qtd_jovens data = None -> qtd_jovens (com_vals row') = None)
        /\ (Body.etapa_id data = None -> etapa_id (com_vals row') = None)
        /\ (Body.data_formacao data = None -> data_formacao (com_vals row') = None)
        /\ (Body.data_ultima_etapa data = None -> data_ultima_etapa (com_vals row') = None)
        /\ (Body.levantados data = None -> levantados_json (com_vals row') = Some "[]")
        /\ (Body.carismas data = None -> carismas_json (com_vals row') = Some "[]")).
Proof.
  intros Hrow. split.
  - intros d'. unfold Part000.put_comunidade.
    destruct (update_comunidade _ id d) as [[d1 rows]|] eqn:Hup; [|discriminate].
    intros E. injection E as <-.
    pose proof (by_id_after_update _ _ _ _ _ Hup) as Hby.
    apply update_comunidade_some in Hup as (_ & _ & Hrows & _ & _).
    rewrite Hrow in Hrows. simpl in Hrows. subst rows.
    eexists _, _. split; [exact Hby|].
    simpl. split; [reflexivity|]. repeat split; intros ->; reflexivity.
  - intros d' body. unfold Part001.put_comunidade.
    destruct (update_comunidade _ id d) as [[d1 rows]|] eqn:Hup; [|discriminate].
    intros E. injection E as <- _.
    pose proof (by_id_after_update _ _ _ _ _ Hup) as Hby.
    apply update_comunidade_some in Hup as (_ & _ & Hrows & _ & _).
    rewrite Hrow in Hrows. simpl in Hrows. subst rows.
    eexists _, _. split; [exact Hby|].
    simpl. split; [reflexivity|]. repeat split; intros ->; reflexivity.
Qed.

(** X13. After the DELETE of an id in the range of INTEGER, a GET of the
    same id answers 404 in both versions, and a second DELETE of the id
    changes nothing more. *)
Theorem delete_then_get (id : Z) (d : db) :
  int4 id = true ->
  exists d',
    Part000.delete_comunidade id d = (d', Responded 200 ok_true)
    /\ Part000.get_comunidade id d' = (d', Responded 404 (error "Não encontrado"))
    /\ Part001.get_comunidade id d'
       = (d', Responded 404 (error "Comunidade não encontrada"))
    /\ Part000.delete_comunidade id d' = (d', Responded 200 ok_true)
    /\ Part001.delete_comunidade id d' = (d', Responded 200 ok_true).
Proof.
  intros Hid. exists (delete_comunidade_row id d).
  unfold Part000.delete_comunidade, Part001.delete_comunidade,
    Part000.get_comunidade, Part001.get_comunidade. rewrite Hid. simpl negb. cbv iota.
  split; [reflexivity|].
  pose proof (by_id_after_delete id d) as Hnone. rewrite Hnone.
  split; [reflexivity|]. split; [reflexivity|].
  assert (Hsame : delete_comunidade_row id (delete_comunidade_row id d)
                  = delete_comunidade_row id d).
  { unfold delete_comunidade_row at 1.
    rewrite (no_row_filter id _ Hnone). apply set_comunidades_same. }
  rewrite Hsame. auto.
Qed.

(** X14. Creating, replacing and deleting communities, in both versions,
    keep the table as the constraints want it: distinct ids, no id ahead of
    the sequence, every [etapa_id] the id of a stage.  On such a table an id
    selects at most one community, so the row [r.rows[0]] the routes answer
    is the only one of its id. *)
Theorem comunidades_stay_ok (d : db) :
  comunidades_ok d ->
  (forall data, comunidades_ok (fst (Part000.post_comunidades data d))
                /\ comunidades_ok (fst (Part001.post_comunidades data d)))
  /\ (forall id data, comunidades_ok (fst (Part000.put_comunidade id data d))
                      /\ comunidades_ok (fst (Part001.put_comunidade id data d)))
  /\ (forall id, comunidades_ok (fst (Part000.delete_comunidade id d))
                 /\ comunidades_ok (fst (Part001.delete_comunidade id d)))
  /\ (forall id, (length (comunidades_by_id id d) <= 1)%nat).
Proof.
  intros Hok. repeat apply conj.
  - intros data. unfold Part000.post_comunidades, Part001.post_comunidades.
    pose proof (insert_comunidade_ok (Part000.vals_of data) d Hok) as H0.
    pose proof (insert_comunidade_ok (Part001.vals_of data) d Hok) as H1.
    destruct (insert_comunidade (Part000.vals_of data) d) as [d0 [r0|]];
      destruct (insert_comunidade (Part001.vals_of data) d) as [d1 [r1|]]; auto.
  - intros id data. unfold Part000.put_comunidade, Part001.put_comunidade.
    split.
    + destruct (update_comunidade (Part000.vals_of data) id d) as [[d0 r0]|] eqn:H0;
        [|exact Hok]. exact (update_comunidade_ok _ _ _ _ _ Hok H0).
    + destruct (update_comunidade (Part001.vals_of data) id d) as [[d1 r1]|] eqn:H1;
        [|exact Hok]. exact (update_comunidade_ok _ _ _ _ _ Hok H1).
  - intros id. unfold Part000.delete_comunidade, Part001.delete_comunidade.
    destruct (negb (int4 id)); split; try exact Hok; apply delete_comunidade_ok, Hok.
  - intros id. apply nodup_filter_le_1. apply Hok.
Qed.

(** X15. On a table that the constraints keep, a create has four
    outcomes.  When PostgreSQL accepts the parameters (the counts and the
    stage are within INTEGER, the dates are dates, no text has the character
    of code 0) and the next value of the sequence is within INTEGER: if the
    [etapa_id] is absent or the id of a stage, the create answers 200, the
    new row is added at the end of the table, with the values as they are
    stored, and its id is the next value of the sequence; otherwise the
    first version throws and the second answers 400 "Erro ao criar
    comunidade", no row is stored, and the id is consumed all the same.
    When PostgreSQL rejects a parameter, or the sequence is exhausted, the
    first version throws, the second answers 400, and the database is as it
    was: no id is consumed. *)
Theorem create_outcomes (data : Body.data) (d : db) :
  comunidades_ok d ->
  let id := comunidades_seq d + 1 in
  let row0 := {| com_id := id; com_vals := stored (Part000.vals_of data) |} in
  let row1 := {| com_id := id; com_vals := stored (Part001.vals_of data) |} in
  (accepted (Part000.vals_of data) && int4 id = true ->
   (references_etapa (Part000.vals_of data) d = true ->
    Part000.post_comunidades data d
    = (set_comunidades (comunidades d ++ [row0]) id d,
       Responded 200 (Some (JObj [("id", JNum id)]))))
   /\ (references_etapa (Part000.vals_of data) d = false ->
       Part000.post_comunidades data d
       = (set_comunidades (comunidades d) id d, Threw)))
  /\ (accepted (Part000.vals_of data) && int4 id = false ->
      Part000.post_comunidades data d = (d, Threw))
  /\ (accepted (Part001.vals_of data) && int4 id = true ->
      (references_etapa (Part001.vals_of data) d = true ->
       Part001.post_comunidades data d
       = (set_comunidades (comunidades d ++ [row1]) id d,
          Responded 200 (Some (JObj (row_members row1)))))
      /\ (references_etapa (Part001.vals_of data) d = false ->
          Part001.post_comunidades data d
          = (set_comunidades (comunidades d) id d,
             Responded 400 (error "Erro ao criar comunidade"))))
  /\ (accepted (Part001.vals_of data) && int4 id = false ->
      Part001.post_comunidades data d
      = (d, Responded 400 (error "Erro ao criar comunidade"))).
Proof.
  intros Hok id row0 row1.
  unfold Part000.post_comunidades, Part001.post_comunidades.
  rewrite !insert_comunidade_fresh by assumption. fold id.
  split; [|split; [|split]].
  - intros ->. simpl. split; intros ->; reflexivity.
  - intros ->. reflexivity.
  - intros ->. simpl. split; intros ->; reflexivity.
  - intros ->. reflexivity.
Qed.

(** X16. The list of the second version has every stored community exactly
    once, by descending id; so has the list of the first version, each with
    its two decoded lists, when the texts of the table can be decoded. *)
Theorem list_is_complete_and_sorted (d : db) :
  exists rows,
    rows ≡ₚ comunidades d
    /\ StronglySorted id_desc rows
    /\ Part001.get_comunidades d = (d, Responded 200 (Some (JArr (map (listed d) rows))))
    /\ (texts_ok d = true ->
        exists bodies,
          Part000.get_comunidades d = (d, Responded 200 (Some (JArr bodies)))
          /\ Forall2 (fun row body => Part000.decoded row = Some body) rows bodies).
Proof.
  exists (order_by_id_desc (comunidades d)).
  split; [apply order_by_perm|]. split; [apply order_by_id_desc_sorted|].
  split; [reflexivity|].
  intros Hok. apply texts_ok_forall in Hok.
  assert (Hall : Forall (fun c => is_Some (Part000.decoded c))
                   (order_by_id_desc (comunidades d))).
  { apply Forall_forall. intros c Hc. apply order_by_elem in Hc.
    rewrite Forall_forall in Hok. auto. }
  apply map_throwing_all in Hall as (bodies & Hmap & HF).
  exists bodies. unfold Part000.get_comunidades. rewrite Hmap. auto.
Qed.

(** X17. When the texts of the table can be decoded, the read of a
    community of the first version by an id in the range of INTEGER does
    not throw: it answers 404 when no row has the id, and otherwise 200 with
    the first row of the id and its two decoded lists.  For an id outside
    this range it throws. *)
Theorem get_comunidade_responds (id : Z) (d : db) :
  texts_ok d = true ->
  (int4 id = true ->
   (comunidades_by_id id d = []
    /\ Part000.get_comunidade id d = (d, Responded 404 (error "Não encontrado")))
   \/ (exists row rest body,
         comunidades_by_id id d = row :: rest
         /\ Part000.decoded row = Some body
         /\ Part000.get_comunidade id d = (d, Responded 200 (Some body))))
  /\ (int4 id = false -> Part000.get_comunidade id d = (d, Threw)).
Proof.
  intros Hok. apply texts_ok_forall in Hok. unfold Part000.get_comunidade.
  split; [|intros ->; reflexivity].
  intros ->. simpl negb. cbv iota.
  destruct (comunidades_by_id id d) as [|row rest] eqn:Hby; [left; auto|].
  right. assert (Hin : row ∈ comunidades d).
  { assert (Hr : row ∈ comunidades_by_id id d) by (rewrite Hby; left).
    apply list_elem_of_filter in Hr. tauto. }
  rewrite Forall_forall in Hok. destruct (Hok row Hin) as [body Hbody].
  exists row, rest, body. rewrite Hbody. auto.
Qed.


(** X19. The service itself never stores a text that cannot be decoded:
    when the texts of the table can be decoded, they still can after any
    create or replace of either version whose two lists are [integral]
    (their numbers are integers of magnitude at most 2^53 and their objects
    have each key once, in the order of the engine), and after any
    delete. *)
Theorem texts_stay_json (d : db) :
  texts_ok d = true ->
  (forall data,
      body_integral data = true ->
      texts_ok (fst (Part000.post_comunidades data d)) = true
      /\ texts_ok (fst (Part001.post_comunidades data d)) = true
      /\ (forall id,
            texts_ok (fst (Part000.put_comunidade id data d)) = true
            /\ texts_ok (fst (Part001.put_comunidade id data d)) = true))
  /\ (forall id,
        texts_ok (fst (Part000.delete_comunidade id d)) = true
        /\ texts_ok (fst (Part001.delete_comunidade id d)) = true).
Proof.
  intros Hok. split.
  - intros data Hint. split; [|split].
    + unfold Part000.post_comunidades.
      pose proof (insert_comunidade_texts (Part000.vals_of data) d Hok
                    (proj1 (decoded_written _ data Hint))) as Ht.
      destruct (insert_comunidade (Part000.vals_of data) d) as [d' [row|]]; exact Ht.
    + unfold Part001.post_comunidades.
      pose proof (insert_comunidade_texts (Part001.vals_of data) d Hok
                    (proj2 (decoded_written _ data Hint))) as Ht.
      destruct (insert_comunidade (Part001.vals_of data) d) as [d' [row|]]; exact Ht.
    + intros id. unfold Part000.put_comunidade, Part001.put_comunidade. split.
      * destruct (update_comunidade (Part000.vals_of data) id d) as [[d' rows]|] eqn:Hup;
          [|exact Hok].
        exact (update_comunidade_texts _ _ _ _ _ Hok
                 (proj1 (decoded_written id data Hint)) Hup).
      * destruct (update_comunidade (Part001.vals_of data) id d) as [[d' rows]|] eqn:Hup;
          [|exact Hok].
        exact (update_comunidade_texts _ _ _ _ _ Hok
                 (proj2 (decoded_written id data Hint)) Hup).
  - intros id.
    assert (Hdel : texts_ok (delete_comunidade_row id d) = true).
    { apply texts_ok_forall. simpl. apply Forall_forall. intros c Hc.
      apply list_elem_of_filter in Hc as [_ Hc].
      apply texts_ok_forall in Hok. rewrite Forall_forall in Hok. auto. }
    unfold Part000.delete_comunidade, Part001.delete_comunidade.
    destruct (negb (int4 id)); split; assumption.
Qed.

(** X20. On a table that the constraints keep, a community whose create
    was answered 200 heads the list: the first element of GET
    /api/comunidades is the new row, with the id of the response, in the
    second version always and in the first version when the texts of the
    table can be decoded and the two lists of the body are [integral]
    (their numbers are integers of magnitude at most 2^53 and their objects
    have each key once, in the order of the engine). *)
Theorem created_heads_the_list (data : Body.data) (d : db) :
  comunidades_ok d ->
  (forall d' body,
      Part001.post_comunidades data d = (d', Responded 200 body) ->
      exists row more,
        body = Some (JObj (row_members row))
        /\ row = {| com_id := comunidades_seq d + 1;
                    com_vals := stored (Part001.vals_of data) |}
        /\ Part001.get_comunidades d'
           = (d', Responded 200 (Some (JArr (listed d' row :: more)))))
  /\ (forall d' id,
         Part000.post_comunidades data d
         = (d', Responded 200 (Some (JObj [("id", JNum id)]))) ->
         texts_ok d = true -> body_integral data = true ->
         exists more,
           Part000.get_comunidades d'
           = (d', Responded 200
                    (Some (JArr (JObj (row_members
                                         {| com_id := id;
                                            com_vals := stored (Part000.vals_of data) |}
                                       ++ [("levantados",
                                             or_else (Body.levantados data) (JArr []));
                                           ("carismas",
                                             or_else (Body.carismas data) (JArr []))])
                                   :: more))))).
Proof.
  intros Hok.
  assert (Hless : Forall (fun c => com_id c < comunidades_seq d + 1) (comunidades d)).
  { destruct Hok as (_ & Hseq & _). eapply Forall_impl; [exact Hseq|].
    simpl. intros. lia. }
  split.
  - intros d' body. unfold Part001.post_comunidades.
    destruct (insert_comunidade _ d) as [d1 [row|]] eqn:Hins; [|discriminate].
    intros E. injection E as <- <-.
    rewrite insert_comunidade_fresh in Hins by assumption.
    destruct (negb _); [discriminate|].
    destruct (references_etapa _ d); [|discriminate].
    injection Hins as <- <-.
    set (new := {| com_id := comunidades_seq d + 1;
                   com_vals := stored (Part001.vals_of data) |}).
    set (d' := set_comunidades (comunidades d ++ [new]) (comunidades_seq d + 1) d).
    destruct (newest_first (comunidades d) (order_by_id_desc (comunidades d')) new)
      as [more Hmore];
      [apply order_by_perm | apply order_by_id_desc_sorted | exact Hless |].
    exists new, (map (listed d') more). split; [reflexivity|]. split; [reflexivity|].
    unfold Part001.get_comunidades. rewrite Hmore. reflexivity.
  - intros d' id. unfold Part000.post_comunidades.
    destruct (insert_comunidade _ d) as [d1 [row|]] eqn:Hins; [|discriminate].
    intros E Htexts Hint. injection E as <- <-.
    pose proof (insert_comunidade_texts (Part000.vals_of data) d Htexts
                  (proj1 (decoded_written _ data Hint))) as Htexts'.
    rewrite Hins in Htexts'. simpl in Htexts'.
    rewrite insert_comunidade_fresh in Hins by assumption.
    destruct (negb _); [discriminate|].
    destruct (references_etapa _ d); [|discriminate].
    injection Hins as <- <-.
    set (new := {| com_id := comunidades_seq d + 1;
                   com_vals := stored (Part000.vals_of data) |}) in *.
    set (d' := set_comunidades (comunidades d ++ [new]) (comunidades_seq d + 1) d) in *.
    destruct (newest_first (comunidades d) (order_by_id_desc (comunidades d')) new)
      as [more Hmore];
      [apply order_by_perm | apply order_by_id_desc_sorted | exact Hless |].
    apply texts_ok_forall in Htexts'.
    assert (Hall : Forall (fun c => is_Some (Part000.decoded c)) more).
    { apply Forall_forall. intros c Hc.
      rewrite Forall_forall in Htexts'. apply Htexts'.
      apply (order_by_elem (fun x y => com_id y <=? com_id x)).
      fold (order_by_id_desc (comunidades d')). rewrite Hmore. right. exact Hc. }
    apply map_throwing_all in Hall as (bodies & Hmap & _).
    exists bodies.
    unfold Part000.get_comunidades. rewrite Hmore. simpl Part000.map_throwing.
    unfold body_integral in Hint. apply andb_true_iff in Hint as [Hl Hc].
    unfold new at 1.
    rewrite (decoded_vals (comunidades_seq d + 1) (stored (Part000.vals_of data))
               (or_else (Body.levantados data) (JArr []))
               (or_else (Body.carismas data) (JArr [])) eq_refl eq_refl Hl Hc).
    rewrite Hmap. reflexivity.
Qed.

(** X21. Creating a community shows in the charism report.  Take an
    administrator, stored lists that are lists of items that refer to a
    charism by a number, an integer of magnitude at most 2^53
    ([associations_ok]), and a body whose [carismas] is a list of such items
    ([association]) that is [integral] (its numbers are integers of
    magnitude at most 2^53 and its objects have each key once, in the order
    of the engine).  When the create is answered 200, the report that
    follows gives every charism its former number of occurrences plus the
    number of items of the new list that refer to it. *)
Theorem created_charisms_are_counted (admin : claims) (data : Body.data) (d d' : db)
    (body : jsval) (l : list json) :
  claim_is_admin admin = true ->
  forallb associations_ok (comunidades d) = true ->
  Body.carismas data = Some (JArr l) ->
  integral (JArr l) = true ->
  forallb association l = true ->
  Part000.post_comunidades data d = (d', Responded 200 body) ->
  Part000.get_relatorios admin "carismas" d'
  = (d', Responded 200
           (Some (JArr (map (fun c =>
                               JObj [("nome", JStr (car_nome c));
                                     ("total",
                                       JNum (occurrences (car_id c) (comunidades d)
                                             + Z.of_nat
                                                 (length
                                                    (List.filter (refers_to (car_id c))
                                                       (carisma_ids l)))))])
                          (carismas d))))).
Proof.
  intros Hadmin Hok Hc Hint Hassoc. unfold Part000.post_comunidades.
  destruct (insert_comunidade (Part000.vals_of data) d) as [d1 [row|]] eqn:Hins;
    [|discriminate].
  intros E. injection E as <- _.
  assert (Hcar : carismas d1 = carismas d).
  { unfold insert_comunidade in Hins. destruct (negb _); [discriminate|].
    destruct (existsb _ (comunidades d) || negb (references_etapa _ d));
      injection Hins as <- _; reflexivity. }
  apply insert_comunidade_row in Hins as (Hv & _ & Hrows & _).
  assert (Hparse : Part000.parse_or_empty (carismas_json (com_vals row)) = Some (JArr l)).
  { rewrite Hv. cbn [Part000.vals_of stored carismas_json]. rewrite Hc, or_else_array.
    apply stringify_parse_or_empty, Hint. }
  assert (Hok' : forallb associations_ok (comunidades d1) = true).
  { rewrite Hrows, forallb_app, Hok. simpl. unfold associations_ok.
    rewrite Hparse, Hassoc. reflexivity. }
  unfold Part000.get_relatorios, Part000.contagem_of. rewrite Hadmin.
  destruct (contagem_of_counts (comunidades d1) ∅ [] counts_empty Hok')
    as (m & -> & Hm).
  simpl. rewrite Hcar. do 4 f_equal. apply map_ext. intros c.
  rewrite (Hm (car_id c)). simpl. unfold occurrences, all_carisma_items.
  rewrite Hrows, flat_map_app. simpl flat_map at 2. rewrite Hparse, app_nil_r.
  rewrite carisma_ids_app, List.filter_app, length_app, Nat2Z.inj_add. reflexivity.
Qed.

(** X22. On tables whose ids are not ahead of their sequences, [initDb]
    leaves the users and the communities alone, keeps every stage and
    charism that was there, in place, and makes sure the four stages and the
    five charisms of the service exist; run again, it changes no table:
    the seeds are skipped, only the sequences advance. *)
Theorem initDb_seeds_once (d : db) :
  options_ok d ->
  options_ok (initDb d)
  /\ users (initDb d) = users d /\ comunidades (initDb d) = comunidades d
  /\ (exists more, etapas (initDb d) = etapas d ++ more)
  /\ (exists more, carismas (initDb d) = carismas d ++ more)
  /\ (forall n, n ∈ ["Iniciação"; "Formação"; "Missão"; "Consolidação"] ->
                n ∈ map et_nome (etapas (initDb d)))
  /\ (forall n, n ∈ ["Encontro"; "Animação"; "Acolhida"; "Evangelização"; "Liturgia"] ->
                n ∈ map car_nome (carismas (initDb d)))
  /\ etapas (initDb (initDb d)) = etapas (initDb d)
  /\ carismas (initDb (initDb d)) = carismas (initDb d).
Proof.
  intros [He Hc].
  assert (Hrun : forall d0,
             options_ok d0 ->
             options_ok (initDb d0)
             /\ users (initDb d0) = users d0 /\ comunidades (initDb d0) = comunidades d0
             /\ (exists more, etapas (initDb d0) = etapas d0 ++ more)
             /\ (exists more, carismas (initDb d0) = carismas d0 ++ more)
             /\ (forall n, n ∈ ["Iniciação"; "Formação"; "Missão"; "Consolidação"] ->
                           n ∈ map et_nome (etapas (initDb d0)))
             /\ (forall n, n ∈ ["Encontro"; "Animação"; "Acolhida"; "Evangelização";
                                "Liturgia"] ->
                           n ∈ map car_nome (carismas (initDb d0)))
             /\ ((forall n, n ∈ ["Iniciação"; "Formação"; "Missão"; "Consolidação"] ->
                            n ∈ map et_nome (etapas d0)) ->
                 etapas (initDb d0) = etapas d0)
             /\ ((forall n, n ∈ ["Encontro"; "Animação"; "Acolhida"; "Evangelização";
                                 "Liturgia"] ->
                            n ∈ map car_nome (carismas d0)) ->
                 carismas (initDb d0) = carismas d0)).
  { intros d0 [He0 Hc0]. unfold initDb.
    set (ns := ["Iniciação"; "Formação"; "Missão"; "Consolidação"]).
    set (cs := ["Encontro"; "Animação"; "Acolhida"; "Evangelização"; "Liturgia"]).
    destruct (seed_etapas_fold ns d0 He0)
      as (E1 & E2 & E3 & E4 & E5 & E6 & E7 & E8 & E9 & E10).
    set (d1 := fold_left seed_etapa ns d0) in *.
    assert (Hc1 : Forall (fun c => car_id c <= carismas_seq d1) (carismas d1))
      by (rewrite E7, E8; exact Hc0).
    destruct (seed_carismas_fold cs d1 Hc1)
      as (C1 & C2 & C3 & C4 & C5 & C6 & C7 & C8 & C9 & C10).
    set (d2 := fold_left seed_carisma cs d1) in *.
    split; [split; [rewrite C7, C8; exact E1 | exact C1]|].
    split; [congruence|]. split; [congruence|].
    split; [rewrite C7; exact E2|].
    split; [rewrite <- E7; exact C2|].
    split; [intros n Hn; rewrite C7; auto|].
    split; [exact C3|].
    split; [intros Hall; rewrite C7; auto|].
    intros Hall. rewrite C4; [exact E7|]. rewrite E7. exact Hall. }
  destruct (Hrun d (conj He Hc)) as (H1 & H2 & H3 & H4 & H5 & H6 & H7 & _ & _).
  destruct (Hrun (initDb d) H1) as (_ & _ & _ & _ & _ & _ & _ & H8 & H9).
  repeat (split; [assumption|]). split; [apply H8, H6 | apply H9, H7].
Qed.

Lemma order_by_asc_sorted {A : Type} (key : A -> Z) (l : list A) :
  StronglySorted (fun x y => key x <= key y)
    (order_by (fun x y => key x <=? key y) l).
Proof.
  apply strongly_sorted_impl with (R1 := fun a b => (key a <=? key b) = true).
  - intros a b Hab. apply Z.leb_le, Hab.
  - apply order_by_sorted.
    + intros a b Hab. apply Z.leb_gt in Hab. apply Z.leb_le. lia.
    + intros a b c Hab Hbc. apply Z.leb_le in Hab, Hbc. apply Z.leb_le. lia.
Qed.

(** X23. GET /api/options answers every stage and every charism exactly
    once, each list by ascending id, and leaves the database as it was. *)
Theorem options_are_complete_and_sorted (d : db) :
  exists es cs,
    es ≡ₚ etapas d /\ StronglySorted (fun x y => et_id x <= et_id y) es
    /\ cs ≡ₚ carismas d /\ StronglySorted (fun x y => car_id x <= car_id y) cs
    /\ get_options d
       = (d, Responded 200
               (Some (JObj [("etapas", JArr (map etapa_json es));
                            ("carismas", JArr (map carisma_json cs))]))).
Proof.
  eexists _, _. split; [apply order_by_perm|].
  split; [apply (order_by_asc_sorted et_id)|].
  split; [apply order_by_perm|].
  split; [apply (order_by_asc_sorted car_id)|]. reflexivity.
Qed.

(** X24. For an administrator the report by diocese answers one entry for
    each distinct value of [nome_diocese] in the table (NULL is one of
    them), and the total of an entry is the number of communities with this
    value, written in decimal. *)
Theorem diocese_report_counts (admin : claims) (d : db) :
  claim_is_admin admin = true ->
  exists groups,
    Part000.get_relatorios admin "diocese" d
    = (d, Responded 200 (Some (JArr (map diocese_json groups))))
    /\ NoDup (map fst groups)
    /\ (forall k, k ∈ map fst groups
                  <-> exists c, c ∈ comunidades d /\ nome_diocese (com_vals c) = k)
    /\ (forall k n, (k, n) ∈ groups ->
                    n = Z.of_nat
                          (length (filter (fun c => nome_diocese (com_vals c) = k)
                                     (comunidades d)))).
Proof.
  intros Hadmin.
  set (keys := map (fun c => nome_diocese (com_vals c)) (comunidades d)).
  exists (group_count same_text keys).
  destruct (group_count_spec same_text same_text_eq keys [] NoDup_nil_2)
    as (Hnd & Hkeys & Htotal).
  fold (group_count same_text keys) in Hnd, Hkeys, Htotal.
  split; [unfold Part000.get_relatorios; rewrite Hadmin; reflexivity|].
  split; [exact Hnd|]. split.
  - intros k. rewrite Hkeys. simpl. rewrite elem_of_nil. unfold keys.
    rewrite list_elem_of_fmap. split.
    + intros [[] | (c & -> & Hc)]. eauto.
    + intros (c & Hc & <-). right. eauto.
  - intros k n Hin.
    rewrite <- (group_total_single same_text same_text_eq k n _ Hnd Hin), Htotal.
    simpl. f_equal. unfold keys. clear.
    induction (comunidades d) as [|c l IH]; [reflexivity|].
    simpl. rewrite filter_cons.
    destruct (same_text k (nome_diocese (com_vals c))) eqn:E.
    + apply same_text_eq in E.
      destruct (decide (nome_diocese (com_vals c) = k)); [|congruence].
      simpl length. lia.
    + destruct (decide (nome_diocese (com_vals c) = k)) as [E'|]; [|exact IH].
      symmetry in E'. apply same_text_eq in E'. congruence.
Qed.

(** X25. For an administrator, and stage ids that are distinct, the report
    by stage answers one entry for each name of a stage that some community
    is in, and the total of an entry is the number of communities whose
    [etapa_id] is the id of a stage of this name; a community with no stage
    is counted nowhere. *)
Theorem stage_report_counts (admin : claims) (d : db) :
  claim_is_admin admin = true ->
  NoDup (map et_id (etapas d)) ->
  exists groups,
    Part000.get_relatorios admin "etapas" d
    = (d, Responded 200 (Some (JArr (map stage_json groups))))
    /\ NoDup (map fst groups)
    /\ (forall k, k ∈ map fst groups
                  <-> exists c e, c ∈ comunidades d /\ e ∈ etapas d
                                  /\ etapa_id (com_vals c) = Some (et_id e)
                                  /\ et_nome e = k)
    /\ (forall k n, (k, n) ∈ groups ->
                    n = Z.of_nat (length (List.filter (in_stage d k) (comunidades d)))).
Proof.
  intros Hadmin Hids.
  exists (group_count String.eqb (Part000.etapa_names d)).
  destruct (group_count_spec String.eqb string_eqb_eq (Part000.etapa_names d) []
              NoDup_nil_2) as (Hnd & Hkeys & Htotal).
  fold (group_count String.eqb (Part000.etapa_names d)) in Hnd, Hkeys, Htotal.
  split; [unfold Part000.get_relatorios; rewrite Hadmin; reflexivity|].
  split; [exact Hnd|]. split.
  - intros k. rewrite Hkeys. simpl. rewrite elem_of_nil.
    unfold Part000.etapa_names. rewrite list_elem_of_In, in_flat_map. split.
    + intros [[] | (c & Hc & Hk)].
      destruct (etapa_id (com_vals c)) as [e|] eqn:Ee; [|destruct Hk].
      apply list_elem_of_In, list_elem_of_fmap in Hk as (x & -> & Hx).
      apply list_elem_of_filter in Hx as [Hid Hx].
      exists c, x. rewrite Hid.
      split; [apply list_elem_of_In; exact Hc|]. split; [exact Hx|]. split; [exact Ee | reflexivity].
    + intros (c & e & Hc & He & Hid & <-). right. exists c.
      split; [apply list_elem_of_In; exact Hc|]. rewrite Hid.
      apply list_elem_of_In, list_elem_of_fmap. exists e. split; [reflexivity|].
      apply list_elem_of_filter. auto.
  - intros k n Hin.
    rewrite <- (group_total_single String.eqb string_eqb_eq k n _ Hnd Hin), Htotal.
    rewrite joined_count by exact Hids. simpl. lia.
Qed.

(** X26. The first version stores whatever value the body gives for its two
    lists, and its reports trust it.  Take a body whose two lists are
    [integral] (their numbers are integers of magnitude at most 2^53 and
    their objects have each key once, in the order of the engine) and whose
    create is answered 200.  If its [carismas] has a [null] item, or is a
    truthy value that cannot be iterated (a non-zero number, [true], an
    object), the charism report then throws for every administrator; if its
    [levantados] is a truthy value that cannot be iterated, the candidates
    report does. *)
Theorem bad_list_breaks_reports (admin : claims) (data : Body.data) (d d' : db)
    (body : jsval) :
  claim_is_admin admin = true ->
  body_integral data = true ->
  Part000.post_comunidades data d = (d', Responded 200 body) ->
  (forall items,
      Body.carismas data = Some (JArr items) -> JNull ∈ items ->
      Part000.get_relatorios admin "carismas" d' = (d', Threw))
  /\ (forall v,
        Body.carismas data = Some v -> truthy (Some v) = true -> iterate v = None ->
        Part000.get_relatorios admin "carismas" d' = (d', Threw))
  /\ (forall v,
        Body.levantados data = Some v -> truthy (Some v) = true -> iterate v = None ->
        Part000.get_relatorios admin "vocacionados" d' = (d', Threw)).
Proof.
  intros Hadmin Hint Hpost. unfold Part000.post_comunidades in Hpost.
  destruct (insert_comunidade (Part000.vals_of data) d) as [d1 [row|]] eqn:Hins;
    [|discriminate].
  injection Hpost as <- _.
  apply insert_comunidade_row in Hins as (Hvals & _ & Hrows & _).
  unfold body_integral in Hint. apply andb_true_iff in Hint as [Hl Hc].
  assert (Hcar : forall v, Body.carismas data = Some v -> truthy (Some v) = true ->
            Part000.contagem_of (comunidades d1)
            = Part000.count_row (Part000.contagem_of (comunidades d)) (Some (JSON_stringify v))).
  { intros v Hv Ht. unfold Part000.contagem_of.
    rewrite Hrows, map_app, fold_left_app. simpl. rewrite Hvals. simpl.
    rewrite Hv, or_else_truthy by exact Ht. reflexivity. }
  unfold Part000.get_relatorios. rewrite Hadmin. simpl. repeat apply conj.
  - intros items Hv Hin. rewrite (Hcar _ Hv eq_refl).
    rewrite Hv in Hc. rewrite or_else_truthy in Hc by reflexivity.
    unfold Part000.count_row.
    destruct (Part000.contagem_of (comunidades d)); [|reflexivity].
    rewrite stringify_parse_or_empty by exact Hc. simpl.
    rewrite count_item_null by exact Hin. reflexivity.
  - intros v Hv Ht Hit. rewrite (Hcar _ Hv Ht).
    rewrite Hv in Hc. rewrite or_else_truthy in Hc by exact Ht.
    unfold Part000.count_row.
    destruct (Part000.contagem_of (comunidades d)); [|reflexivity].
    rewrite stringify_parse_or_empty by exact Hc. rewrite Hit. reflexivity.
  - intros v Hv Ht Hit.
    rewrite Hrows, map_app, fold_left_app. simpl. rewrite Hvals. simpl.
    rewrite Hv, or_else_truthy by exact Ht.
    rewrite Hv in Hl. rewrite or_else_truthy in Hl by exact Ht.
    unfold Part000.push_row at 1.
    destruct (fold_left Part000.push_row _ (Some [])); [|reflexivity].
    rewrite stringify_parse_or_empty by exact Hl. rewrite Hit. reflexivity.
Qed.

(** X27. Whatever requests come, in whatever order, until one makes its
    handler throw, which ends the process, each of the three applications
    keeps the tables as the constraints want them (distinct ids and e-mails,
    no id ahead of its sequence, every [etapa_id] the id of a stage) and
    keeps the stored texts decodable, when the two lists of every body are
    [integral] (their numbers are integers of magnitude at most 2^53 and
    their objects have each key once, in the order of the engine).  So, on
    the database the requests leave, the list of the first version does not
    throw, and neither does its read of a community by an id in the range of
    INTEGER. *)
Theorem apps_keep_tables (rs : list request) (d : db) :
  tables_ok d ->
  forallb request_integral rs = true ->
  tables_ok (run part000_app rs d)
  /\ tables_ok (run part001_app rs d)
  /\ tables_ok (run server_app rs d)
  /\ (forall header,
        snd (part000_app (GetComunidades header) (run part000_app rs d)) <> Threw)
  /\ (forall header id,
        int4 id = true ->
        snd (part000_app (GetComunidade header id) (run part000_app rs d)) <> Threw).
Proof.
  intros Hok Hint.
  assert (H0 : tables_ok (run part000_app rs d))
    by (apply (run_keeps _ request_integral); auto using part000_app_keeps).
  split; [exact H0|].
  split; [apply (run_keeps _ request_integral); auto using part001_app_keeps|].
  split; [apply (run_keeps _ request_integral); auto using server_app_keeps|].
  destruct H0 as (_ & _ & _ & Ht). split.
  - intros header. simpl.
    destruct (guard000_cases header (fun _ => Part000.get_comunidades)
                (run part000_app rs d)) as [[b ->] | [c ->]]; [discriminate|].
    apply get_comunidades_answers, Ht.
  - intros header id Hid. simpl.
    destruct (guard000_cases header (fun _ => Part000.get_comunidade id)
                (run part000_app rs d)) as [[b ->] | [c ->]]; [discriminate|].
    apply get_comunidade_answers; [exact Ht | exact Hid].
Qed.

End properties.

(** ** The properties on the examples *)

Section extras_on_examples.
#[local] Existing Instance toy_libs.

Lemma register_then_login_witness :
  exists u,
    users with_ana = users seeded ++ [u]
    /\ Some (user_email u) = Register.email ana_body
    /\ user_name u = str_or (Register.name ana_body) EmptyString
    /\ user_is_admin u = default false (Register.is_admin ana_body)
    /\ @post_login toy_libs (Register.email ana_body) (Some "segredo") with_ana
       = (with_ana,
          Responded 200 (Some (JObj [("token", JStr (@gerarToken toy_libs u));
                                     ("user", login_user u)]))).
Proof.
  eapply (@register_then_login toy_libs ana_body "salt1" "segredo" seeded with_ana);
    reflexivity.
Defined.

Lemma guard_needs_verified_part_witness :
  exists msg,
    (msg = "Sem token" \/ msg = "Token inválido")
    /\ @Part000.verificarToken toy_libs (Some "Bearer nope") (fun _ => get_options) seeded
       = (seeded, Responded 401 (error msg))
    /\ @Part001.verificarToken toy_libs (Some "Bearer nope") (fun _ => get_options) seeded
       = (seeded, Responded 401 (error msg))
    /\ @Server.verificarToken toy_libs (Some "Bearer nope") (fun _ => get_options) seeded
       = (seeded, Responded 401 (error msg)).
Proof.
  apply (@guard_needs_verified_part toy_libs (Some "Bearer nope")).
  intros t Ht. vm_compute in Ht.
  repeat (apply elem_of_cons in Ht as [-> | Ht]; [reflexivity|]).
  inversion Ht.
Defined.

Lemma login_token_passes_guards_witness :
  exists u tok,
    u ∈ users with_ana /\ Some (user_email u) = Some "ana@example.org"
    /\ @bcrypt_compare toy_libs "segredo" (user_password u) = true
    /\ Some (JObj [("token", JStr "jwt-1");
                   ("user", JObj [("id", JNum 1); ("email", JStr "ana@example.org");
                                  ("name", JStr "Ana"); ("is_admin", JBool true)])])
       = Some (JObj [("token", JStr tok); ("user", login_user u)])
    /\ (no_space tok = true ->
        forall next,
          @Part000.verificarToken toy_libs (Some ("Bearer " +:+ tok)) next with_ana
          = next (claims_of u) with_ana
          /\ @Part001.verificarToken toy_libs (Some ("Bearer " +:+ tok)) next with_ana
             = next (claims_of u) with_ana
          /\ @Server.verificarToken toy_libs (Some ("Bearer " +:+ tok)) next with_ana
             = next (claims_of u) with_ana).
Proof.
  apply (@login_token_passes_guards toy_libs (Some "ana@example.org") "segredo" with_ana);
    [|reflexivity].
  intros u Hu. vm_compute in Hu.
  apply list_elem_of_singleton in Hu as ->. reflexivity.
Defined.

Lemma registered_flag_opens_reports_witness :
  exists tok user_json,
    Some (JObj [("token", JStr "jwt-1");
                ("user", JObj [("id", JNum 1); ("email", JStr "ana@example.org");
                               ("is_admin", JBool true)])])
    = Some (JObj [("token", JStr tok); ("user", user_json)])
    /\ (no_space tok = true ->
        exists out,
          @part000_relatorios toy_libs (Some ("Bearer " +:+ tok)) "diocese" with_ana
          = (with_ana, out)
          /\ (default false (Register.is_admin ana_body) = false ->
              out = Responded 403 (error "Acesso restrito"))
          /\ (default false (Register.is_admin ana_body) = true ->
              out = Threw \/ exists report, out = Responded 200 report)).
Proof.
  apply (@registered_flag_opens_reports toy_libs ana_body "salt1" "diocese" seeded with_ana);
    [|reflexivity].
  intros u Hu. vm_compute in Hu.
  apply list_elem_of_singleton in Hu as ->. reflexivity.
Defined.

Lemma users_stay_ok_witness :
  (forall b salt, users_ok (fst (@post_register toy_libs b salt with_rui)))
  /\ (forall message req_user body salt,
        users_ok (fst (@put_user toy_libs message req_user body salt with_rui)))
  /\ (forall e, (length (users_by_email e with_rui) <= 1)%nat)
  /\ (forall id, (length (users_by_id id with_rui) <= 1)%nat).
Proof.
  apply (@users_stay_ok toy_libs with_rui).
  unfold users_ok. compute_done.
Defined.


Lemma put_user_touches_only_caller_witness :
  let d' := fst (@put_user toy_libs "Erro ao atualizar (email já usado)" rui_claims
                   {| Profile.name := Some "Rui Silva"; Profile.email := None;
                      Profile.password := None |} "salt3" with_rui) in
  length (users d') = length (users with_rui)
  /\ (forall i u, users with_rui !! i = Some u ->
        exists u', users d' !! i = Some u'
                   /\ user_id u' = user_id u /\ user_is_admin u' = user_is_admin u
                   /\ (user_id u <> claim_id rui_claims -> u' = u))
  /\ users_seq d' = users_seq with_rui /\ comunidades d' = comunidades with_rui
  /\ comunidades_seq d' = comunidades_seq with_rui
  /\ etapas d' = etapas with_rui /\ carismas d' = carismas with_rui.
Proof.
  intros d'.
  apply (@put_user_touches_only_caller toy_libs "Erro ao atualizar (email já usado)"
           rui_claims
           {| Profile.name := Some "Rui Silva"; Profile.email := None;
              Profile.password := None |} "salt3" with_rui d'
           (Responded 200 ok_true)).
  reflexivity.
Defined.

Lemma put_user_then_login_witness :
  let d' := fst (@put_user toy_libs "Erro ao atualizar (email já usado)" ana_claims
                   {| Profile.name := None; Profile.email := Some "ana@example.com";
                      Profile.password := Some "novo" |} "salt2" with_ana) in
  exists u,
    user_id u = 1
    /\ user_email u = "ana@example.com"
    /\ user_password u = "$2b$10$salt2.novo"
    /\ @post_login toy_libs (Some (user_email u)) (Some "novo") d'
       = (d', Responded 200 (Some (JObj [("token", JStr (@gerarToken toy_libs u));
                                         ("user", login_user u)]))).
Proof.
  intros d'.
  apply (@put_user_then_login toy_libs "Erro ao atualizar (email já usado)" ana_claims
           {| Profile.name := None; Profile.email := Some "ana@example.com";
              Profile.password := Some "novo" |} "salt2" "novo" with_ana d'
           {| user_id := 1; user_name := "Ana"; user_email := "ana@example.org";
              user_password := "$2b$10$salt1.segredo"; user_is_admin := true |} []);
    [reflexivity | reflexivity | reflexivity | discriminate | reflexivity].
Defined.

Lemma put_then_get_witness :
  let d' := fst (Part000.put_comunidade 1 body_y x_y) in
  exists ms,
    Part000.get_comunidade 1 d' = (d', Responded 200 (Some (JObj ms)))
    /\ member "id" ms = Some (JNum 1)
    /\ member "nome_diocese" ms = Some (JStr "Porto")
    /\ member "qtd_total" ms = Some (JNum 12)
    /\ member "data_formacao" ms = Some (JStr "2019-10-06T00:00:00.000Z")
    /\ member "data_ultima_etapa" ms = Some (JStr "2023-04-09T00:00:00.000Z")
    /\ member "levantados" ms
       = Some (JArr [JObj [("name", JStr "Y")]; JObj [("name", JStr "Z")]])
    /\ member "carismas" ms
       = Some (JArr [JObj [("carisma_id", JNum 1)]; JObj [("carisma_id", JNum 2)]]).
Proof.
  intros d'. eexists. split.
  - refine (proj1 (put_then_get 1 body_y x_y _ _ eq_refl) d' eq_refl eq_refl).
  - repeat split.
Defined.

Lemma put_resets_omitted_fields_witness :
  let d' := fst (Part000.put_comunidade 2 no_body x_y) in
  exists row' rest',
    comunidades_by_id 2 d' = row' :: rest'
    /\ com_vals row' = stored (Part000.vals_of no_body)
    /\ qtd_total (com_vals row') = Some 0
    /\ nome_diocese (com_vals row') = None
    /\ data_formacao (com_vals row') = None
    /\ carismas_json (com_vals row') = Some "[]".
Proof.
  intros d'.
  destruct (proj1 (put_resets_omitted_fields 2 no_body x_y _ _ eq_refl) d' eq_refl)
    as (row' & rest' & Hby & Hall & _ & Hdiocese & _ & _ & _ & _ & _ & Htotal & _ & _
        & Hdate & _ & _ & Hcarismas).
  exists row', rest'. split; [exact Hby|]. split; [exact Hall|].
  split; [exact (Htotal eq_refl)|]. split; [exact (Hdiocese eq_refl)|].
  split; [exact (Hdate eq_refl) | exact (Hcarismas eq_refl)].
Defined.

Lemma delete_then_get_witness :
  exists d',
    Part000.delete_comunidade 1 x_y = (d', Responded 200 ok_true)
    /\ Part000.get_comunidade 1 d' = (d', Responded 404 (error "Não encontrado"))
    /\ Part001.get_comunidade 1 d'
       = (d', Responded 404 (error "Comunidade não encontrada"))
    /\ Part000.delete_comunidade 1 d' = (d', Responded 200 ok_true)
    /\ Part001.delete_comunidade 1 d' = (d', Responded 200 ok_true).
Proof. apply (delete_then_get 1 x_y). reflexivity. Defined.

Lemma comunidades_stay_ok_witness :
  (forall data, comunidades_ok (fst (Part000.post_comunidades data two_x))
                /\ comunidades_ok (fst (Part001.post_comunidades data two_x)))
  /\ (forall id data, comunidades_ok (fst (Part000.put_comunidade id data two_x))
                      /\ comunidades_ok (fst (Part001.put_comunidade id data two_x)))
  /\ (forall id, comunidades_ok (fst (Part000.delete_comunidade id two_x))
                 /\ comunidades_ok (fst (Part001.delete_comunidade id two_x)))
  /\ (forall id, (length (comunidades_by_id id two_x) <= 1)%nat).
Proof.
  apply (comunidades_stay_ok two_x). unfold comunidades_ok. compute_done.
Defined.

Lemma create_outcomes_witness :
  Part000.post_comunidades stage_99_body two_x
  = (set_comunidades (comunidades two_x) 3 two_x, Threw)
  /\ Part001.post_comunidades stage_99_body two_x
     = (set_comunidades (comunidades two_x) 3 two_x,
        Responded 400 (error "Erro ao criar comunidade"))
  /\ Part000.post_comunidades big_body two_x = (two_x, Threw)
  /\ Part001.post_comunidades undated_body two_x
     = (two_x, Responded 400 (error "Erro ao criar comunidade")).
Proof.
  assert (Hok : comunidades_ok two_x) by (unfold comunidades_ok; compute_done).
  destruct (create_outcomes stage_99_body two_x Hok) as (H0 & _ & H1 & _).
  destruct (create_outcomes big_body two_x Hok) as (_ & H2 & _).
  destruct (create_outcomes undated_body two_x Hok) as (_ & _ & _ & H3).
  split; [exact (proj2 (H0 eq_refl) eq_refl)|].
  split; [exact (proj2 (H1 eq_refl) eq_refl)|].
  split; [exact (H2 eq_refl) | exact (H3 eq_refl)].
Defined.

Lemma get_comunidade_responds_witness :
  (comunidades_by_id 2 x_y = []
   /\ Part000.get_comunidade 2 x_y = (x_y, Responded 404 (error "Não encontrado")))
  \/ (exists row rest body,
        comunidades_by_id 2 x_y = row :: rest
        /\ Part000.decoded row = Some body
        /\ Part000.get_comunidade 2 x_y = (x_y, Responded 200 (Some body))).
Proof. apply (proj1 (get_comunidade_responds 2 x_y eq_refl)). reflexivity. Defined.


Lemma texts_stay_json_witness :
  (forall data,
      body_integral data = true ->
      texts_ok (fst (Part000.post_comunidades data two_x)) = true
      /\ texts_ok (fst (Part001.post_comunidades data two_x)) = true
      /\ (forall id,
            texts_ok (fst (Part000.put_comunidade id data two_x)) = true
            /\ texts_ok (fst (Part001.put_comunidade id data two_x)) = true))
  /\ (forall id,
        texts_ok (fst (Part000.delete_comunidade id two_x)) = true
        /\ texts_ok (fst (Part001.delete_comunidade id two_x)) = true).
Proof. apply (texts_stay_json two_x). reflexivity. Defined.

Lemma created_heads_the_list_witness :
  exists row more,
    snd (Part001.post_comunidades body_y two_x)
    = Responded 200
        (Some (JObj (row_members
                       {| com_id := 3; com_vals := stored (Part001.vals_of body_y) |})))
    /\ Some (JObj (row_members
                     {| com_id := 3; com_vals := stored (Part001.vals_of body_y) |}))
       = Some (JObj (row_members row))
    /\ row = {| com_id := 3; com_vals := stored (Part001.vals_of body_y) |}
    /\ Part001.get_comunidades (fst (Part001.post_comunidades body_y two_x))
       = (fst (Part001.post_comunidades body_y two_x),
          Responded 200
            (Some (JArr (listed (fst (Part001.post_comunidades body_y two_x)) row
                           :: more)))).
Proof.
  assert (Hok : comunidades_ok two_x) by (unfold comunidades_ok; compute_done).
  assert (Hpost : Part001.post_comunidades body_y two_x
                  = (fst (Part001.post_comunidades body_y two_x),
                     Responded 200
                       (Some (JObj (row_members
                                      {| com_id := 3;
                                         com_vals := stored (Part001.vals_of body_y) |})))))
    by (vm_compute; reflexivity).
  destruct (proj1 (created_heads_the_list body_y two_x Hok) _ _ Hpost)
    as (row & more & Hbody & Hrow & Hlist).
  exists row, more. split; [reflexivity|]. split; [exact Hbody|].
  split; [exact Hrow | exact Hlist].
Defined.

Lemma created_charisms_are_counted_witness :
  Part000.get_relatorios ana_claims "carismas" two_x
  = (two_x,
     Responded 200
       (Some (JArr (map (fun c =>
                           JObj [("nome", JStr (car_nome c));
                                 ("total",
                                   JNum (occurrences (car_id c)
                                           (comunidades
                                              (fst (Part000.post_comunidades body_x seeded)))
                                         + Z.of_nat
                                             (length
                                                (List.filter (refers_to (car_id c))
                                                   (carisma_ids
                                                      [JObj [("carisma_id", JNum 2)]])))))])
                      (carismas (fst (Part000.post_comunidades body_x seeded))))))).
Proof.
  apply (created_charisms_are_counted ana_claims body_x
           (fst (Part000.post_comunidades body_x seeded)) two_x
           (Some (JObj [("id", JNum 2)])) [JObj [("carisma_id", JNum 2)]]);
    reflexivity.
Defined.

Lemma initDb_seeds_once_witness :
  options_ok seeded
  /\ users seeded = [] /\ comunidades seeded = []
  /\ (exists more, etapas seeded = [] ++ more)
  /\ (exists more, carismas seeded = [] ++ more)
  /\ (forall n, n ∈ ["Iniciação"; "Formação"; "Missão"; "Consolidação"] ->
                n ∈ map et_nome (etapas seeded))
  /\ (forall n, n ∈ ["Encontro"; "Animação"; "Acolhida"; "Evangelização"; "Liturgia"] ->
                n ∈ map car_nome (carismas seeded))
  /\ etapas (initDb seeded) = etapas seeded
  /\ carismas (initDb seeded) = carismas seeded.
Proof.
  apply (initDb_seeds_once empty_db). unfold options_ok. compute_done.
Defined.

Lemma diocese_report_counts_witness :
  exists groups,
    Part000.get_relatorios ana_claims "diocese" two_x
    = (two_x, Responded 200 (Some (JArr (map diocese_json groups))))
    /\ NoDup (map fst groups)
    /\ (forall k, k ∈ map fst groups
                  <-> exists c, c ∈ comunidades two_x /\ nome_diocese (com_vals c) = k)
    /\ (forall k n, (k, n) ∈ groups ->
                    n = Z.of_nat
                          (length (filter (fun c => nome_diocese (com_vals c) = k)
                                     (comunidades two_x)))).
Proof. apply (diocese_report_counts ana_claims two_x). reflexivity. Defined.

Lemma stage_report_counts_witness :
  let d := fst (Part000.post_comunidades null_item_body two_x) in
  exists groups,
    Part000.get_relatorios ana_claims "etapas" d
    = (d, Responded 200 (Some (JArr (map stage_json groups))))
    /\ NoDup (map fst groups)
    /\ (forall k, k ∈ map fst groups
                  <-> exists c e, c ∈ comunidades d /\ e ∈ etapas d
                                  /\ etapa_id (com_vals c) = Some (et_id e)
                                  /\ et_nome e = k)
    /\ (forall k n, (k, n) ∈ groups ->
                    n = Z.of_nat (length (List.filter (in_stage d k) (comunidades d)))).
Proof.
  intros d. apply (stage_report_counts ana_claims d); [reflexivity|]. compute_done.
Defined.

Lemma bad_list_breaks_reports_witness :
  let d' := fst (Part000.post_comunidades null_item_body seeded) in
  Part000.get_relatorios ana_claims "carismas" d' = (d', Threw)
  /\ Part000.get_relatorios ana_claims "vocacionados" d' = (d', Threw).
Proof.
  intros d'.
  destruct (bad_list_breaks_reports ana_claims null_item_body seeded d'
              (Some (JObj [("id", JNum 1)])) eq_refl eq_refl eq_refl) as (H1 & _ & H3).
  split.
  - apply (H1 [JNull] eq_refl). left.
  - exact (H3 (JNum 5) eq_refl eq_refl eq_refl).
Defined.

Lemma apps_keep_tables_witness :
  tables_ok (run part000_app session seeded)
  /\ tables_ok (run part001_app session seeded)
  /\ tables_ok (run server_app session seeded)
  /\ (forall header,
        snd (part000_app (GetComunidades header) (run part000_app session seeded))
        <> Threw)
  /\ (forall header id,
        int4 id = true ->
        snd (part000_app (GetComunidade header id) (run part000_app session seeded))
        <> Threw).
Proof.
  apply (apps_keep_tables session seeded); [|reflexivity].
  unfold tables_ok, users_ok, comunidades_ok, options_ok. compute_done.
Defined.

End extras_on_examples.
